(** * Chat application: message synchronisation and friend-request acceptance

    A shallow embedding of the two stateful React components of the
    application, [ChatWindow] and [FriendsList], over a small model of the
    hosted store they talk to (tables, ordered range query, conditional
    writes, change feed).  Component state is passed explicitly; calls to the
    store run in a state monad over the outside world, and the [throw] /
    [catch] of the asynchronous functions is an error layer on top of it. *)

From Stdlib Require Import String Ascii List ZArith Arith Bool Lia Sorted.
From Stdlib Require Import DecimalString.
Import ListNotations.
Open Scope string_scope.
Open Scope list_scope.
Open Scope nat_scope.

(** ** JavaScript string helpers *)

Module Js.

(** Characters are the code units U+0000 .. U+00FF.  In that range the
    white space and line terminators removed by [String.prototype.trim]
    are TAB, LF, VT, FF, CR, SPACE and NO-BREAK SPACE. *)
Definition isWhiteSpace (c : ascii) : bool :=
  let n := nat_of_ascii c in
  ((9 <=? n) && (n <=? 13)) || (n =? 32) || (n =? 160).

Fixpoint dropWhile {A : Type} (p : A -> bool) (l : list A) : list A :=
  match l with
  | [] => []
  | x :: l' => if p x then dropWhile p l' else l
  end.

Definition trimStart (s : string) : string :=
  string_of_list_ascii (dropWhile isWhiteSpace (list_ascii_of_string s)).

Definition trimEnd (s : string) : string :=
  string_of_list_ascii
    (rev (dropWhile isWhiteSpace (rev (list_ascii_of_string s)))).

Definition trim (s : string) : string := trimEnd (trimStart s).

(** Truthiness of a string: every string but the empty one. *)
Definition truthy (s : string) : bool := negb (s =? "")%string.

(** [a || b] on strings. *)
Definition or_else (a b : string) : string := if truthy a then a else b.

(** The body holds nothing but white space (the empty body included). *)
Definition blank (s : string) : Prop :=
  Forall (fun c => isWhiteSpace c = true) (list_ascii_of_string s).

End Js.

(** ** State passing

    Asynchronous code that talks to the outside world is a function from the
    world before to a result and the world after. *)

Module StateM.

Definition M (W A : Type) : Type := W -> A * W.

Definition ret {W A} (a : A) : M W A := fun w => (a, w).

Definition bind {W A B} (c : M W A) (k : A -> M W B) : M W B :=
  fun w => let (a, w') := c w in k a w'.

Notation "x <- c ;; k" := (bind c (fun x => k))
  (at level 61, c at next level, right associativity).
Notation "c ;; k" := (bind c (fun _ => k))
  (at level 61, right associativity).

(** [try { .. throw e .. } catch (e) { .. }]: a computation that may stop
    with an exception; the world keeps the effects that came before. *)
Definition Task (W E A : Type) : Type := M W (E + A).

Definition throw {W E A} (e : E) : Task W E A := ret (inl e).

Definition pure {W E A} (a : A) : Task W E A := ret (inr a).

Definition lift {W E A} (c : M W A) : Task W E A :=
  fun w => let (a, w') := c w in (inr a, w').

Definition bindT {W E A B} (c : Task W E A) (k : A -> Task W E B)
  : Task W E B :=
  fun w => match c w with
           | (inl e, w') => (inl e, w')
           | (inr a, w') => k a w'
           end.

Definition try_catch {W E A} (body : Task W E A) (handler : E -> M W A)
  : M W A :=
  fun w => match body w with
           | (inl e, w') => handler e w'
           | (inr a, w') => (a, w')
           end.

Notation "x <~ c ;; k" := (bindT c (fun x => k))
  (at level 61, c at next level, right associativity).
Notation "c ~;; k" := (bindT c (fun _ => k))
  (at level 61, right associativity).

End StateM.
Import StateM.

(** ** The store

    The hosted database and its client library are outside the repository.
    The model keeps the tables and columns the components name and the
    capabilities the specification lists for the store (ranged ordered read
    with total count, conditional writes, lookup by id, change feed on the
    [messages] table).  [created_at] is a timestamp: the store orders by the
    instant it denotes, and that instant is what is kept here. *)

Module Supabase.

Record UserRow := { user_id : string; user_email : string }.

Record MessageRow := {
  msg_id : string;
  msg_content : string;
  msg_created_at : Z;
  msg_sender_id : string;
  msg_conversation_id : string
}.

Record FriendRequestRow := {
  fr_id : string;
  fr_sender_id : string;
  fr_receiver_id : string;
  fr_status : string;
  fr_created_at : Z
}.

Record ConversationRow := { conv_id : string; conv_created_at : Z }.

Record ParticipantRow := {
  part_conversation_id : string;
  part_user_id : string
}.

Record Db := {
  users : list UserRow;
  messages : list MessageRow;
  friend_requests : list FriendRequestRow;
  conversations : list ConversationRow;
  participants : list ParticipantRow;
  clock : Z;          (* now() of the next write *)
  next_id : nat       (* source of generated primary keys *)
}.

(** The [error] member of a response. *)
Record PgError := { message : string }.

(** Row-level change records of the [messages] table. *)
Inductive Change :=
| INSERT (new : MessageRow)
| UPDATE (new : MessageRow)
| DELETE (old : MessageRow).

(** Requests the client has sent, in the order they were issued. *)
Inductive Call :=
| SelectMessages (conversation : string) (from to : nat)
| SelectUserEmail (id : string)
| InsertMessage (conversation sender content : string)
| UpdateMessage (id sender content : string)
| DeleteMessage (id sender : string)
| UpdateRequestStatus (id status : string)
| InsertConversation
| InsertParticipants (rows : list ParticipantRow).

Inductive ToastKind := Success | Failure.

(** Everything outside component state: the database, the fate of the
    coming requests ([Some e]: the request fails with [e] and the database
    is not touched; an exhausted script means no failure), the requests
    issued so far, the change records emitted so far, the notifications
    shown to the user and the number of scheduled jumps to the latest
    message. *)
Record World := {
  db : Db;
  net : list (option PgError);
  calls : list Call;
  feed : list Change;
  toasts : list (ToastKind * string);
  scrolls : nat
}.

Definition Store (A : Type) : Type := M World A.

Definition with_db (d : Db) (w : World) : World :=
  {| db := d; net := net w; calls := calls w; feed := feed w;
     toasts := toasts w; scrolls := scrolls w |}.

Definition emit (evs : list Change) : Store unit := fun w =>
  (tt, {| db := db w; net := net w; calls := calls w;
          feed := feed w ++ evs;
          toasts := toasts w; scrolls := scrolls w |}).

Definition toast (k : ToastKind) (text : string) : Store unit := fun w =>
  (tt, {| db := db w; net := net w; calls := calls w; feed := feed w;
          toasts := toasts w ++ [(k, text)]; scrolls := scrolls w |}).

(** [setTimeout(scrollToBottom, 100)]. *)
Definition schedule_scroll : Store unit := fun w =>
  (tt, {| db := db w; net := net w; calls := calls w; feed := feed w;
          toasts := toasts w; scrolls := S (scrolls w) |}).

(** Sending a request records it and consumes one entry of the script. *)
Definition request (c : Call) : Store (option PgError) := fun w =>
  (hd None (net w),
   {| db := db w; net := tl (net w); calls := calls w ++ [c];
      feed := feed w; toasts := toasts w; scrolls := scrolls w |}).

(** The [n]-th coming request does not fail. *)
Definition ok_at (n : nat) (w : World) : Prop := nth n (net w) None = None.

Definition read_db : Store Db := fun w => (db w, w).

Definition write_db (d : Db) : Store unit := fun w => (tt, with_db d w).

(** Generated keys: a prefix and the decimal value of the counter. *)
Definition gen_id (prefix : string) (n : nat) : string :=
  (prefix ++ NilEmpty.string_of_uint (Nat.to_uint n))%string.

(** *** Ordered range query on [messages] *)

(** The embedded resource [sender:sender_id(email)] arrives either as one
    object (or null) or as an array of objects. *)
Record SenderJson := { email : string }.

Inductive Embedded :=
| EmbObject (o : option SenderJson)
| EmbArray (l : list SenderJson).

Record MessageJson := {
  json_id : string;
  json_content : string;
  json_created_at : Z;
  json_sender_id : string;
  json_conversation_id : string;
  json_sender : Embedded
}.

(** What every request resolves to. *)
Record Response (A : Type) := {
  data : option A;
  error : option PgError;
  count : option nat
}.
Arguments data {A} _.
Arguments error {A} _.
Arguments count {A} _.

Definition failed {A} (e : PgError) : Response A :=
  {| data := None; error := Some e; count := None |}.

Definition done {A} (a : option A) : Response A :=
  {| data := a; error := None; count := None |}.

(** [if (error) throw error;] *)
Definition throw_on_error {A} (r : Response A) : Task World PgError unit :=
  match error r with
  | Some e => throw e
  | None => pure tt
  end.

(** [order('created_at', { ascending: false })], stable. *)
Fixpoint insert_desc (x : MessageRow) (l : list MessageRow) : list MessageRow :=
  match l with
  | [] => [x]
  | y :: l' =>
      if (msg_created_at y <=? msg_created_at x)%Z
      then x :: y :: l'
      else y :: insert_desc x l'
  end.

Definition order_desc (l : list MessageRow) : list MessageRow :=
  fold_right insert_desc [] l.

(** [range(from, to)], both ends included. *)
Definition range {A} (from to : nat) (l : list A) : list A :=
  firstn (to + 1 - from) (skipn from l).

Definition find_user (d : Db) (id : string) : option UserRow :=
  find (fun u => (user_id u =? id)%string) (users d).

Definition embed_sender (d : Db) (r : MessageRow) : MessageJson :=
  {| json_id := msg_id r;
     json_content := msg_content r;
     json_created_at := msg_created_at r;
     json_sender_id := msg_sender_id r;
     json_conversation_id := msg_conversation_id r;
     json_sender :=
       EmbObject (option_map (fun u => {| email := user_email u |})
                             (find_user d (msg_sender_id r))) |}.

Definition in_conversation (conversation : string) (r : MessageRow) : bool :=
  (msg_conversation_id r =? conversation)%string.

(** The rows of a conversation, most recent first. *)
Definition timeline (d : Db) (conversation : string) : list MessageRow :=
  order_desc (filter (in_conversation conversation) (messages d)).

(** Modelled from the spec: the store's ranged, ordered read
    [query(table, filter, orderBy, rangeStart, rangeEnd) -> (rows, totalCount)],
    as called by
    [from('messages').select(.., { count: 'exact' }).eq('conversation_id', ..)
       .order('created_at', { ascending: false }).range(from, to)]. *)
Definition select_messages (conversation : string) (from to : nat)
  : Store (Response (list MessageJson)) :=
  fate <- request (SelectMessages conversation from to) ;;
  match fate with
  | Some e => ret (failed e)
  | None =>
      d <- read_db ;;
      let rows := timeline d conversation in
      ret {| data := Some (map (embed_sender d) (range from to rows));
             error := None;
             count := Some (length rows) |}
  end.

(** *** [single]: exactly one row, or an error and no effect *)

Definition not_single : PgError :=
  {| message := "JSON object requested, multiple (or no) rows returned" |}.

Definition single {A} (rows : list A) : Response A :=
  match rows with
  | [r] => done (Some r)
  | _ => failed not_single
  end.

(** Modelled from the spec: the store's identity lookup
    [getById(table, id) -> record | notFound], as called by
    [from('users').select('email').eq('id', id).single()]. *)
Definition select_user_email (id : string) : Store (Response SenderJson) :=
  fate <- request (SelectUserEmail id) ;;
  match fate with
  | Some e => ret (failed e)
  | None =>
      d <- read_db ;;
      ret (single (map (fun u => {| email := user_email u |})
                       (filter (fun u => (user_id u =? id)%string) (users d))))
  end.

(** *** Writes on [messages] *)

Definition set_messages (ms : list MessageRow) (d : Db) : Db :=
  {| users := users d; messages := ms;
     friend_requests := friend_requests d;
     conversations := conversations d;
     participants := participants d;
     clock := clock d; next_id := next_id d |}.

(** A write that creates a row takes the next key and the next instant. *)
Definition tick (d : Db) : Db :=
  {| users := users d; messages := messages d;
     friend_requests := friend_requests d;
     conversations := conversations d;
     participants := participants d;
     clock := (clock d + 1)%Z; next_id := S (next_id d) |}.

(** Modelled from the spec: the store's [insert(table, record)]; the store
    assigns id and timestamp and announces the row on the feed.  Called by
    [from('messages').insert({ conversation_id, sender_id, content })]. *)
Definition insert_message (conversation sender content : string)
  : Store (Response unit) :=
  fate <- request (InsertMessage conversation sender content) ;;
  match fate with
  | Some e => ret (failed e)
  | None =>
      d <- read_db ;;
      let row := {| msg_id := gen_id "msg-" (next_id d);
                    msg_content := content;
                    msg_created_at := clock d;
                    msg_sender_id := sender;
                    msg_conversation_id := conversation |} in
      write_db (tick (set_messages (messages d ++ [row]) d)) ;;
      emit [INSERT row] ;;
      ret (done None)
  end.

(** The filter [.eq('id', id).eq('sender_id', sender)]. *)
Definition own_message (id sender : string) (r : MessageRow) : bool :=
  (msg_id r =? id)%string && (msg_sender_id r =? sender)%string.

Definition with_content (content : string) (r : MessageRow) : MessageRow :=
  {| msg_id := msg_id r;
     msg_content := content;
     msg_created_at := msg_created_at r;
     msg_sender_id := msg_sender_id r;
     msg_conversation_id := msg_conversation_id r |}.

(** Modelled from the spec: the store's conditional [update(table, filter,
    patch)]; rows that do not pass the filter are not affected, and no row
    passing is no error.  Called by
    [from('messages').update({ content }).eq('id', ..).eq('sender_id', ..)]. *)
Definition update_message (id sender content : string)
  : Store (Response unit) :=
  fate <- request (UpdateMessage id sender content) ;;
  match fate with
  | Some e => ret (failed e)
  | None =>
      d <- read_db ;;
      let affected := filter (own_message id sender) (messages d) in
      write_db (set_messages
                  (map (fun r => if own_message id sender r
                                 then with_content content r else r)
                       (messages d)) d) ;;
      emit (map (fun r => UPDATE (with_content content r)) affected) ;;
      ret (done None)
  end.

(** Modelled from the spec: the store's conditional [delete(table, filter)].
    Called by [from('messages').delete().eq('id', ..).eq('sender_id', ..)]. *)
Definition delete_message (id sender : string) : Store (Response unit) :=
  fate <- request (DeleteMessage id sender) ;;
  match fate with
  | Some e => ret (failed e)
  | None =>
      d <- read_db ;;
      let affected := filter (own_message id sender) (messages d) in
      write_db (set_messages
                  (filter (fun r => negb (own_message id sender r))
                          (messages d)) d) ;;
      emit (map DELETE affected) ;;
      ret (done None)
  end.

(** *** Writes of the friend-request workflow *)

Definition set_friend_requests (rs : list FriendRequestRow) (d : Db) : Db :=
  {| users := users d; messages := messages d;
     friend_requests := rs;
     conversations := conversations d;
     participants := participants d;
     clock := clock d; next_id := next_id d |}.

Definition set_conversations (cs : list ConversationRow) (d : Db) : Db :=
  {| users := users d; messages := messages d;
     friend_requests := friend_requests d;
     conversations := cs;
     participants := participants d;
     clock := clock d; next_id := next_id d |}.

Definition set_participants (ps : list ParticipantRow) (d : Db) : Db :=
  {| users := users d; messages := messages d;
     friend_requests := friend_requests d;
     conversations := conversations d;
     participants := ps;
     clock := clock d; next_id := next_id d |}.

Definition with_status (status : string) (r : FriendRequestRow)
  : FriendRequestRow :=
  {| fr_id := fr_id r;
     fr_sender_id := fr_sender_id r;
     fr_receiver_id := fr_receiver_id r;
     fr_status := status;
     fr_created_at := fr_created_at r |}.

(** The columns [select('sender_id, receiver_id')] returns. *)
Record RequestJson := { sender_id : string; receiver_id : string }.

(** Modelled from the spec: the store's conditional update returning the
    affected row.  Called by
    [from('friend_requests').update({ status }).eq('id', id)
       .select('sender_id, receiver_id').single()]. *)
Definition update_request_status (id status : string)
  : Store (Response RequestJson) :=
  fate <- request (UpdateRequestStatus id status) ;;
  match fate with
  | Some e => ret (failed e)
  | None =>
      d <- read_db ;;
      let hit r := (fr_id r =? id)%string in
      let r := single (map (fun r => {| sender_id := fr_sender_id r;
                                        receiver_id := fr_receiver_id r |})
                           (filter hit (friend_requests d))) in
      match error r with
      | Some _ => ret r
      | None =>
          write_db (set_friend_requests
                      (map (fun r => if hit r then with_status status r else r)
                           (friend_requests d)) d) ;;
          ret r
      end
  end.

(** The column [select('id')] returns. *)
Record ConversationJson := { id : string }.

(** Modelled from the spec: the store's insert returning the created row.
    Called by [from('conversations').insert({}).select('id').single()]. *)
Definition insert_conversation : Store (Response ConversationJson) :=
  fate <- request InsertConversation ;;
  match fate with
  | Some e => ret (failed e)
  | None =>
      d <- read_db ;;
      let row := {| conv_id := gen_id "conv-" (next_id d);
                    conv_created_at := clock d |} in
      write_db (tick (set_conversations (conversations d ++ [row]) d)) ;;
      ret (single [ {| id := conv_id row |} ])
  end.

(** Modelled from the spec: the store's insert, here of several rows.
    Called by [from('participants').insert([ .., .. ])]. *)
Definition insert_participants (rows : list ParticipantRow)
  : Store (Response unit) :=
  fate <- request (InsertParticipants rows) ;;
  match fate with
  | Some e => ret (failed e)
  | None =>
      d <- read_db ;;
      write_db (set_participants (participants d ++ rows) d) ;;
      ret (done None)
  end.

End Supabase.

(** ** The conversation view ([ChatWindow]) *)

Module ChatWindow.

Record Message := {
  id : string;
  content : string;
  created_at : Z;
  sender_id : string;
  conversation_id : string;
  sender : option Supabase.SenderJson;
  isEditing : option bool          (* isEditing?: boolean *)
}.

(** The view shows the edit box of a message whose flag is truthy. *)
Definition editing (m : Message) : bool :=
  match isEditing m with
  | Some b => b
  | None => false
  end.

Record State := {
  messages : list Message;
  newMessage : string;
  editMessage : string;
  loading : bool;
  page : nat;
  hasMore : bool
}.

Definition initial : State :=
  {| messages := []; newMessage := ""; editMessage := "";
     loading := true; page := 0; hasMore := true |}.

Definition setMessages (f : list Message -> list Message) (st : State) :=
  {| messages := f (messages st); newMessage := newMessage st;
     editMessage := editMessage st; loading := loading st;
     page := page st; hasMore := hasMore st |}.

Definition setNewMessage (v : string) (st : State) :=
  {| messages := messages st; newMessage := v;
     editMessage := editMessage st; loading := loading st;
     page := page st; hasMore := hasMore st |}.

Definition setEditMessage (v : string) (st : State) :=
  {| messages := messages st; newMessage := newMessage st;
     editMessage := v; loading := loading st;
     page := page st; hasMore := hasMore st |}.

Definition setLoading (v : bool) (st : State) :=
  {| messages := messages st; newMessage := newMessage st;
     editMessage := editMessage st; loading := v;
     page := page st; hasMore := hasMore st |}.

Definition setPage (v : nat) (st : State) :=
  {| messages := messages st; newMessage := newMessage st;
     editMessage := editMessage st; loading := loading st;
     page := v; hasMore := hasMore st |}.

Definition setHasMore (v : bool) (st : State) :=
  {| messages := messages st; newMessage := newMessage st;
     editMessage := editMessage st; loading := loading st;
     page := page st; hasMore := v |}.

Definition MESSAGES_PER_PAGE : nat := 20.

(** [{ ...msg, sender: Array.isArray(msg.sender) ? msg.sender[0] : msg.sender }] *)
Definition with_sender (msg : Supabase.MessageJson) : Message :=
  {| id := Supabase.json_id msg;
     content := Supabase.json_content msg;
     created_at := Supabase.json_created_at msg;
     sender_id := Supabase.json_sender_id msg;
     conversation_id := Supabase.json_conversation_id msg;
     sender := match Supabase.json_sender msg with
               | Supabase.EmbArray l => hd_error l
               | Supabase.EmbObject o => o
               end;
     isEditing := None |}.

(** [{ ...msg, isEditing: b }] *)
Definition with_isEditing (b : bool) (msg : Message) : Message :=
  {| id := id msg; content := content msg; created_at := created_at msg;
     sender_id := sender_id msg; conversation_id := conversation_id msg;
     sender := sender msg; isEditing := Some b |}.

(** [{ ...msg, content: c, isEditing: false }] *)
Definition with_content (c : string) (msg : Message) : Message :=
  {| id := id msg; content := c; created_at := created_at msg;
     sender_id := sender_id msg; conversation_id := conversation_id msg;
     sender := sender msg; isEditing := Some false |}.

Section Component.

(** The props of the component. *)
Variables conversationId userId : string.

(** The part of [loadMessages] that runs once the query has resolved. *)
Definition loadMessages_resolved (from : nat) (append : bool)
    (r : Supabase.Response (list Supabase.MessageJson)) (st : State)
  : Supabase.Store State :=
  st' <- try_catch
           (Supabase.throw_on_error r ~;;
            let newMessages :=
              map with_sender
                  (rev (match Supabase.data r with
                        | Some d => d
                        | None => []
                        end)) in
            st1 <~ (if append
                    then pure (setMessages (fun prev => newMessages ++ prev) st)
                    else lift (Supabase.schedule_scroll ;;
                               ret (setMessages (fun _ => newMessages) st))) ;;
            pure (setHasMore
                    (match Supabase.count r with
                     | Some count => from + length newMessages <? count
                     | None => false
                     end) st1))
           (fun error =>
              Supabase.toast Supabase.Failure
                (Js.or_else (Supabase.message error) "Failed to load messages") ;;
              ret st) ;;
  ret (setLoading false st').

Definition loadMessages (pageNumber : nat) (append : bool) (st : State)
  : Supabase.Store State :=
  let from := pageNumber * MESSAGES_PER_PAGE in
  let to := from + MESSAGES_PER_PAGE - 1 in
  r <- Supabase.select_messages conversationId from to ;;
  loadMessages_resolved from append r st.

(** The effect run when the conversation is (re)selected; the
    subscription it sets up is [deliver] below. *)
Definition useEffect (st : State) : Supabase.Store State :=
  loadMessages 0 false (setHasMore true (setPage 0 (setLoading true st))).

(** The [then] callback of the INSERT handler. *)
Definition INSERT_resolved (newMsg : Supabase.MessageRow)
    (r : Supabase.Response Supabase.SenderJson) (st : State)
  : Supabase.Store State :=
  match Supabase.data r with
  | Some data =>
      let messageWithSender :=
        {| id := Supabase.msg_id newMsg;
           content := Supabase.msg_content newMsg;
           created_at := Supabase.msg_created_at newMsg;
           sender_id := Supabase.msg_sender_id newMsg;
           conversation_id := Supabase.msg_conversation_id newMsg;
           sender := Some {| Supabase.email := Supabase.email data |};
           isEditing := None |} in
      Supabase.schedule_scroll ;;
      ret (setMessages (fun prev => prev ++ [messageWithSender]) st)
  | None => ret st
  end.

Definition on_INSERT (newMsg : Supabase.MessageRow) (st : State)
  : Supabase.Store State :=
  r <- Supabase.select_user_email (Supabase.msg_sender_id newMsg) ;;
  INSERT_resolved newMsg r st.

Definition on_UPDATE (updatedMessage : Supabase.MessageRow) (st : State)
  : State :=
  setMessages
    (map (fun msg =>
            if (id msg =? Supabase.msg_id updatedMessage)%string
            then with_content (Supabase.msg_content updatedMessage) msg
            else msg)) st.

Definition on_DELETE (deletedMessage : Supabase.MessageRow) (st : State)
  : State :=
  setMessages
    (filter (fun msg =>
               negb (id msg =? Supabase.msg_id deletedMessage)%string)) st.

(** The subscription: change records of this conversation only. *)
Definition subscribed (row : Supabase.MessageRow) : bool :=
  (Supabase.msg_conversation_id row =? conversationId)%string.

Definition deliver (ev : Supabase.Change) (st : State)
  : Supabase.Store State :=
  match ev with
  | Supabase.INSERT new =>
      if subscribed new then on_INSERT new st else ret st
  | Supabase.UPDATE new =>
      ret (if subscribed new then on_UPDATE new st else st)
  | Supabase.DELETE old =>
      ret (if subscribed old then on_DELETE old st else st)
  end.

Fixpoint deliver_all (evs : list Supabase.Change) (st : State)
  : Supabase.Store State :=
  match evs with
  | [] => ret st
  | ev :: evs' => st' <- deliver ev st ;; deliver_all evs' st'
  end.

(** [scrollTop] is the offset of the container, if it is mounted. *)
Definition handleScroll (scrollTop : option nat) (st : State)
  : Supabase.Store State :=
  match scrollTop with
  | Some top =>
      if (top =? 0) && hasMore st && negb (loading st)
      then let nextPage := page st + 1 in
           loadMessages nextPage true (setPage nextPage (setLoading true st))
      else ret st
  | None => ret st
  end.

Definition sendMessage (st : State) : Supabase.Store State :=
  if negb (Js.truthy (Js.trim (newMessage st))) then ret st
  else
    try_catch
      (r <~ lift (Supabase.insert_message conversationId userId
                    (newMessage st)) ;;
       Supabase.throw_on_error r ~;;
       pure (setNewMessage "" st))
      (fun error =>
         Supabase.toast Supabase.Failure
           (Js.or_else (Supabase.message error) "Failed to send message") ;;
         ret st).

Definition startEditMessage (message : Message) (st : State) : State :=
  setEditMessage (content message)
    (setMessages
       (map (fun msg =>
               if (id msg =? id message)%string
               then with_isEditing true msg
               else with_isEditing false msg)) st).

Definition cancelEditMessage (st : State) : State :=
  setEditMessage "" (setMessages (map (with_isEditing false)) st).

Definition saveEditMessage (messageId : string) (st : State)
  : Supabase.Store State :=
  if negb (Js.truthy (Js.trim (editMessage st))) then ret st
  else
    try_catch
      (r <~ lift (Supabase.update_message messageId userId
                    (editMessage st)) ;;
       Supabase.throw_on_error r ~;;
       pure (setEditMessage "" st))
      (fun error =>
         Supabase.toast Supabase.Failure
           (Js.or_else (Supabase.message error) "Failed to edit message") ;;
         ret st).

Definition deleteMessage (messageId : string) (st : State)
  : Supabase.Store State :=
  try_catch
    (r <~ lift (Supabase.delete_message messageId userId) ;;
     Supabase.throw_on_error r ~;;
     lift (Supabase.toast Supabase.Success "Message deleted") ~;;
     pure st)
    (fun error =>
       Supabase.toast Supabase.Failure
         (Js.or_else (Supabase.message error) "Failed to delete message") ;;
       ret st).

End Component.

End ChatWindow.

(** ** The requests panel ([FriendsList]) *)

Module FriendsList.

(** Reading a member of [null]. *)
Definition TypeError : Supabase.PgError :=
  {| Supabase.message := "Cannot read properties of null" |}.

(** The result is the conversation handed to [onSelectConversation], if
    the callback was called. *)
Definition handleAcceptRequest (requestId : string)
  : Supabase.Store (option string) :=
  try_catch
    (updated <~ lift (Supabase.update_request_status requestId "accepted") ;;
     Supabase.throw_on_error updated ~;;
     created <~ lift Supabase.insert_conversation ;;
     Supabase.throw_on_error created ~;;
     match Supabase.data created, Supabase.data updated with
     | Some conversation, Some request =>
         added <~ lift (Supabase.insert_participants
                    [ {| Supabase.part_conversation_id := Supabase.id conversation;
                         Supabase.part_user_id := Supabase.sender_id request |};
                      {| Supabase.part_conversation_id := Supabase.id conversation;
                         Supabase.part_user_id := Supabase.receiver_id request |} ]) ;;
         Supabase.throw_on_error added ~;;
         lift (Supabase.toast Supabase.Success "Friend request accepted") ~;;
         pure (Some (Supabase.id conversation))
     | _, _ => throw TypeError
     end)
    (fun error =>
       Supabase.toast Supabase.Failure
         (Js.or_else (Supabase.message error) "Failed to accept request") ;;
       ret None).

End FriendsList.

(** ** Operations on the canonical list

    The list of a conversation view changes when a page load resolves, when
    the lookup of a live insert resolves, on a live update or delete, and on
    the two local edit actions.  Responses are part of the operation, so a
    sequence of operations is one interleaving of the asynchronous work. *)

Module Engine.

Import ChatWindow.

Inductive Op :=
| PageLoaded (pageNumber : nat) (append : bool)
             (r : Supabase.Response (list Supabase.MessageJson))
| LiveInsert (newMsg : Supabase.MessageRow)
             (r : Supabase.Response Supabase.SenderJson)
| LiveUpdate (updatedMessage : Supabase.MessageRow)
| LiveDelete (deletedMessage : Supabase.MessageRow)
| StartEdit (message : Message)
| CancelEdit.

Definition apply (op : Op) (st : State) : Supabase.Store State :=
  match op with
  | PageLoaded pageNumber append r =>
      loadMessages_resolved (pageNumber * MESSAGES_PER_PAGE) append r st
  | LiveInsert newMsg r => INSERT_resolved newMsg r st
  | LiveUpdate updatedMessage => ret (on_UPDATE updatedMessage st)
  | LiveDelete deletedMessage => ret (on_DELETE deletedMessage st)
  | StartEdit message => ret (startEditMessage message st)
  | CancelEdit => ret (cancelEditMessage st)
  end.

Fixpoint run (ops : list Op) (st : State) : Supabase.Store State :=
  match ops with
  | [] => ret st
  | op :: ops' => st' <- apply op st ;; run ops' st'
  end.

(** The messages a resolved page load puts into the list. *)
Definition page_of (r : Supabase.Response (list Supabase.MessageJson))
  : list Message :=
  match Supabase.error r with
  | Some _ => []
  | None => map with_sender (rev (match Supabase.data r with
                                  | Some d => d
                                  | None => []
                                  end))
  end.

Definition ids (l : list Message) : list string := map id l.

Definition ascending (l : list Message) : Prop :=
  Sorted (fun a b => (created_at a <= created_at b)%Z) l.

Definition editing_count (l : list Message) : nat :=
  length (filter editing l).

(** The flags that are set all sit on one id. *)
Definition exclusive (l : list Message) : Prop :=
  forall a b, In a l -> In b l ->
              editing a = true -> editing b = true -> id a = id b.

(** The operation adds no id the list already holds (and a page repeats
    none of its own). *)
Definition fresh (op : Op) (l : list Message) : Prop :=
  match op with
  | PageLoaded _ append r =>
      NoDup (ids (page_of r)) /\
      (append = true ->
       forall x, In x (ids (page_of r)) -> ~ In x (ids l))
  | LiveInsert newMsg r =>
      Supabase.data r <> None -> ~ In (Supabase.msg_id newMsg) (ids l)
  | _ => True
  end.

(** A page is what the store answered to a query, and when it is put in
    front of the list its messages are older than every message of the
    list; a live insert is newer than every message of the list. *)
Definition timely (op : Op) (l : list Message) : Prop :=
  match op with
  | PageLoaded _ append r =>
      (exists conversation from to q,
         r = fst (Supabase.select_messages conversation from to q)) /\
      (append = true ->
       forall a b, In a (page_of r) -> In b l ->
                   (created_at a < created_at b)%Z)
  | LiveInsert newMsg r =>
      forall b, In b l -> (created_at b < Supabase.msg_created_at newMsg)%Z
  | _ => True
  end.

(** [P] holds of every operation of the sequence in the state the
    operation meets. *)
Fixpoint guarded (P : Op -> list Message -> Prop) (ops : list Op)
    (st : State) (w : Supabase.World) : Prop :=
  match ops with
  | [] => True
  | op :: ops' =>
      P op (messages st) /\
      guarded P ops' (fst (apply op st w)) (snd (apply op st w))
  end.

End Engine.

(** ** Sample conversations *)

Module Scenario.

Import ChatWindow.

(** A message of conversation [c1] written by [alice] at instant [n]. *)
Definition row (n : nat) : Supabase.MessageRow :=
  {| Supabase.msg_id := Supabase.gen_id "m" n;
     Supabase.msg_content := "hello";
     Supabase.msg_created_at := Z.of_nat n;
     Supabase.msg_sender_id := "alice";
     Supabase.msg_conversation_id := "c1" |}.

(** Two users, one pending request from [alice] to [bob], and the
    messages [row 1 .. row k]. *)
Definition database (k : nat) : Supabase.Db :=
  {| Supabase.users :=
       [ {| Supabase.user_id := "alice"; Supabase.user_email := "alice@example.org" |};
         {| Supabase.user_id := "bob"; Supabase.user_email := "bob@example.org" |} ];
     Supabase.messages := map row (seq 1 k);
     Supabase.friend_requests :=
       [ {| Supabase.fr_id := "r1"; Supabase.fr_sender_id := "alice";
            Supabase.fr_receiver_id := "bob"; Supabase.fr_status := "pending";
            Supabase.fr_created_at := 0 |} ];
     Supabase.conversations := [];
     Supabase.participants := [];
     Supabase.clock := Z.of_nat (S k);
     Supabase.next_id := S k |}.

(** A world in which the coming requests meet the fates [fates]. *)
Definition world (k : nat) (fates : list (option Supabase.PgError))
  : Supabase.World :=
  {| Supabase.db := database k; Supabase.net := fates;
     Supabase.calls := []; Supabase.feed := [];
     Supabase.toasts := []; Supabase.scrolls := 0 |}.

Definition offline : Supabase.PgError :=
  {| Supabase.message := "Failed to fetch" |}.

(** A message arrives between the loads of page 0 and page 1 of a
    conversation of 21 messages: [bob] sends it, the feed delivers it,
    then the view is scrolled to the top. *)
Definition shifted_page : Supabase.Store State :=
  st <- useEffect "c1" initial ;;
  st <- sendMessage "c1" "bob" (setNewMessage "news" st) ;;
  evs <- (fun w => (Supabase.feed w, w)) ;;
  st <- deliver_all "c1" evs st ;;
  handleScroll "c1" (Some 0) st.

(** The message [row n] as a page load of a conversation of [n] messages
    delivers it. *)
Definition with_sender_of (n : nat) : Message :=
  with_sender (Supabase.embed_sender (database n) (row n)).

(** The initial page of a conversation of one message resolves, then the
    lookup of the live insert of that same message. *)
Definition race : list Engine.Op :=
  [ Engine.PageLoaded 0 false
      (fst (Supabase.select_messages "c1" 0 19 (world 1 [])));
    Engine.LiveInsert (row 1)
      (fst (Supabase.select_user_email "alice" (world 1 []))) ].

(** A conversation of 21 messages: the initial page, the page before it,
    a live insert of a further message, its update, its delete, and two
    local edit actions. *)
Definition orderly : list Engine.Op :=
  [ Engine.PageLoaded 0 false
      (fst (Supabase.select_messages "c1" 0 19 (world 21 [])));
    Engine.PageLoaded 1 true
      (fst (Supabase.select_messages "c1" 20 39 (world 21 [])));
    Engine.LiveInsert (row 22)
      (fst (Supabase.select_user_email "alice" (world 22 [])));
    Engine.StartEdit
      {| id := "m22"; content := "hello"; created_at := 22;
         sender_id := "alice"; conversation_id := "c1";
         sender := None; isEditing := None |};
    Engine.LiveUpdate (Supabase.with_content "bye" (row 22));
    Engine.CancelEdit;
    Engine.LiveDelete (row 22) ].

(** After the race, the user starts to edit the message that is twice in
    the list. *)
Definition edit_after_race : list Engine.Op :=
  race ++ [ Engine.StartEdit (with_sender_of 1) ].

(** Two messages are shown; the second is being edited. *)
Definition editing_second : State :=
  setMessages
    (fun _ => [ with_sender_of 1; with_isEditing true (with_sender_of 2) ])
    initial.

End Scenario.

(** ** A conversation view in use *)

Module Conversation.

Import ChatWindow.

(** The messages a page load shows for the rows [l] of the store's answer. *)
Definition shown (d : Supabase.Db) (l : list Supabase.MessageRow)
  : list Message :=
  map with_sender (rev (map (Supabase.embed_sender d) l)).

(** The change records the feed has gained between two worlds. *)
Definition news (before after : Supabase.World) : list Supabase.Change :=
  skipn (length (Supabase.feed before)) (Supabase.feed after).

Section View.

Variable conversationId : string.

(** The view is scrolled to the top [n] times, each scroll after the load
    of the one before has resolved. *)
Fixpoint scrolled (n : nat) (st : State) : Supabase.Store State :=
  match n with
  | 0 => ret st
  | S n' =>
      st' <- handleScroll conversationId (Some 0) st ;;
      scrolled n' st'
  end.

(** The conversation is selected, then scrolled to the top [n] times. *)
Definition opened (n : nat) : Supabase.Store State :=
  st <- useEffect conversationId initial ;;
  scrolled n st.

End View.

End Conversation.

(** ** The requests panel, continued ([FriendsList]) *)

Module Requests.

(** Modelled from the spec: the store's conditional [update(table, filter,
    patch)] without a returned row; no row passing the filter is no error.
    Called by
    [from('friend_requests').update({ status }).eq('id', id)]. *)
Definition update_status (id status : string)
  : Supabase.Store (Supabase.Response unit) :=
  fate <- Supabase.request (Supabase.UpdateRequestStatus id status) ;;
  match fate with
  | Some e => ret (Supabase.failed e)
  | None =>
      d <- Supabase.read_db ;;
      Supabase.write_db
        (Supabase.set_friend_requests
           (map (fun r => if (Supabase.fr_id r =? id)%string
                          then Supabase.with_status status r else r)
                (Supabase.friend_requests d)) d) ;;
      ret (Supabase.done None)
  end.

(** The answer of the store is awaited and not looked at; the awaited
    request resolves also when it fails, so nothing is thrown. *)
Definition handleRejectRequest (requestId : string) : Supabase.Store unit :=
  try_catch
    (lift (update_status requestId "rejected") ~;;
     lift (Supabase.toast Supabase.Success "Friend request rejected") ~;;
     pure tt)
    (fun error =>
       Supabase.toast Supabase.Failure
         (Js.or_else (Supabase.message error) "Failed to reject request")).

End Requests.

(** ** The invitation form ([AddFriend]) *)

Module AddFriend.

Record State := { email : string; loading : bool }.

Definition setEmail (v : string) (st : State) : State :=
  {| email := v; loading := loading st |}.

Definition setLoading (v : bool) (st : State) : State :=
  {| email := email st; loading := v |}.

(** The requests of this component, in the order they were issued. *)
Inductive Query :=
| FindUserByEmail (email : string)
| FindRequestsOf (a b : string)
| InsertRequest (sender receiver status : string).

(** The outside world together with the log of this component's requests. *)
Record Desk := { world : Supabase.World; queries : list Query }.

Definition Client (A : Type) : Type := M Desk A.

(** An effect on the outside world, seen from this component. *)
Definition on_world {A} (c : Supabase.Store A) : Client A := fun k =>
  let (a, w') := c (world k) in (a, {| world := w'; queries := queries k |}).

(** Sending a request records it and consumes one entry of the script. *)
Definition ask (q : Query) : Client (option Supabase.PgError) := fun k =>
  let w := world k in
  (hd None (Supabase.net w),
   {| world := {| Supabase.db := Supabase.db w;
                  Supabase.net := tl (Supabase.net w);
                  Supabase.calls := Supabase.calls w;
                  Supabase.feed := Supabase.feed w;
                  Supabase.toasts := Supabase.toasts w;
                  Supabase.scrolls := Supabase.scrolls w |};
      queries := queries k ++ [q] |}).

(** The column [select('id')] returns. *)
Record UserJson := { id : string }.

(** Modelled from the spec: the store's lookup of one record,
    [getById(table, id) -> record | notFound], here by email.  Called by
    [from('users').select('id').eq('email', email).single()]. *)
Definition find_user_by_email (email : string)
  : Client (Supabase.Response UserJson) :=
  fate <- ask (FindUserByEmail email) ;;
  match fate with
  | Some e => ret (Supabase.failed e)
  | None =>
      d <- on_world Supabase.read_db ;;
      ret (Supabase.single
             (map (fun u => {| id := Supabase.user_id u |})
                  (filter (fun u => (Supabase.user_email u =? email)%string)
                          (Supabase.users d))))
  end.

(** [sender_id.eq.a,receiver_id.eq.a]: the request has [a] on one side. *)
Definition involves (a : string) (r : Supabase.FriendRequestRow) : bool :=
  (Supabase.fr_sender_id r =? a)%string ||
  (Supabase.fr_receiver_id r =? a)%string.

(** Modelled from the spec: the store's filtered read.  Called by
    [from('friend_requests').select('*')
       .or(`sender_id.eq.${a},receiver_id.eq.${a}`)
       .or(`sender_id.eq.${b},receiver_id.eq.${b}`)]. *)
Definition find_requests_of (a b : string)
  : Client (Supabase.Response (list Supabase.FriendRequestRow)) :=
  fate <- ask (FindRequestsOf a b) ;;
  match fate with
  | Some e => ret (Supabase.failed e)
  | None =>
      d <- on_world Supabase.read_db ;;
      ret (Supabase.done
             (Some (filter (fun r => involves a r && involves b r)
                           (Supabase.friend_requests d))))
  end.

(** Modelled from the spec: the store's [insert(table, record)]; the store
    assigns id and timestamp.  Called by
    [from('friend_requests').insert({ sender_id, receiver_id, status })]. *)
Definition insert_request (sender receiver status : string)
  : Client (Supabase.Response unit) :=
  fate <- ask (InsertRequest sender receiver status) ;;
  match fate with
  | Some e => ret (Supabase.failed e)
  | None =>
      d <- on_world Supabase.read_db ;;
      let row := {| Supabase.fr_id := Supabase.gen_id "req-" (Supabase.next_id d);
                    Supabase.fr_sender_id := sender;
                    Supabase.fr_receiver_id := receiver;
                    Supabase.fr_status := status;
                    Supabase.fr_created_at := Supabase.clock d |} in
      on_world (Supabase.write_db
                  (Supabase.tick
                     (Supabase.set_friend_requests
                        (Supabase.friend_requests d ++ [row]) d))) ;;
      ret (Supabase.done None)
  end.

(** [if (error) throw error;] *)
Definition throw_on_error {A} (r : Supabase.Response A)
  : Task Desk Supabase.PgError unit :=
  match Supabase.error r with
  | Some e => throw e
  | None => pure tt
  end.

(** The test of [existingRequests?.some(..)]: the request links the two
    users, in one direction or the other. *)
Definition between (a b : string) (req : Supabase.FriendRequestRow) : bool :=
  ((Supabase.fr_sender_id req =? a)%string &&
   (Supabase.fr_receiver_id req =? b)%string) ||
  ((Supabase.fr_sender_id req =? b)%string &&
   (Supabase.fr_receiver_id req =? a)%string).

Section Component.

(** The prop of the component. *)
Variable userId : string.

(** The messages written to the console are left out. *)
Definition handleSendRequest (st : State) : Client State :=
  let st := setLoading true st in
  st' <- try_catch
           (found <~ lift (find_user_by_email (email st)) ;;
            match Supabase.error found, Supabase.data found with
            | None, Some userExists =>
                if (id userExists =? userId)%string
                then
                  lift (on_world (Supabase.toast Supabase.Failure
                                    "You cannot add yourself")) ~;;
                  pure (setLoading false st)
                else
                  existing <~ lift (find_requests_of userId (id userExists)) ;;
                  throw_on_error existing ~;;
                  let existingRequest :=
                    match Supabase.data existing with
                    | Some existingRequests =>
                        existsb (between userId (id userExists)) existingRequests
                    | None => false
                    end in
                  if existingRequest
                  then
                    lift (on_world (Supabase.toast Supabase.Failure
                                      "You already have a request with this user")) ~;;
                    pure (setLoading false st)
                  else
                    sent <~ lift (insert_request userId (id userExists) "pending") ;;
                    throw_on_error sent ~;;
                    lift (on_world (Supabase.toast Supabase.Success
                                      "Friend request sent!")) ~;;
                    pure (setEmail "" st)
            | _, _ =>
                lift (on_world (Supabase.toast Supabase.Failure "User not found")) ~;;
                pure (setLoading false st)
            end)
           (fun error =>
              on_world (Supabase.toast Supabase.Failure
                          (Js.or_else (Supabase.message error)
                             "Failed to send friend request")) ;;
              ret st) ;;
  ret (setLoading false st').

End Component.



End AddFriend.

(** ** The lists of the requests panel ([FriendsList]) *)

Module Panel.

Record FriendRequest := {
  id : string;
  sender_id : string;
  receiver_id : string;
  status : string;
  created_at : Z;
  sender : option Supabase.SenderJson;
  receiver : option Supabase.SenderJson
}.

Record Participant := { user_id : string; email : string }.

Record Conversation := {
  conv_id : string;                  (* id *)
  conv_created_at : Z;               (* created_at *)
  participants : list Participant
}.

Record State := {
  pendingRequests : list FriendRequest;
  conversations : list Conversation;
  loading : bool
}.

Definition setPendingRequests (v : list FriendRequest) (st : State) : State :=
  {| pendingRequests := v; conversations := conversations st;
     loading := loading st |}.

Definition setConversations (v : list Conversation) (st : State) : State :=
  {| pendingRequests := pendingRequests st; conversations := v;
     loading := loading st |}.

Definition setLoading (v : bool) (st : State) : State :=
  {| pendingRequests := pendingRequests st; conversations := conversations st;
     loading := v |}.

(** A request row as the store sends it, with the embedded resources
    [sender:sender_id(email)] and [receiver:receiver_id(email)]. *)
Record RequestJson := {
  json_id : string;
  json_sender_id : string;
  json_receiver_id : string;
  json_status : string;
  json_created_at : Z;
  json_sender : Supabase.Embedded;
  json_receiver : Supabase.Embedded
}.

(** A conversation as the store sends it, with the embedded resource
    [participants(user_id, users(email))]. *)
Record ParticipantJson := {
  json_user_id : string;
  json_users : option Supabase.SenderJson
}.

Record ConversationJson := {
  json_conv_id : string;
  json_conv_created_at : Z;
  json_participants : option (list ParticipantJson)
}.

(** [Array.isArray(x) ? x[0] : x] *)
Definition first_or_self (x : Supabase.Embedded) : option Supabase.SenderJson :=
  match x with
  | Supabase.EmbArray l => hd_error l
  | Supabase.EmbObject o => o
  end.

(** [{ ...req, sender: .., receiver: .. }] *)
Definition with_parties (req : RequestJson) : FriendRequest :=
  {| id := json_id req;
     sender_id := json_sender_id req;
     receiver_id := json_receiver_id req;
     status := json_status req;
     created_at := json_created_at req;
     sender := first_or_self (json_sender req);
     receiver := first_or_self (json_receiver req) |}.

(** [(conv.participants || []).filter(p => !!p.users).map(..)] *)
Definition known_participants (ps : option (list ParticipantJson))
  : list Participant :=
  flat_map (fun p => match json_users p with
                     | Some users => [ {| user_id := json_user_id p;
                                          email := Supabase.email users |} ]
                     | None => []
                     end)
           (match ps with Some l => l | None => [] end).

Definition with_participants (conv : ConversationJson) : Conversation :=
  {| conv_id := json_conv_id conv;
     conv_created_at := json_conv_created_at conv;
     participants := known_participants (json_participants conv) |}.

(** The requests of this component, in the order they were issued. *)
Inductive Query :=
| SelectPendingRequests (receiver : string)
| SelectConversations (user : string).

(** The outside world together with the log of this component's requests. *)
Record Desk := { world : Supabase.World; queries : list Query }.

Definition Client (A : Type) : Type := M Desk A.

Definition on_world {A} (c : Supabase.Store A) : Client A := fun k =>
  let (a, w') := c (world k) in (a, {| world := w'; queries := queries k |}).

(** Sending a request records it and consumes one entry of the script. *)
Definition ask (q : Query) : Client (option Supabase.PgError) := fun k =>
  let w := world k in
  (hd None (Supabase.net w),
   {| world := {| Supabase.db := Supabase.db w;
                  Supabase.net := tl (Supabase.net w);
                  Supabase.calls := Supabase.calls w;
                  Supabase.feed := Supabase.feed w;
                  Supabase.toasts := Supabase.toasts w;
                  Supabase.scrolls := Supabase.scrolls w |};
      queries := queries k ++ [q] |}).

Definition embed_email (d : Supabase.Db) (user : string) : Supabase.Embedded :=
  Supabase.EmbObject
    (option_map (fun u => {| Supabase.email := Supabase.user_email u |})
                (Supabase.find_user d user)).

Definition embed_parties (d : Supabase.Db) (r : Supabase.FriendRequestRow)
  : RequestJson :=
  {| json_id := Supabase.fr_id r;
     json_sender_id := Supabase.fr_sender_id r;
     json_receiver_id := Supabase.fr_receiver_id r;
     json_status := Supabase.fr_status r;
     json_created_at := Supabase.fr_created_at r;
     json_sender := embed_email d (Supabase.fr_sender_id r);
     json_receiver := embed_email d (Supabase.fr_receiver_id r) |}.

(** The filter [.eq('receiver_id', user).eq('status', 'pending')]. *)
Definition pending_for (user : string) (r : Supabase.FriendRequestRow) : bool :=
  (Supabase.fr_receiver_id r =? user)%string &&
  (Supabase.fr_status r =? "pending")%string.

(** Modelled from the spec: the store's filtered read.  Called by
    [from('friend_requests').select(..).eq('receiver_id', user)
       .eq('status', 'pending')]. *)
Definition select_pending (user : string)
  : Client (Supabase.Response (list RequestJson)) :=
  fate <- ask (SelectPendingRequests user) ;;
  match fate with
  | Some e => ret (Supabase.failed e)
  | None =>
      d <- on_world Supabase.read_db ;;
      ret (Supabase.done
             (Some (map (embed_parties d)
                        (filter (pending_for user)
                                (Supabase.friend_requests d)))))
  end.

Section Component.

(** The prop of the component. *)
Variable userId : string.

(** What the store answers to
    [from('conversations').select('id, created_at,
       participants(user_id, users(email))').eq('participants.user_id', user)]
    when the request does not fail. *)
Variable conversations_of : Supabase.Db -> string -> list ConversationJson.

Definition select_conversations
  : Client (Supabase.Response (list ConversationJson)) :=
  fate <- ask (SelectConversations userId) ;;
  match fate with
  | Some e => ret (Supabase.failed e)
  | None =>
      d <- on_world Supabase.read_db ;;
      ret (Supabase.done (Some (conversations_of d userId)))
  end.

(** An exception of the [try] block reaches the handler with the state as
    the block has left it. *)
Definition fetchFriendsAndRequests (st : State) : Client State :=
  let st := setLoading true st in
  st' <- try_catch
           (requests <~ lift (select_pending userId) ;;
            match Supabase.error requests with
            | Some requestsError => throw (st, requestsError)
            | None =>
                let st1 :=
                  setPendingRequests
                    (map with_parties
                         (match Supabase.data requests with
                          | Some l => l
                          | None => []
                          end)) st in
                conversationsData <~ lift select_conversations ;;
                match Supabase.error conversationsData with
                | Some conversationsError => throw (st1, conversationsError)
                | None =>
                    pure (setConversations
                            (map with_participants
                                 (match Supabase.data conversationsData with
                                  | Some l => l
                                  | None => []
                                  end)) st1)
                end
            end)
           (fun thrown =>
              on_world (Supabase.toast Supabase.Failure
                          (Js.or_else (Supabase.message (snd thrown))
                             "Failed to load friends")) ;;
              ret (fst thrown)) ;;
  ret (setLoading false st').

End Component.

End Panel.

(** ** The route guard ([middleware]) *)

Module Middleware.

(** What the guard answers: a redirect to a path of the same origin, or the
    response of the page asked for. *)
Inductive Outcome :=
| Redirect (pathname : string)
| Next.

(** [s.startsWith(p)] *)
Definition startsWith (s p : string) : bool := String.prefix p s.

Definition middleware {S : Type} (session : option S) (pathname : string)
  : Outcome :=
  let signed_in := match session with Some _ => true | None => false end in
  if negb signed_in &&
     negb (startsWith pathname "/auth/login") &&
     negb (startsWith pathname "/auth/signup")
  then Redirect "/auth/login"
  else if signed_in &&
          (startsWith pathname "/auth/login" ||
           startsWith pathname "/auth/signup")
  then Redirect "/chat"
  else Next.

End Middleware.

(** ** More sample data *)

Module Casebook.

(** [carol] is known to the store beside [alice] and [bob]; [alice] has a
    pending request to [bob]. *)
Definition database : Supabase.Db :=
  {| Supabase.users :=
       [ {| Supabase.user_id := "alice"; Supabase.user_email := "alice@example.org" |};
         {| Supabase.user_id := "bob"; Supabase.user_email := "bob@example.org" |};
         {| Supabase.user_id := "carol"; Supabase.user_email := "carol@example.org" |} ];
     Supabase.messages := map Scenario.row (seq 1 3);
     Supabase.friend_requests :=
       [ {| Supabase.fr_id := "r1"; Supabase.fr_sender_id := "alice";
            Supabase.fr_receiver_id := "bob"; Supabase.fr_status := "pending";
            Supabase.fr_created_at := 0 |} ];
     Supabase.conversations := [];
     Supabase.participants := [];
     Supabase.clock := 4;
     Supabase.next_id := 4 |}.

Definition world (fates : list (option Supabase.PgError)) : Supabase.World :=
  {| Supabase.db := database; Supabase.net := fates;
     Supabase.calls := []; Supabase.feed := [];
     Supabase.toasts := []; Supabase.scrolls := 0 |}.



(** The view of [c1] after its initial load, with [text] typed in the
    message box and [draft] in the edit box. *)
Definition view (text draft : string) : ChatWindow.State :=
  ChatWindow.setEditMessage draft
    (ChatWindow.setNewMessage text
       (fst (ChatWindow.useEffect "c1" ChatWindow.initial (world [])))).

End Casebook.

(** ** Tactics for closed goals *)

(** Closed goals about membership and repetition in lists of literals. *)
Ltac literal_lists :=
  repeat split; intros;
  repeat match goal with
         | |- NoDup _ => constructor
         | |- ~ _ => intro
         | |- _ -> _ => intro
         | H : In _ _ |- _ => simpl in H
         | H : _ \/ _ |- _ => destruct H
         | H : False |- _ => contradiction
         | H : _ = _ |- _ => discriminate H
         | H : _ = ?x |- _ => is_var x; subst x
         end.

(** Closed comparisons of the instants of a list of literals. *)
Ltac literal_instants :=
  intros;
  repeat match goal with
         | H : In _ _ |- _ => vm_compute in H
         | H : _ \/ _ |- _ => destruct H
         | H : False |- _ => contradiction
         | H : _ = ?b |- _ => subst b
         end;
  reflexivity.

(** * Properties *)

(** ** Lists in order *)

Section Sorting.

Context {A : Type}.
Implicit Types R : A -> A -> Prop.

Lemma StronglySorted_append R (l1 l2 : list A) :
  StronglySorted R l1 -> StronglySorted R l2 ->
  (forall a b, In a l1 -> In b l2 -> R a b) ->
  StronglySorted R (l1 ++ l2).
Proof.
  intros S1 S2 cross.
  induction S1 as [|a l1 S1 IH Ha]; simpl; [exact S2|].
  constructor.
  - apply IH. intros x y Hx Hy. apply cross; [now right | exact Hy].
  - apply Forall_app. split; [exact Ha|].
    apply Forall_forall. intros y Hy. apply cross; [now left | exact Hy].
Qed.

Lemma StronglySorted_reverse R (l : list A) :
  StronglySorted R l -> StronglySorted (fun a b => R b a) (rev l).
Proof.
  induction 1 as [|a l S IH Ha]; simpl; [constructor|].
  apply StronglySorted_append.
  - exact IH.
  - repeat constructor.
  - intros x y Hx [<-|[]]. apply in_rev in Hx.
    rewrite Forall_forall in Ha. now apply Ha.
Qed.

Lemma StronglySorted_skipn R (n : nat) (l : list A) :
  StronglySorted R l -> StronglySorted R (skipn n l).
Proof.
  revert l. induction n as [|n IH]; intros l S; [exact S|].
  destruct l as [|a l]; [constructor|].
  simpl. apply IH. now inversion S.
Qed.

Lemma StronglySorted_firstn R (n : nat) (l : list A) :
  StronglySorted R l -> StronglySorted R (firstn n l).
Proof.
  intros S. revert n.
  induction S as [|a l S IH Ha]; intros [|n]; simpl; try constructor.
  - apply IH.
  - rewrite Forall_forall in *. intros x Hx. apply Ha.
    rewrite <- (firstn_skipn n l). apply in_or_app. now left.
Qed.

Lemma StronglySorted_filter R (p : A -> bool) (l : list A) :
  StronglySorted R l -> StronglySorted R (filter p l).
Proof.
  induction 1 as [|a l S IH Ha]; simpl; [constructor|].
  destruct (p a); [|exact IH].
  constructor; [exact IH|].
  rewrite Forall_forall in *. intros x Hx.
  apply filter_In in Hx. now apply Ha.
Qed.

End Sorting.

Lemma StronglySorted_map {A B : Type} (f : A -> B) (R : B -> B -> Prop)
    (l : list A) :
  StronglySorted (fun a b => R (f a) (f b)) l -> StronglySorted R (map f l).
Proof.
  induction 1 as [|a l S IH Ha]; simpl; constructor; [exact IH|].
  rewrite Forall_forall in *. intros y Hy.
  apply in_map_iff in Hy as [x [<- Hx]]. now apply Ha.
Qed.

(** ** The store's ordered query *)

Lemma insert_desc_In (x y : Supabase.MessageRow) (l : list Supabase.MessageRow) :
  In y (Supabase.insert_desc x l) <-> y = x \/ In y l.
Proof.
  induction l as [|z l IH]; simpl.
  - intuition.
  - destruct (Supabase.msg_created_at z <=? Supabase.msg_created_at x)%Z;
      simpl; [|rewrite IH]; intuition.
Qed.

Lemma insert_desc_length (x : Supabase.MessageRow) (l : list Supabase.MessageRow) :
  length (Supabase.insert_desc x l) = S (length l).
Proof.
  induction l as [|z l IH]; simpl; [reflexivity|].
  destruct (Supabase.msg_created_at z <=? Supabase.msg_created_at x)%Z;
    simpl; [reflexivity | now rewrite IH].
Qed.

Lemma insert_desc_sorted (x : Supabase.MessageRow) (l : list Supabase.MessageRow) :
  StronglySorted
    (fun a b => (Supabase.msg_created_at b <= Supabase.msg_created_at a)%Z) l ->
  StronglySorted
    (fun a b => (Supabase.msg_created_at b <= Supabase.msg_created_at a)%Z)
    (Supabase.insert_desc x l).
Proof.
  induction 1 as [|z l S IH Hz]; simpl.
  - repeat constructor.
  - destruct (Supabase.msg_created_at z <=? Supabase.msg_created_at x)%Z eqn:E.
    + apply Z.leb_le in E.
      constructor; [now constructor|].
      constructor; [exact E|].
      rewrite Forall_forall in *. intros y Hy. specialize (Hz y Hy). lia.
    + apply Z.leb_gt in E.
      constructor; [exact IH|].
      rewrite Forall_forall in *. intros y Hy.
      apply insert_desc_In in Hy as [->|Hy]; [lia | now apply Hz].
Qed.

Lemma order_desc_In (y : Supabase.MessageRow) (l : list Supabase.MessageRow) :
  In y (Supabase.order_desc l) <-> In y l.
Proof.
  induction l as [|x l IH]; simpl; [tauto|].
  rewrite insert_desc_In, IH. intuition.
Qed.

Lemma order_desc_length (l : list Supabase.MessageRow) :
  length (Supabase.order_desc l) = length l.
Proof.
  induction l as [|x l IH]; simpl; [reflexivity|].
  now rewrite insert_desc_length, IH.
Qed.

Lemma order_desc_sorted (l : list Supabase.MessageRow) :
  StronglySorted
    (fun a b => (Supabase.msg_created_at b <= Supabase.msg_created_at a)%Z)
    (Supabase.order_desc l).
Proof.
  induction l as [|x l IH]; simpl; [constructor|].
  now apply insert_desc_sorted.
Qed.

Lemma range_sorted {A : Type} (R : A -> A -> Prop) (from to : nat) (l : list A) :
  StronglySorted R l -> StronglySorted R (Supabase.range from to l).
Proof.
  intros S. unfold Supabase.range.
  now apply StronglySorted_firstn, StronglySorted_skipn.
Qed.

Lemma timeline_sorted (d : Supabase.Db) (conversation : string) :
  StronglySorted
    (fun a b => (Supabase.msg_created_at b <= Supabase.msg_created_at a)%Z)
    (Supabase.timeline d conversation).
Proof. apply order_desc_sorted. Qed.

(** ** White space *)

Lemma dropWhile_all {A : Type} (p : A -> bool) (l : list A) :
  Forall (fun x => p x = true) l -> Js.dropWhile p l = [].
Proof.
  induction 1 as [|x l Hx _ IH]; simpl; [reflexivity|].
  now rewrite Hx.
Qed.

Lemma trim_blank (s : string) : Js.blank s -> Js.trim s = "".
Proof.
  intros H. unfold Js.trim, Js.trimStart.
  rewrite (dropWhile_all _ _ H). reflexivity.
Qed.

(** ** Component state *)

Lemma setMessages_same (f : list ChatWindow.Message -> list ChatWindow.Message)
    (st : ChatWindow.State) :
  f (ChatWindow.messages st) = ChatWindow.messages st ->
  ChatWindow.setMessages f st = st.
Proof.
  intros H. destruct st. unfold ChatWindow.setMessages. simpl in *.
  now rewrite H.
Qed.

Lemma map_unmatched (upd : string) (c : string) (l : list ChatWindow.Message) :
  ~ In upd (Engine.ids l) ->
  map (fun msg => if (ChatWindow.id msg =? upd)%string
                  then ChatWindow.with_content c msg else msg) l = l.
Proof.
  induction l as [|m l IH]; simpl; intros H; [reflexivity|].
  destruct (String.eqb_spec (ChatWindow.id m) upd) as [E|E].
  - exfalso. apply H. now left.
  - f_equal. apply IH. intros Hin. apply H. now right.
Qed.

Lemma filter_unmatched (del : string) (l : list ChatWindow.Message) :
  ~ In del (Engine.ids l) ->
  filter (fun msg => negb (ChatWindow.id msg =? del)%string) l = l.
Proof.
  induction l as [|m l IH]; simpl; intros H; [reflexivity|].
  destruct (String.eqb_spec (ChatWindow.id m) del) as [E|E]; simpl.
  - exfalso. apply H. now left.
  - f_equal. apply IH. intros Hin. apply H. now right.
Qed.

(** ** Live events *)

(** C7. A live update replaces the content of the messages that carry the
    id of the event by the content of the event and clears their editing
    flag; their other fields, every other message, the positions and the
    length of the list stay as they are. *)
Theorem live_update_supersedes
    (updatedMessage : Supabase.MessageRow) (st : ChatWindow.State)
    (i : nat) (m : ChatWindow.Message) :
  nth_error (ChatWindow.messages st) i = Some m ->
  exists m',
    nth_error (ChatWindow.messages (ChatWindow.on_UPDATE updatedMessage st)) i
      = Some m' /\
    (ChatWindow.id m = Supabase.msg_id updatedMessage ->
       ChatWindow.content m' = Supabase.msg_content updatedMessage /\
       ChatWindow.isEditing m' = Some false /\
       ChatWindow.editing m' = false /\
       ChatWindow.id m' = ChatWindow.id m /\
       ChatWindow.created_at m' = ChatWindow.created_at m /\
       ChatWindow.sender_id m' = ChatWindow.sender_id m /\
       ChatWindow.conversation_id m' = ChatWindow.conversation_id m /\
       ChatWindow.sender m' = ChatWindow.sender m) /\
    (ChatWindow.id m <> Supabase.msg_id updatedMessage -> m' = m) /\
    length (ChatWindow.messages (ChatWindow.on_UPDATE updatedMessage st))
      = length (ChatWindow.messages st).
Proof.
  intros Hm. unfold ChatWindow.on_UPDATE. simpl.
  rewrite nth_error_map, Hm, length_map. simpl.
  eexists. split; [reflexivity|].
  destruct (String.eqb_spec (ChatWindow.id m) (Supabase.msg_id updatedMessage))
    as [E|E].
  - repeat split; try reflexivity. intros NE. contradiction.
  - repeat split; try reflexivity; intros; contradiction.
Qed.

Lemma live_update_supersedes_witness :
  nth_error (ChatWindow.messages Scenario.editing_second) 1 =
    Some (ChatWindow.with_isEditing true (Scenario.with_sender_of 2)) /\
  exists m',
    nth_error
      (ChatWindow.messages
         (ChatWindow.on_UPDATE (Supabase.with_content "edited" (Scenario.row 2))
            Scenario.editing_second)) 1 = Some m' /\
    ChatWindow.content m' = "edited" /\
    ChatWindow.editing m' = false.
Proof.
  assert (H : nth_error (ChatWindow.messages Scenario.editing_second) 1 =
              Some (ChatWindow.with_isEditing true (Scenario.with_sender_of 2)))
    by reflexivity.
  split; [exact H|].
  destruct (live_update_supersedes
              (Supabase.with_content "edited" (Scenario.row 2))
              Scenario.editing_second 1 _ H)
    as (m' & Hm' & Hsame & _).
  exists m'. split; [exact Hm'|].
  destruct (Hsame eq_refl) as (Hc & _ & He & _).
  split; [exact Hc | exact He].
Defined.

(** C10. A live update or delete whose id matches no message of the list
    leaves the whole component state as it was, also when it arrives through
    the subscription. *)
Theorem unmatched_event_is_ignored
    (conversationId : string) (row : Supabase.MessageRow)
    (st : ChatWindow.State) (w : Supabase.World) :
  ~ In (Supabase.msg_id row) (Engine.ids (ChatWindow.messages st)) ->
  ChatWindow.on_UPDATE row st = st /\
  ChatWindow.on_DELETE row st = st /\
  ChatWindow.deliver conversationId (Supabase.UPDATE row) st w = (st, w) /\
  ChatWindow.deliver conversationId (Supabase.DELETE row) st w = (st, w).
Proof.
  intros H.
  assert (U : ChatWindow.on_UPDATE row st = st)
    by (apply setMessages_same, map_unmatched, H).
  assert (D : ChatWindow.on_DELETE row st = st)
    by (apply setMessages_same, filter_unmatched, H).
  unfold ChatWindow.deliver. rewrite U, D.
  repeat split; destruct (ChatWindow.subscribed conversationId row); reflexivity.
Qed.

Lemma unmatched_event_is_ignored_witness :
  ~ In (Supabase.msg_id (Scenario.row 7))
       (Engine.ids (ChatWindow.messages Scenario.editing_second)) /\
  ChatWindow.on_UPDATE (Scenario.row 7) Scenario.editing_second =
    Scenario.editing_second /\
  ChatWindow.on_DELETE (Scenario.row 7) Scenario.editing_second =
    Scenario.editing_second.
Proof.
  assert (H : ~ In (Supabase.msg_id (Scenario.row 7))
                   (Engine.ids (ChatWindow.messages Scenario.editing_second)))
    by (vm_compute; literal_lists).
  split; [exact H|].
  destruct (unmatched_event_is_ignored "c1" (Scenario.row 7)
              Scenario.editing_second (Scenario.world 2 []) H)
    as (Hu & Hd & _).
  split; [exact Hu | exact Hd].
Defined.

(** C9. When the lookup of the sender resolves without a record the live
    insert leaves state and world untouched; when it resolves with a record
    the message, completed with the sender's email, is put at the end of the
    list.  The handler feeds the callback with the answer of the store. *)
Theorem insert_needs_sender
    (newMsg : Supabase.MessageRow) (r : Supabase.Response Supabase.SenderJson)
    (st : ChatWindow.State) (w : Supabase.World) :
  match Supabase.data r with
  | None => ChatWindow.INSERT_resolved newMsg r st w = (st, w)
  | Some d =>
      ChatWindow.messages (fst (ChatWindow.INSERT_resolved newMsg r st w)) =
      ChatWindow.messages st ++
        [ {| ChatWindow.id := Supabase.msg_id newMsg;
             ChatWindow.content := Supabase.msg_content newMsg;
             ChatWindow.created_at := Supabase.msg_created_at newMsg;
             ChatWindow.sender_id := Supabase.msg_sender_id newMsg;
             ChatWindow.conversation_id := Supabase.msg_conversation_id newMsg;
             ChatWindow.sender := Some d;
             ChatWindow.isEditing := None |} ]
  end /\
  ChatWindow.on_INSERT newMsg st w =
    ChatWindow.INSERT_resolved newMsg
      (fst (Supabase.select_user_email (Supabase.msg_sender_id newMsg) w)) st
      (snd (Supabase.select_user_email (Supabase.msg_sender_id newMsg) w)).
Proof.
  split.
  - unfold ChatWindow.INSERT_resolved.
    destruct (Supabase.data r) as [[e]|]; reflexivity.
  - unfold ChatWindow.on_INSERT, bind.
    destruct (Supabase.select_user_email _ w). reflexivity.
Qed.

(** ** Sending *)

(** C8. With an input that is empty or holds only white space
    [sendMessage] returns at once: no request is issued and neither the
    component state nor the world changes. *)
Theorem blank_message_is_not_sent
    (conversationId userId : string) (st : ChatWindow.State)
    (w : Supabase.World) :
  Js.blank (ChatWindow.newMessage st) ->
  ChatWindow.sendMessage conversationId userId st w = (st, w).
Proof.
  intros H. unfold ChatWindow.sendMessage.
  rewrite (trim_blank _ H). reflexivity.
Qed.

Lemma blank_message_is_not_sent_witness :
  Js.blank "   " /\
  ChatWindow.sendMessage "c1" "bob"
    (ChatWindow.setNewMessage "   " ChatWindow.initial) (Scenario.world 1 []) =
  (ChatWindow.setNewMessage "   " ChatWindow.initial, Scenario.world 1 []).
Proof.
  assert (H : Js.blank "   ") by (repeat constructor).
  split; [exact H|].
  exact (blank_message_is_not_sent "c1" "bob"
           (ChatWindow.setNewMessage "   " ChatWindow.initial)
           (Scenario.world 1 []) H).
Defined.

(** ** What each operation does to the list *)

Lemma loadMessages_resolved_messages (from : nat) (append : bool)
    (r : Supabase.Response (list Supabase.MessageJson))
    (st : ChatWindow.State) (w : Supabase.World) :
  ChatWindow.messages (fst (ChatWindow.loadMessages_resolved from append r st w)) =
  if append then Engine.page_of r ++ ChatWindow.messages st
  else match Supabase.error r with
       | Some _ => ChatWindow.messages st
       | None => Engine.page_of r
       end.
Proof.
  unfold ChatWindow.loadMessages_resolved, Supabase.throw_on_error,
    Engine.page_of, try_catch, bindT, bind, throw, pure, lift, ret.
  destruct (Supabase.error r), append; reflexivity.
Qed.

Lemma INSERT_resolved_messages (newMsg : Supabase.MessageRow)
    (r : Supabase.Response Supabase.SenderJson)
    (st : ChatWindow.State) (w : Supabase.World) :
  ChatWindow.messages (fst (ChatWindow.INSERT_resolved newMsg r st w)) =
  match Supabase.data r with
  | Some d =>
      ChatWindow.messages st ++
        [ {| ChatWindow.id := Supabase.msg_id newMsg;
             ChatWindow.content := Supabase.msg_content newMsg;
             ChatWindow.created_at := Supabase.msg_created_at newMsg;
             ChatWindow.sender_id := Supabase.msg_sender_id newMsg;
             ChatWindow.conversation_id := Supabase.msg_conversation_id newMsg;
             ChatWindow.sender := Some d;
             ChatWindow.isEditing := None |} ]
  | None => ChatWindow.messages st
  end.
Proof.
  unfold ChatWindow.INSERT_resolved.
  destruct (Supabase.data r) as [[e]|]; reflexivity.
Qed.

Lemma run_cons (op : Engine.Op) (ops : list Engine.Op)
    (st : ChatWindow.State) (w : Supabase.World) :
  Engine.run (op :: ops) st w =
  Engine.run ops (fst (Engine.apply op st w)) (snd (Engine.apply op st w)).
Proof.
  simpl. unfold bind. destruct (Engine.apply op st w). reflexivity.
Qed.

(** An invariant of the list that every guarded operation keeps is kept by
    every guarded sequence. *)
Lemma run_invariant (I : list ChatWindow.Message -> Prop)
    (P : Engine.Op -> list ChatWindow.Message -> Prop) :
  (forall op st w,
     I (ChatWindow.messages st) -> P op (ChatWindow.messages st) ->
     I (ChatWindow.messages (fst (Engine.apply op st w)))) ->
  forall ops st w,
    I (ChatWindow.messages st) -> Engine.guarded P ops st w ->
    I (ChatWindow.messages (fst (Engine.run ops st w))).
Proof.
  intros step ops.
  induction ops as [|op ops IH]; intros st w Hi Hg.
  - exact Hi.
  - destruct Hg as [Hp Hg]. rewrite run_cons.
    apply IH; [now apply step | exact Hg].
Qed.

Lemma ids_map (g : ChatWindow.Message -> ChatWindow.Message)
    (l : list ChatWindow.Message) :
  (forall m, ChatWindow.id (g m) = ChatWindow.id m) ->
  Engine.ids (map g l) = Engine.ids l.
Proof.
  intros Hg. unfold Engine.ids. rewrite map_map.
  apply map_ext. exact Hg.
Qed.

Lemma ids_app (l1 l2 : list ChatWindow.Message) :
  Engine.ids (l1 ++ l2) = Engine.ids l1 ++ Engine.ids l2.
Proof. apply map_app. Qed.

Lemma ids_filter_NoDup (p : ChatWindow.Message -> bool)
    (l : list ChatWindow.Message) :
  NoDup (Engine.ids l) -> NoDup (Engine.ids (filter p l)).
Proof.
  induction l as [|m l IH]; simpl; intros H; [constructor|].
  inversion H as [|x xs Hx Hl]; subst.
  destruct (p m); simpl; [|now apply IH].
  constructor; [|now apply IH].
  intros Hin. apply Hx.
  apply in_map_iff in Hin as [y [Ey Hy]].
  apply filter_In in Hy as [Hy _].
  apply in_map_iff. now exists y.
Qed.

Lemma on_UPDATE_ids (row : Supabase.MessageRow) (st : ChatWindow.State) :
  Engine.ids (ChatWindow.messages (ChatWindow.on_UPDATE row st)) =
  Engine.ids (ChatWindow.messages st).
Proof.
  simpl. apply ids_map. intros m.
  now destruct (ChatWindow.id m =? Supabase.msg_id row)%string.
Qed.

Lemma startEditMessage_ids (b : ChatWindow.Message) (st : ChatWindow.State) :
  Engine.ids (ChatWindow.messages (ChatWindow.startEditMessage b st)) =
  Engine.ids (ChatWindow.messages st).
Proof.
  simpl. apply ids_map. intros m.
  now destruct (ChatWindow.id m =? ChatWindow.id b)%string.
Qed.

Lemma cancelEditMessage_ids (st : ChatWindow.State) :
  Engine.ids (ChatWindow.messages (ChatWindow.cancelEditMessage st)) =
  Engine.ids (ChatWindow.messages st).
Proof. simpl. now apply ids_map. Qed.

(** ** Duplicates *)

Lemma fresh_step (op : Engine.Op) (st : ChatWindow.State) (w : Supabase.World) :
  NoDup (Engine.ids (ChatWindow.messages st)) ->
  Engine.fresh op (ChatWindow.messages st) ->
  NoDup (Engine.ids (ChatWindow.messages (fst (Engine.apply op st w)))).
Proof.
  intros Hnd Hf.
  destruct op as [p append r|newMsg r|row|row|b|]; simpl Engine.apply.
  - rewrite loadMessages_resolved_messages.
    destruct Hf as [Hpage Hnew]. destruct append.
    + rewrite ids_app. apply NoDup_app; auto.
    + destruct (Supabase.error r) eqn:E; [exact Hnd | exact Hpage].
  - rewrite INSERT_resolved_messages. simpl in Hf.
    destruct (Supabase.data r) as [d|]; [|exact Hnd].
    rewrite ids_app. apply NoDup_app; [exact Hnd | repeat constructor; auto |].
    intros x Hx [<-|[]]. revert Hx. apply Hf. discriminate.
  - unfold ret. simpl fst. now rewrite on_UPDATE_ids.
  - unfold ret. simpl. now apply ids_filter_NoDup.
  - unfold ret. simpl fst. now rewrite startEditMessage_ids.
  - unfold ret. simpl fst. now rewrite cancelEditMessage_ids.
Qed.

Lemma twice_not_NoDup (x : string) (l : list string) :
  2 <= count_occ string_dec l x -> ~ NoDup l.
Proof.
  intros H Hnd.
  pose proof (proj1 (NoDup_count_occ string_dec l) Hnd x). lia.
Qed.

(** C1, as stated, fails.  Starting from the empty list, the initial page
    and a live insert of a message of that page leave its id twice in the
    list; and when a message arrives between the loads of page 0 and page 1,
    page 1 brings again a message that page 0 had brought. *)
Lemma duplicate_ids_arise :
  NoDup (Engine.ids (ChatWindow.messages ChatWindow.initial)) /\
  ~ NoDup (Engine.ids (ChatWindow.messages
             (fst (Engine.run Scenario.race ChatWindow.initial
                     (Scenario.world 1 []))))) /\
  ~ NoDup (Engine.ids (ChatWindow.messages
             (fst (Scenario.shifted_page (Scenario.world 21 []))))).
Proof.
  split; [constructor|]. split.
  - apply (twice_not_NoDup "m1"). vm_compute. lia.
  - apply (twice_not_NoDup "m2"). vm_compute. lia.
Qed.

Lemma with_sender_fields (msg : Supabase.MessageJson) :
  ChatWindow.with_sender msg =
  {| ChatWindow.id := Supabase.json_id msg;
     ChatWindow.content := Supabase.json_content msg;
     ChatWindow.created_at := Supabase.json_created_at msg;
     ChatWindow.sender_id := Supabase.json_sender_id msg;
     ChatWindow.conversation_id := Supabase.json_conversation_id msg;
     ChatWindow.sender :=
       match Supabase.json_sender msg with
       | Supabase.EmbArray l => hd_error l
       | Supabase.EmbObject o => o
       end;
     ChatWindow.isEditing := None |}.
Proof. reflexivity. Qed.

(** Two lists put one after the other hold no id twice exactly when
    neither does and they share none. *)
Lemma joined_ids_NoDup (front back : list string) :
  NoDup (front ++ back) <->
  NoDup front /\ NoDup back /\ (forall x, In x front -> ~ In x back).
Proof.
  split.
  - intros H. split; [|split].
    + exact (NoDup_app_remove_r _ _ H).
    + exact (NoDup_app_remove_l _ _ H).
    + induction front as [|y front IH]; intros x Hx; [destruct Hx|].
      simpl in H. apply NoDup_cons_iff in H as [Hy Hrest].
      destruct Hx as [<-|Hx].
      * intros Hb. apply Hy. apply in_or_app. now right.
      * now apply IH.
  - intros (Hf & Hb & Hd). now apply NoDup_app.
Qed.

Lemma reversed_ids_NoDup (l : list string) : NoDup (rev l) <-> NoDup l.
Proof.
  split; intros H; [|now apply NoDup_rev].
  rewrite <- (rev_involutive l). now apply NoDup_rev.
Qed.

(** C1, amended.  A page load puts every message of the page in front of
    the list (or in its place, for the initial page) and a live insert puts
    its message at the end, without comparing ids: whatever the list holds,
    the ids of the rows received are all in the list afterwards, so that the
    list is free of repeated ids afterwards exactly when it was before and
    the ids brought are new (and, within a page, distinct).  Along a sequence
    of operations in which every page holds pairwise distinct ids, none of
    them in the list it is put in front of, and every live insert that is
    not suppressed brings an id the list does not hold, no id appears
    twice. *)
Theorem no_duplicates_when_fresh
    (ops : list Engine.Op) (st : ChatWindow.State) (w : Supabase.World)
    (pageNumber : nat) (received : list Supabase.MessageJson)
    (total : option nat)
    (newMsg : Supabase.MessageRow) (who : Supabase.SenderJson) :
  let answer :=
    {| Supabase.data := Some received; Supabase.error := None;
       Supabase.count := total |} in
  let found :=
    {| Supabase.data := Some who; Supabase.error := None;
       Supabase.count := None |} in
  let shown_as := fun msg =>
    {| ChatWindow.id := Supabase.json_id msg;
       ChatWindow.content := Supabase.json_content msg;
       ChatWindow.created_at := Supabase.json_created_at msg;
       ChatWindow.sender_id := Supabase.json_sender_id msg;
       ChatWindow.conversation_id := Supabase.json_conversation_id msg;
       ChatWindow.sender :=
         match Supabase.json_sender msg with
         | Supabase.EmbArray l => hd_error l
         | Supabase.EmbObject o => o
         end;
       ChatWindow.isEditing := None |} in
  let before := ChatWindow.messages st in
  let paged :=
    ChatWindow.messages
      (fst (Engine.apply (Engine.PageLoaded pageNumber true answer) st w)) in
  let replaced :=
    ChatWindow.messages
      (fst (Engine.apply (Engine.PageLoaded pageNumber false answer) st w)) in
  let inserted :=
    ChatWindow.messages (fst (Engine.apply (Engine.LiveInsert newMsg found) st w)) in
  paged = map shown_as (rev received) ++ before /\
  Engine.ids paged = rev (map Supabase.json_id received) ++ Engine.ids before /\
  (NoDup (Engine.ids paged) <->
   NoDup (map Supabase.json_id received) /\ NoDup (Engine.ids before) /\
   forall x, In x (map Supabase.json_id received) -> ~ In x (Engine.ids before)) /\
  inserted =
    before ++
      [ {| ChatWindow.id := Supabase.msg_id newMsg;
           ChatWindow.content := Supabase.msg_content newMsg;
           ChatWindow.created_at := Supabase.msg_created_at newMsg;
           ChatWindow.sender_id := Supabase.msg_sender_id newMsg;
           ChatWindow.conversation_id := Supabase.msg_conversation_id newMsg;
           ChatWindow.sender := Some who;
           ChatWindow.isEditing := None |} ] /\
  Engine.ids inserted = Engine.ids before ++ [Supabase.msg_id newMsg] /\
  (NoDup (Engine.ids inserted) <->
   NoDup (Engine.ids before) /\
   ~ In (Supabase.msg_id newMsg) (Engine.ids before)) /\
  replaced = map shown_as (rev received) /\
  (NoDup (Engine.ids replaced) <-> NoDup (map Supabase.json_id received)) /\
  (NoDup (Engine.ids before) ->
   Engine.guarded Engine.fresh ops st w ->
   NoDup (Engine.ids (ChatWindow.messages (fst (Engine.run ops st w))))).
Proof.
  cbv zeta.
  assert (P : ChatWindow.messages
                (fst (Engine.apply
                        (Engine.PageLoaded pageNumber true
                           {| Supabase.data := Some received;
                              Supabase.error := None;
                              Supabase.count := total |}) st w)) =
              map ChatWindow.with_sender (rev received) ++ ChatWindow.messages st).
  { simpl Engine.apply. now rewrite loadMessages_resolved_messages. }
  assert (R : ChatWindow.messages
                (fst (Engine.apply
                        (Engine.PageLoaded pageNumber false
                           {| Supabase.data := Some received;
                              Supabase.error := None;
                              Supabase.count := total |}) st w)) =
              map ChatWindow.with_sender (rev received)).
  { simpl Engine.apply. now rewrite loadMessages_resolved_messages. }
  assert (Pids : Engine.ids (map ChatWindow.with_sender (rev received)) =
                 rev (map Supabase.json_id received)).
  { unfold Engine.ids. rewrite map_map, <- map_rev. reflexivity. }
  assert (I : ChatWindow.messages
                (fst (Engine.apply
                        (Engine.LiveInsert newMsg
                           {| Supabase.data := Some who; Supabase.error := None;
                              Supabase.count := None |}) st w)) =
              ChatWindow.messages st ++
                [ {| ChatWindow.id := Supabase.msg_id newMsg;
                     ChatWindow.content := Supabase.msg_content newMsg;
                     ChatWindow.created_at := Supabase.msg_created_at newMsg;
                     ChatWindow.sender_id := Supabase.msg_sender_id newMsg;
                     ChatWindow.conversation_id :=
                       Supabase.msg_conversation_id newMsg;
                     ChatWindow.sender := Some who;
                     ChatWindow.isEditing := None |} ]).
  { simpl Engine.apply. now rewrite INSERT_resolved_messages. }
  rewrite P, R, I, !ids_app, Pids.
  split; [f_equal; apply map_ext, with_sender_fields|].
  split; [reflexivity|]. split.
  { rewrite joined_ids_NoDup, reversed_ids_NoDup. split.
    - intros (Hp & Hb & Hd). repeat split; auto.
      intros x Hx. apply Hd. now apply in_rev in Hx.
    - intros (Hp & Hb & Hd). repeat split; auto.
      intros x Hx. apply Hd. now apply in_rev. }
  split; [reflexivity|]. split; [reflexivity|]. split.
  { rewrite joined_ids_NoDup. simpl. split.
    - intros (Hb & _ & Hd). split; [exact Hb|].
      intros Hin. exact (Hd _ Hin (or_introl eq_refl)).
    - intros (Hb & Hn). split; [exact Hb|]. split; [repeat constructor; auto|].
      intros x Hx [<-|[]]. now apply Hn. }
  split; [apply map_ext, with_sender_fields|].
  split; [apply reversed_ids_NoDup|].
  apply (run_invariant (fun l => NoDup (Engine.ids l)) Engine.fresh).
  intros op st' w'. apply fresh_step.
Qed.

Lemma no_duplicates_when_fresh_witness :
  NoDup (Engine.ids (ChatWindow.messages Scenario.editing_second)) /\
  Engine.guarded Engine.fresh Scenario.orderly Scenario.editing_second
    (Scenario.world 21 []) /\
  NoDup (Engine.ids (ChatWindow.messages
           (fst (Engine.run Scenario.orderly Scenario.editing_second
                   (Scenario.world 21 []))))) /\
  Engine.ids
    (ChatWindow.messages
       (fst (Engine.apply
               (Engine.PageLoaded 1 true
                  {| Supabase.data :=
                       Some [Supabase.embed_sender (Scenario.database 0)
                               (Scenario.row 0)];
                     Supabase.error := None; Supabase.count := Some 3 |})
               Scenario.editing_second (Scenario.world 21 []))))
    = ["m0"; "m1"; "m2"] /\
  Engine.ids
    (ChatWindow.messages
       (fst (Engine.apply
               (Engine.LiveInsert (Scenario.row 3)
                  {| Supabase.data :=
                       Some {| Supabase.email := "alice@example.org" |};
                     Supabase.error := None; Supabase.count := None |})
               Scenario.editing_second (Scenario.world 21 []))))
    = ["m1"; "m2"; "m3"].
Proof.
  assert (H0 : NoDup (Engine.ids (ChatWindow.messages Scenario.editing_second)))
    by (vm_compute; literal_lists).
  assert (Hg : Engine.guarded Engine.fresh Scenario.orderly
                 Scenario.editing_second (Scenario.world 21 [])).
  { vm_compute. literal_lists. }
  destruct (no_duplicates_when_fresh Scenario.orderly Scenario.editing_second
              (Scenario.world 21 []) 1
              [Supabase.embed_sender (Scenario.database 0) (Scenario.row 0)]
              (Some 3) (Scenario.row 3)
              {| Supabase.email := "alice@example.org" |})
    as (_ & Hpaged & _ & _ & Hinserted & _ & _ & _ & Hrun).
  split; [exact H0|]. split; [exact Hg|]. split; [exact (Hrun H0 Hg)|].
  split; [rewrite Hpaged | rewrite Hinserted]; reflexivity.
Defined.

(** ** Order *)

Lemma ascending_strong (l : list ChatWindow.Message) :
  Engine.ascending l <->
  StronglySorted
    (fun a b => (ChatWindow.created_at a <= ChatWindow.created_at b)%Z) l.
Proof.
  split.
  - apply Sorted_StronglySorted. intros a b c Hab Hbc. lia.
  - apply StronglySorted_Sorted.
Qed.

Lemma StronglySorted_same_instants
    (g : ChatWindow.Message -> ChatWindow.Message)
    (l : list ChatWindow.Message) :
  (forall m, ChatWindow.created_at (g m) = ChatWindow.created_at m) ->
  StronglySorted
    (fun a b => (ChatWindow.created_at a <= ChatWindow.created_at b)%Z) l ->
  StronglySorted
    (fun a b => (ChatWindow.created_at a <= ChatWindow.created_at b)%Z)
    (map g l).
Proof.
  intros Hg S. apply StronglySorted_map.
  induction S as [|a l S IH Ha]; constructor; [exact IH|].
  rewrite Forall_forall in *. intros b Hb.
  rewrite !Hg. now apply Ha.
Qed.

(** The page made of the store's answer to a query is in ascending order. *)
Lemma page_of_select_sorted (conversation : string) (from to : nat)
    (q : Supabase.World) :
  StronglySorted
    (fun a b => (ChatWindow.created_at a <= ChatWindow.created_at b)%Z)
    (Engine.page_of (fst (Supabase.select_messages conversation from to q))).
Proof.
  unfold Supabase.select_messages, Supabase.request, Supabase.read_db, bind, ret.
  destruct (hd None (Supabase.net q)) as [e|]; simpl; [constructor|].
  all: unfold Engine.page_of; simpl.
  all: apply StronglySorted_map; rewrite <- map_rev.
  all: apply StronglySorted_map; simpl.
  all: apply (StronglySorted_reverse
           (fun a b => (Supabase.msg_created_at b <= Supabase.msg_created_at a)%Z)).
  all: apply range_sorted, timeline_sorted.
Qed.

Lemma timely_step (op : Engine.Op) (st : ChatWindow.State) (w : Supabase.World) :
  Engine.ascending (ChatWindow.messages st) ->
  Engine.timely op (ChatWindow.messages st) ->
  Engine.ascending (ChatWindow.messages (fst (Engine.apply op st w))).
Proof.
  rewrite !ascending_strong. intros Hs Ht.
  destruct op as [p append r|newMsg r|row|row|b|]; simpl Engine.apply.
  - rewrite loadMessages_resolved_messages.
    destruct Ht as [(conversation & from & to & q & ->) Hold].
    pose proof (page_of_select_sorted conversation from to q) as Hpage.
    destruct append.
    + apply StronglySorted_append; [exact Hpage | exact Hs |].
      intros a b Ha Hb. specialize (Hold eq_refl a b Ha Hb). lia.
    + destruct (Supabase.error _); [exact Hs | exact Hpage].
  - rewrite INSERT_resolved_messages. simpl in Ht.
    destruct (Supabase.data r) as [d|]; [|exact Hs].
    apply StronglySorted_append; [exact Hs | repeat constructor |].
    intros a b Ha [<-|[]]. specialize (Ht a Ha). simpl. lia.
  - unfold ret. simpl. apply StronglySorted_same_instants; [|exact Hs].
    intros m. now destruct (ChatWindow.id m =? Supabase.msg_id row)%string.
  - unfold ret. simpl. now apply StronglySorted_filter.
  - unfold ret. simpl. apply StronglySorted_same_instants; [|exact Hs].
    intros m. now destruct (ChatWindow.id m =? ChatWindow.id b)%string.
  - unfold ret. simpl. now apply StronglySorted_same_instants.
Qed.

(** C2. Along every sequence of operations (initial page, page put in
    front, live insert, update and delete, local edit start and cancel) in
    which the pages are answers of the store, a page put in front holds only
    messages older than every message of the list, and a live insert is newer
    than every message of the list, the list stays in ascending order of
    creation instant. *)
Theorem list_stays_ascending
    (ops : list Engine.Op) (st : ChatWindow.State) (w : Supabase.World) :
  Engine.ascending (ChatWindow.messages st) ->
  Engine.guarded Engine.timely ops st w ->
  Engine.ascending (ChatWindow.messages (fst (Engine.run ops st w))).
Proof.
  apply (run_invariant Engine.ascending Engine.timely).
  intros op st' w'. apply timely_step.
Qed.

Lemma list_stays_ascending_witness :
  Engine.ascending (ChatWindow.messages ChatWindow.initial) /\
  Engine.guarded Engine.timely Scenario.orderly ChatWindow.initial
    (Scenario.world 21 []) /\
  Engine.ascending (ChatWindow.messages
    (fst (Engine.run Scenario.orderly ChatWindow.initial
            (Scenario.world 21 [])))).
Proof.
  assert (H0 : Engine.ascending (ChatWindow.messages ChatWindow.initial))
    by constructor.
  assert (Hg : Engine.guarded Engine.timely Scenario.orderly ChatWindow.initial
                 (Scenario.world 21 [])).
  { unfold Scenario.orderly.
    split; [split; [|discriminate]|].
    { exists "c1", 0, 19, (Scenario.world 21 []). reflexivity. }
    split; [split; [|literal_instants]|].
    { exists "c1", 20, 39, (Scenario.world 21 []). reflexivity. }
    split; [simpl Engine.timely; literal_instants|].
    repeat (split; [exact I|]). exact I. }
  split; [exact H0|]. split; [exact Hg|].
  exact (list_stays_ascending Scenario.orderly ChatWindow.initial
           (Scenario.world 21 []) H0 Hg).
Defined.

(** ** The editing flag *)

Lemma page_of_not_editing (r : Supabase.Response (list Supabase.MessageJson))
    (m : ChatWindow.Message) :
  In m (Engine.page_of r) -> ChatWindow.editing m = false.
Proof.
  unfold Engine.page_of. destruct (Supabase.error r); [intros []|].
  intros H. apply in_map_iff in H as [j [<- _]]. reflexivity.
Qed.

Lemma exclusive_step (op : Engine.Op) (st : ChatWindow.State) (w : Supabase.World) :
  Engine.exclusive (ChatWindow.messages st) ->
  Engine.exclusive (ChatWindow.messages (fst (Engine.apply op st w))).
Proof.
  intros Hx.
  destruct op as [p append r|newMsg r|row|row|b|]; simpl Engine.apply.
  - rewrite loadMessages_resolved_messages.
    assert (Hp : forall m, In m (Engine.page_of r) -> ChatWindow.editing m = true ->
                           False).
    { intros m Hm He. rewrite (page_of_not_editing r m Hm) in He. discriminate. }
    destruct append.
    + intros x y Hin_x Hin_y Ex Ey.
      apply in_app_or in Hin_x as [Hin_x|Hin_x]; [destruct (Hp x Hin_x Ex)|].
      apply in_app_or in Hin_y as [Hin_y|Hin_y]; [destruct (Hp y Hin_y Ey)|].
      now apply Hx.
    + destruct (Supabase.error r) eqn:E; [exact Hx|].
      intros x y Hin_x _ Ex. destruct (Hp x Hin_x Ex).
  - rewrite INSERT_resolved_messages.
    destruct (Supabase.data r) as [d|]; [|exact Hx].
    intros x y Hin_x Hin_y Ex Ey.
    apply in_app_or in Hin_x as [Hin_x|[<-|[]]]; [|discriminate Ex].
    apply in_app_or in Hin_y as [Hin_y|[<-|[]]]; [|discriminate Ey].
    now apply Hx.
  - unfold ret. simpl. intros x y Hin_x Hin_y Ex Ey.
    apply in_map_iff in Hin_x as [x0 [<- Hx0]].
    apply in_map_iff in Hin_y as [y0 [<- Hy0]].
    destruct (ChatWindow.id x0 =? Supabase.msg_id row)%string; [discriminate Ex|].
    destruct (ChatWindow.id y0 =? Supabase.msg_id row)%string; [discriminate Ey|].
    now apply Hx.
  - unfold ret. simpl. intros x y Hin_x Hin_y.
    apply filter_In in Hin_x as [Hin_x _]. apply filter_In in Hin_y as [Hin_y _].
    now apply Hx.
  - unfold ret. simpl. intros x y Hin_x Hin_y Ex Ey.
    apply in_map_iff in Hin_x as [x0 [<- Hx0]].
    apply in_map_iff in Hin_y as [y0 [<- Hy0]].
    destruct (String.eqb_spec (ChatWindow.id x0) (ChatWindow.id b)) as [E1|E1];
      [|discriminate Ex].
    destruct (String.eqb_spec (ChatWindow.id y0) (ChatWindow.id b)) as [E2|E2];
      [|discriminate Ey].
    simpl. congruence.
  - unfold ret. simpl. intros x y Hin_x _ Ex.
    apply in_map_iff in Hin_x as [x0 [<- Hx0]]. discriminate Ex.
Qed.

Lemma guarded_always (ops : list Engine.Op) (st : ChatWindow.State)
    (w : Supabase.World) :
  Engine.guarded (fun _ _ => True) ops st w.
Proof.
  revert st w. induction ops as [|op ops IH]; intros st w; simpl; auto.
Qed.

Lemma none_editing (l : list ChatWindow.Message) :
  (forall m, In m l -> ChatWindow.editing m = false) ->
  filter ChatWindow.editing l = [].
Proof.
  induction l as [|a l IH]; intros H; simpl; [reflexivity|].
  rewrite (H a (or_introl eq_refl)). apply IH.
  intros m Hm. apply H. now right.
Qed.

Lemma exclusive_count (l : list ChatWindow.Message) :
  NoDup (Engine.ids l) -> Engine.exclusive l -> Engine.editing_count l <= 1.
Proof.
  unfold Engine.editing_count.
  induction l as [|a l IH]; simpl; intros Hnd Hx; [lia|].
  inversion Hnd as [|i rest Ha Hl]; subst.
  destruct (ChatWindow.editing a) eqn:Ea.
  - rewrite none_editing; [simpl; lia|].
    intros m Hm. destruct (ChatWindow.editing m) eqn:Em; [|reflexivity].
    exfalso. apply Ha.
    rewrite (Hx a m (or_introl eq_refl) (or_intror Hm) Ea Em).
    unfold Engine.ids. now apply in_map.
  - apply IH; [exact Hl|].
    intros x y Hin_x Hin_y. apply Hx; now right.
Qed.

(** C6, as stated, fails.  After the race that leaves a message twice in
    the list, starting to edit it sets the flag on both entries. *)
Lemma two_entries_editing :
  Engine.editing_count (ChatWindow.messages ChatWindow.initial) <= 1 /\
  ~ Engine.editing_count
      (ChatWindow.messages
         (fst (Engine.run Scenario.edit_after_race ChatWindow.initial
                 (Scenario.world 1 [])))) <= 1.
Proof.
  split; vm_compute; [lia|].
  intros H. inversion H as [|n H1]. inversion H1.
Qed.

(** C6, amended.  At any time the messages whose editing flag is set all
    carry one id, so at most one message is being edited whenever the list
    holds no id twice.  Starting an edit on [B] sets the flag on the entries
    with the id of [B] and clears it on every other message; cancelling
    clears it on all messages.  Every operation keeps this. *)
Theorem editing_is_exclusive
    (ops : list Engine.Op) (st : ChatWindow.State) (w : Supabase.World)
    (B : ChatWindow.Message) :
  Engine.exclusive (ChatWindow.messages st) ->
  Engine.exclusive (ChatWindow.messages (fst (Engine.run ops st w))) /\
  (NoDup (Engine.ids (ChatWindow.messages (fst (Engine.run ops st w)))) ->
   Engine.editing_count (ChatWindow.messages (fst (Engine.run ops st w))) <= 1) /\
  (forall m,
     In m (ChatWindow.messages
             (ChatWindow.startEditMessage B (fst (Engine.run ops st w)))) ->
     ChatWindow.editing m = (ChatWindow.id m =? ChatWindow.id B)%string) /\
  (forall m,
     In m (ChatWindow.messages
             (ChatWindow.cancelEditMessage (fst (Engine.run ops st w)))) ->
     ChatWindow.editing m = false).
Proof.
  intros Hx.
  assert (Hrun : Engine.exclusive
                   (ChatWindow.messages (fst (Engine.run ops st w)))).
  { apply (run_invariant Engine.exclusive (fun _ _ => True)).
    - intros op st' w' H _. now apply exclusive_step.
    - exact Hx.
    - apply guarded_always. }
  split; [exact Hrun|]. split; [|split].
  - intros Hnd. now apply exclusive_count.
  - simpl. intros m Hm. apply in_map_iff in Hm as [m0 [<- _]].
    now destruct (ChatWindow.id m0 =? ChatWindow.id B)%string eqn:E; simpl; rewrite E.
  - simpl. intros m Hm. apply in_map_iff in Hm as [m0 [<- _]]. reflexivity.
Qed.

Lemma editing_is_exclusive_witness :
  Engine.exclusive (ChatWindow.messages ChatWindow.initial) /\
  Engine.editing_count
    (ChatWindow.messages
       (fst (Engine.run Scenario.orderly ChatWindow.initial
               (Scenario.world 21 [])))) <= 1.
Proof.
  assert (H0 : Engine.exclusive (ChatWindow.messages ChatWindow.initial))
    by (intros a b []).
  split; [exact H0|].
  destruct (editing_is_exclusive Scenario.orderly ChatWindow.initial
              (Scenario.world 21 []) (Scenario.with_sender_of 1) H0)
    as (_ & Hcount & _).
  apply Hcount. vm_compute. literal_lists.
Defined.

(** ** Page loads *)

Lemma range_page (p : nat) {A : Type} (l : list A) :
  Supabase.range (p * ChatWindow.MESSAGES_PER_PAGE)
    (p * ChatWindow.MESSAGES_PER_PAGE + ChatWindow.MESSAGES_PER_PAGE - 1) l =
  firstn 20 (skipn (p * 20) l).
Proof.
  unfold Supabase.range, ChatWindow.MESSAGES_PER_PAGE.
  replace (p * 20 + 20 - 1 + 1 - p * 20) with 20 by lia. reflexivity.
Qed.

Lemma ok_at_next (w : Supabase.World) :
  Supabase.ok_at 0 w -> hd None (Supabase.net w) = None.
Proof.
  unfold Supabase.ok_at. now destruct (Supabase.net w).
Qed.

Lemma select_messages_ok (conversation : string) (from to : nat)
    (w : Supabase.World) :
  Supabase.ok_at 0 w ->
  Supabase.select_messages conversation from to w =
  ({| Supabase.data :=
        Some (map (Supabase.embed_sender (Supabase.db w))
                  (Supabase.range from to
                     (Supabase.timeline (Supabase.db w) conversation)));
      Supabase.error := None;
      Supabase.count :=
        Some (length (Supabase.timeline (Supabase.db w) conversation)) |},
   snd (Supabase.request (Supabase.SelectMessages conversation from to) w)).
Proof.
  intros Hok. unfold Supabase.select_messages, Supabase.request, bind.
  rewrite (ok_at_next w Hok). reflexivity.
Qed.

(** A page load whose request does not fail. *)
Lemma loadMessages_ok (conversationId : string) (p : nat) (append : bool)
    (st : ChatWindow.State) (w : Supabase.World) :
  Supabase.ok_at 0 w ->
  let rows := Supabase.timeline (Supabase.db w) conversationId in
  let page := map ChatWindow.with_sender
                (rev (map (Supabase.embed_sender (Supabase.db w))
                          (firstn 20 (skipn (p * 20) rows)))) in
  let sent := snd (Supabase.request
                     (Supabase.SelectMessages conversationId (p * 20)
                        (p * 20 + 19)) w) in
  ChatWindow.loadMessages conversationId p append st w =
  (ChatWindow.setLoading false
     (ChatWindow.setHasMore (p * 20 + length page <? length rows)
        (ChatWindow.setMessages
           (fun prev => if append then page ++ prev else page) st)),
   if append then sent else snd (Supabase.schedule_scroll sent)).
Proof.
  intros Hok. simpl.
  unfold ChatWindow.loadMessages, bind.
  rewrite (select_messages_ok _ _ _ _ Hok), range_page.
  replace (p * ChatWindow.MESSAGES_PER_PAGE + ChatWindow.MESSAGES_PER_PAGE - 1)
    with (p * 20 + 19) by (unfold ChatWindow.MESSAGES_PER_PAGE; lia).
  replace (p * ChatWindow.MESSAGES_PER_PAGE) with (p * 20) by reflexivity.
  destruct append; reflexivity.
Qed.

Lemma shown_ascending (d : Supabase.Db) (l : list Supabase.MessageRow) :
  StronglySorted
    (fun a b => (Supabase.msg_created_at b <= Supabase.msg_created_at a)%Z) l ->
  Engine.ascending
    (map ChatWindow.with_sender (rev (map (Supabase.embed_sender d) l))).
Proof.
  intros S. apply ascending_strong.
  apply StronglySorted_map. rewrite <- map_rev.
  apply StronglySorted_map. simpl.
  now apply (StronglySorted_reverse
           (fun a b => (Supabase.msg_created_at b <= Supabase.msg_created_at a)%Z)).
Qed.

Lemma shown_length (d : Supabase.Db) (l : list Supabase.MessageRow) :
  length (map ChatWindow.with_sender (rev (map (Supabase.embed_sender d) l))) =
  length l.
Proof. now rewrite length_map, length_rev, length_map. Qed.

Lemma ok_at_after_request (c : Supabase.Call) (n : nat) (w : Supabase.World) :
  Supabase.ok_at (S n) w ->
  Supabase.ok_at n (snd (Supabase.request c w)).
Proof.
  unfold Supabase.ok_at. simpl.
  destruct (Supabase.net w) as [|f rest]; simpl; [now destruct n | auto].
Qed.

(** What the component shows for a stored row: the row's own fields, the
    e-mail address of the user its sender id names, and no editing mark. *)
Lemma shown_rows (d : Supabase.Db) (l : list Supabase.MessageRow) :
  map ChatWindow.with_sender (rev (map (Supabase.embed_sender d) l)) =
  map (fun r =>
         {| ChatWindow.id := Supabase.msg_id r;
            ChatWindow.content := Supabase.msg_content r;
            ChatWindow.created_at := Supabase.msg_created_at r;
            ChatWindow.sender_id := Supabase.msg_sender_id r;
            ChatWindow.conversation_id := Supabase.msg_conversation_id r;
            ChatWindow.sender :=
              option_map
                (fun u => {| Supabase.email := Supabase.user_email u |})
                (Supabase.find_user d (Supabase.msg_sender_id r));
            ChatWindow.isEditing := None |})
      (rev l).
Proof. rewrite <- map_rev, map_map. apply map_ext. reflexivity. Qed.

(** In a timeline, a row of the first [n] is at least as recent as any row
    after them. *)
Lemma first_rows_most_recent (n : nat) (rows : list Supabase.MessageRow) :
  StronglySorted
    (fun a b => (Supabase.msg_created_at b <= Supabase.msg_created_at a)%Z)
    rows ->
  forall a b, In a (firstn n rows) -> In b (skipn n rows) ->
              (Supabase.msg_created_at b <= Supabase.msg_created_at a)%Z.
Proof.
  revert n. induction rows as [|r rows IH]; intros n S a b Ha Hb.
  - rewrite firstn_nil in Ha. destruct Ha.
  - destruct n as [|n]; [destruct Ha|].
    apply StronglySorted_inv in S as [S Hr]. simpl in Ha, Hb.
    destruct Ha as [<-|Ha].
    + rewrite Forall_forall in Hr. apply Hr.
      rewrite <- (firstn_skipn n rows). apply in_or_app. now right.
    + now apply (IH n S).
Qed.

(** C5. A page load asks the store for the rows [p*20 .. p*20+19] of the
    conversation in descending order of creation instant, shows them
    reversed, hence ascending, in front of the list (or in its place), and
    sets [hasMore] exactly when [p*20] plus the number of rows received is
    below the total count.  Each row is shown with its own id, content,
    instant, sender id and conversation id.  With exactly 25 messages, the
    initial load shows the 20 most recent in ascending order with [hasMore]
    set, and the scroll to the top that follows puts the remaining 5 in
    front: 25 messages in ascending order, [hasMore] cleared. *)
Theorem page_window_and_hasMore
    (conversationId : string) (p : nat) (append : bool)
    (st : ChatWindow.State) (w : Supabase.World) :
  Supabase.ok_at 0 w ->
  let d := Supabase.db w in
  let rows := Supabase.timeline d conversationId in
  let window := Supabase.range (p * 20) (p * 20 + 19) rows in
  let page := map ChatWindow.with_sender
                (rev (map (Supabase.embed_sender d) window)) in
  let st' := fst (ChatWindow.loadMessages conversationId p append st w) in
  let w' := snd (ChatWindow.loadMessages conversationId p append st w) in
  let s0 := fst (ChatWindow.useEffect conversationId ChatWindow.initial w) in
  let w0 := snd (ChatWindow.useEffect conversationId ChatWindow.initial w) in
  let s1 := fst (ChatWindow.handleScroll conversationId (Some 0) s0 w0) in
  let shown_as := fun r =>
    {| ChatWindow.id := Supabase.msg_id r;
       ChatWindow.content := Supabase.msg_content r;
       ChatWindow.created_at := Supabase.msg_created_at r;
       ChatWindow.sender_id := Supabase.msg_sender_id r;
       ChatWindow.conversation_id := Supabase.msg_conversation_id r;
       ChatWindow.sender :=
         option_map (fun u => {| Supabase.email := Supabase.user_email u |})
                    (Supabase.find_user d (Supabase.msg_sender_id r));
       ChatWindow.isEditing := None |} in
  StronglySorted
    (fun a b => (Supabase.msg_created_at b <= Supabase.msg_created_at a)%Z)
    rows /\
  (forall r, In r rows <->
             In r (Supabase.messages d) /\
             Supabase.msg_conversation_id r = conversationId) /\
  length rows =
    length (filter (Supabase.in_conversation conversationId)
                   (Supabase.messages d)) /\
  Supabase.calls w' =
    Supabase.calls w ++
      [Supabase.SelectMessages conversationId (p * 20) (p * 20 + 19)] /\
  (forall i, nth_error window i =
             if i <? 20 then nth_error rows (p * 20 + i) else None) /\
  ChatWindow.messages st' =
    (if append then page ++ ChatWindow.messages st else page) /\
  Engine.ascending page /\
  (ChatWindow.hasMore st' = true <-> p * 20 + length page < length rows) /\
  (length rows = 25 -> Supabase.ok_at 1 w ->
   ChatWindow.messages s0 =
     map ChatWindow.with_sender
         (rev (map (Supabase.embed_sender d) (firstn 20 rows))) /\
   length (ChatWindow.messages s0) = 20 /\
   Engine.ascending (ChatWindow.messages s0) /\
   ChatWindow.hasMore s0 = true /\
   ChatWindow.messages s1 =
     map ChatWindow.with_sender
         (rev (map (Supabase.embed_sender d) (skipn 20 rows)))
     ++ ChatWindow.messages s0 /\
   ChatWindow.messages s1 =
     map ChatWindow.with_sender (rev (map (Supabase.embed_sender d) rows)) /\
   length (ChatWindow.messages s1) = 25 /\
   Engine.ascending (ChatWindow.messages s1) /\
   ChatWindow.hasMore s1 = false) /\
  page = map shown_as (rev window) /\
  Engine.ids page = rev (map Supabase.msg_id window) /\
  map ChatWindow.created_at page = rev (map Supabase.msg_created_at window) /\
  (forall i, i < length window ->
             nth_error page i =
             option_map shown_as
               (nth_error rows (p * 20 + (length window - 1 - i)))) /\
  (length rows = 25 -> Supabase.ok_at 1 w ->
   ChatWindow.messages s0 = map shown_as (rev (firstn 20 rows)) /\
   Engine.ids (ChatWindow.messages s0) =
     rev (map Supabase.msg_id (firstn 20 rows)) /\
   (forall a b, In a (firstn 20 rows) -> In b (skipn 20 rows) ->
                (Supabase.msg_created_at b <= Supabase.msg_created_at a)%Z) /\
   ChatWindow.messages s1 = map shown_as (rev rows) /\
   Engine.ids (ChatWindow.messages s1) = rev (map Supabase.msg_id rows) /\
   map ChatWindow.created_at (ChatWindow.messages s1) =
     rev (map Supabase.msg_created_at rows)).
Proof.
  intros Hok d rows window page st' w' s0 w0 s1 shown_as.
  assert (Hrows : StronglySorted
            (fun a b => (Supabase.msg_created_at b <= Supabase.msg_created_at a)%Z)
            rows) by apply timeline_sorted.
  assert (Hwin : window = firstn 20 (skipn (p * 20) rows)).
  { unfold window, Supabase.range.
    replace (p * 20 + 19 + 1 - p * 20) with 20 by lia. reflexivity. }
  pose proof (loadMessages_ok conversationId p append st w Hok) as Hload.
  cbv zeta in Hload. fold d rows in Hload. rewrite <- Hwin in Hload.
  fold page in Hload.
  assert (Hpage : page = map shown_as (rev window))
    by (unfold page; apply shown_rows).
  assert (Hscenario :
    length rows = 25 -> Supabase.ok_at 1 w ->
    ChatWindow.messages s0 =
      map ChatWindow.with_sender
          (rev (map (Supabase.embed_sender d) (firstn 20 rows))) /\
    length (ChatWindow.messages s0) = 20 /\
    Engine.ascending (ChatWindow.messages s0) /\
    ChatWindow.hasMore s0 = true /\
    ChatWindow.messages s1 =
      map ChatWindow.with_sender
          (rev (map (Supabase.embed_sender d) (skipn 20 rows)))
      ++ ChatWindow.messages s0 /\
    ChatWindow.messages s1 =
      map ChatWindow.with_sender (rev (map (Supabase.embed_sender d) rows)) /\
    length (ChatWindow.messages s1) = 25 /\
    Engine.ascending (ChatWindow.messages s1) /\
    ChatWindow.hasMore s1 = false).
  { intros H25 Hok1.
    assert (L0 : length (firstn 20 rows) = 20) by (rewrite length_firstn; lia).
    assert (L1 : length (skipn 20 rows) = 5) by (rewrite length_skipn; lia).
    (* the initial load *)
    pose proof (loadMessages_ok conversationId 0 false
                  (ChatWindow.setHasMore true
                     (ChatWindow.setPage 0
                        (ChatWindow.setLoading true ChatWindow.initial)))
                  w Hok) as H0.
    cbv zeta in H0. fold d rows in H0.
    change (0 * 20) with 0 in H0. change (skipn 0 rows) with rows in H0.
    rewrite shown_length, L0, H25 in H0.
    assert (M0 : ChatWindow.messages s0 =
                 map ChatWindow.with_sender
                   (rev (map (Supabase.embed_sender d) (firstn 20 rows))))
      by (unfold s0, ChatWindow.useEffect; rewrite H0; reflexivity).
    assert (HM0 : ChatWindow.hasMore s0 = true)
      by (unfold s0, ChatWindow.useEffect; rewrite H0; reflexivity).
    assert (LD0 : ChatWindow.loading s0 = false)
      by (unfold s0, ChatWindow.useEffect; rewrite H0; reflexivity).
    assert (PG0 : ChatWindow.page s0 = 0)
      by (unfold s0, ChatWindow.useEffect; rewrite H0; reflexivity).
    assert (D0 : Supabase.db w0 = d)
      by (unfold w0, ChatWindow.useEffect; rewrite H0; reflexivity).
    assert (Hok0 : Supabase.ok_at 0 w0).
    { unfold w0, ChatWindow.useEffect. rewrite H0.
      exact (ok_at_after_request
               (Supabase.SelectMessages conversationId 0 19) 0 w Hok1). }
    (* the scroll to the top *)
    pose proof (loadMessages_ok conversationId 1 true
                  (ChatWindow.setPage 1 (ChatWindow.setLoading true s0))
                  w0 Hok0) as H1.
    cbv zeta in H1. rewrite D0 in H1. fold rows in H1.
    change (1 * 20) with 20 in H1.
    rewrite (firstn_all2 (skipn 20 rows)) in H1 by lia.
    rewrite shown_length, L1, H25 in H1.
    assert (E1 : s1 = fst (ChatWindow.loadMessages conversationId 1 true
                             (ChatWindow.setPage 1 (ChatWindow.setLoading true s0))
                             w0)).
    { unfold s1, ChatWindow.handleScroll. rewrite HM0, LD0, PG0. reflexivity. }
    rewrite H1 in E1.
    assert (M1 : ChatWindow.messages s1 =
                 map ChatWindow.with_sender
                   (rev (map (Supabase.embed_sender d) (skipn 20 rows)))
                 ++ ChatWindow.messages s0)
      by (rewrite E1; reflexivity).
    assert (M1' : ChatWindow.messages s1 =
                  map ChatWindow.with_sender
                    (rev (map (Supabase.embed_sender d) rows))).
    { rewrite M1, M0, <- map_app, <- rev_app_distr, <- map_app.
      now rewrite firstn_skipn. }
    repeat split.
    + exact M0.
    + now rewrite M0, shown_length.
    + rewrite M0. apply shown_ascending. now apply StronglySorted_firstn.
    + exact HM0.
    + exact M1.
    + exact M1'.
    + now rewrite M1', shown_length.
    + rewrite M1'. now apply shown_ascending.
    + rewrite E1. reflexivity. }
  split; [exact Hrows|].
  split; [|split; [|split; [|split; [|split; [|split; [|split; [|split;
    [exact Hscenario|split; [exact Hpage|split; [|split; [|split]]]]]]]]]]].
  - intros r. unfold rows, Supabase.timeline.
    rewrite order_desc_In, filter_In. unfold Supabase.in_conversation.
    now rewrite String.eqb_eq.
  - apply order_desc_length.
  - unfold w'. rewrite Hload. now destruct append.
  - intros i. rewrite Hwin, nth_error_firstn, nth_error_skipn. reflexivity.
  - unfold st'. rewrite Hload. now destruct append.
  - apply shown_ascending. unfold window. now apply range_sorted.
  - unfold st'. rewrite Hload. apply Nat.ltb_lt.
  - rewrite Hpage. unfold Engine.ids. rewrite map_map, <- map_rev. reflexivity.
  - rewrite Hpage, map_map, <- map_rev. reflexivity.
  - intros i Hi. rewrite Hpage, nth_error_map. f_equal.
    assert (Hlen : length window <= 20)
      by (rewrite Hwin, length_firstn; lia).
    rewrite nth_error_rev.
    replace (i <? length window) with true
      by (symmetry; apply Nat.ltb_lt; exact Hi).
    replace (length window - S i) with (length window - 1 - i) by lia.
    assert (Hw : forall k, nth_error window k =
                           if k <? 20 then nth_error rows (p * 20 + k) else None)
      by (intros k; rewrite Hwin, nth_error_firstn, nth_error_skipn;
          reflexivity).
    rewrite Hw.
    replace (length window - 1 - i <? 20) with true
      by (symmetry; apply Nat.ltb_lt; lia).
    reflexivity.
  - intros H25 Hok1.
    destruct (Hscenario H25 Hok1) as (M0 & _ & _ & _ & _ & M1 & _).
    assert (N0 : ChatWindow.messages s0 = map shown_as (rev (firstn 20 rows)))
      by (rewrite M0; apply shown_rows).
    assert (N1 : ChatWindow.messages s1 = map shown_as (rev rows))
      by (rewrite M1; apply shown_rows).
    split; [exact N0|]. split.
    { rewrite N0. unfold Engine.ids. rewrite map_map, <- map_rev. reflexivity. }
    split; [now apply first_rows_most_recent|].
    split; [exact N1|]. split.
    { rewrite N1. unfold Engine.ids. rewrite map_map, <- map_rev. reflexivity. }
    rewrite N1, map_map, <- map_rev. reflexivity.
Qed.

Lemma page_window_and_hasMore_witness :
  Supabase.ok_at 0 (Scenario.world 25 []) /\
  length (Supabase.timeline (Supabase.db (Scenario.world 25 [])) "c1") = 25 /\
  Supabase.ok_at 1 (Scenario.world 25 []) /\
  ChatWindow.hasMore
    (fst (ChatWindow.useEffect "c1" ChatWindow.initial (Scenario.world 25 [])))
    = true /\
  ChatWindow.hasMore
    (fst (ChatWindow.handleScroll "c1" (Some 0)
            (fst (ChatWindow.useEffect "c1" ChatWindow.initial
                    (Scenario.world 25 [])))
            (snd (ChatWindow.useEffect "c1" ChatWindow.initial
                    (Scenario.world 25 []))))) = false /\
  Engine.ids
    (ChatWindow.messages
       (fst (ChatWindow.useEffect "c1" ChatWindow.initial
               (Scenario.world 25 []))))
    = ["m6"; "m7"; "m8"; "m9"; "m10"; "m11"; "m12"; "m13"; "m14"; "m15";
       "m16"; "m17"; "m18"; "m19"; "m20"; "m21"; "m22"; "m23"; "m24"; "m25"] /\
  map ChatWindow.created_at
    (ChatWindow.messages
       (fst (ChatWindow.handleScroll "c1" (Some 0)
               (fst (ChatWindow.useEffect "c1" ChatWindow.initial
                       (Scenario.world 25 [])))
               (snd (ChatWindow.useEffect "c1" ChatWindow.initial
                       (Scenario.world 25 []))))))
    = [1; 2; 3; 4; 5; 6; 7; 8; 9; 10; 11; 12; 13; 14; 15; 16; 17; 18; 19; 20;
       21; 22; 23; 24; 25]%Z.
Proof.
  assert (H0 : Supabase.ok_at 0 (Scenario.world 25 [])) by reflexivity.
  assert (H1 : Supabase.ok_at 1 (Scenario.world 25 [])) by reflexivity.
  assert (H25 : length (Supabase.timeline (Supabase.db (Scenario.world 25 []))
                          "c1") = 25) by (vm_compute; reflexivity).
  destruct (page_window_and_hasMore "c1" 1 true ChatWindow.initial
              (Scenario.world 25 []) H0)
    as (_ & _ & _ & _ & _ & _ & _ & _ & Hscenario & _ & _ & _ & _ & Hshown).
  destruct (Hscenario H25 H1) as (_ & _ & _ & Hmore0 & _ & _ & _ & _ & Hmore1).
  destruct (Hshown H25 H1) as (_ & Hids0 & _ & _ & _ & Hat1).
  split; [exact H0|]. split; [exact H25|]. split; [exact H1|].
  split; [exact Hmore0|]. split; [exact Hmore1|].
  split; [refine (eq_trans Hids0 _) | refine (eq_trans Hat1 _)];
    vm_compute; reflexivity.
Defined.

(** ** Writes by someone who is not the author *)

Lemma foreign_rows (messageId userId : string) (rows : list Supabase.MessageRow) :
  (forall r, In r rows -> Supabase.msg_id r = messageId ->
             Supabase.msg_sender_id r <> userId) ->
  forall r, In r rows -> Supabase.own_message messageId userId r = false.
Proof.
  intros H r Hr. unfold Supabase.own_message.
  destruct (String.eqb_spec (Supabase.msg_id r) messageId) as [E|E];
    [|reflexivity].
  destruct (String.eqb_spec (Supabase.msg_sender_id r) userId) as [E'|E'];
    [|reflexivity].
  destruct (H r Hr E E').
Qed.

Lemma filter_none {A : Type} (p : A -> bool) (l : list A) :
  (forall x, In x l -> p x = false) -> filter p l = [].
Proof.
  induction l as [|a l IH]; intros H; simpl; [reflexivity|].
  rewrite (H a (or_introl eq_refl)). apply IH. intros x Hx. apply H. now right.
Qed.

Lemma filter_every {A : Type} (p : A -> bool) (l : list A) :
  (forall x, In x l -> p x = false) -> filter (fun x => negb (p x)) l = l.
Proof.
  induction l as [|a l IH]; intros H; simpl; [reflexivity|].
  rewrite (H a (or_introl eq_refl)). simpl. f_equal.
  apply IH. intros x Hx. apply H. now right.
Qed.

Lemma map_none {A : Type} (p : A -> bool) (g : A -> A) (l : list A) :
  (forall x, In x l -> p x = false) ->
  map (fun x => if p x then g x else x) l = l.
Proof.
  induction l as [|a l IH]; intros H; simpl; [reflexivity|].
  rewrite (H a (or_introl eq_refl)). f_equal.
  apply IH. intros x Hx. apply H. now right.
Qed.

Lemma set_messages_same (d : Supabase.Db) :
  Supabase.set_messages (Supabase.messages d) d = d.
Proof. now destruct d. Qed.

(** The conditional update of someone else's message touches no row and
    emits no change record. *)
Lemma update_message_foreign (messageId userId body : string)
    (w : Supabase.World) :
  (forall r, In r (Supabase.messages (Supabase.db w)) ->
             Supabase.msg_id r = messageId ->
             Supabase.msg_sender_id r <> userId) ->
  Supabase.update_message messageId userId body w =
  (match hd None (Supabase.net w) with
   | Some e => Supabase.failed e
   | None => Supabase.done None
   end,
   snd (Supabase.request (Supabase.UpdateMessage messageId userId body) w)).
Proof.
  intros H. pose proof (foreign_rows _ _ _ H) as Hf.
  unfold Supabase.update_message, bind, Supabase.request.
  destruct (hd None (Supabase.net w)); [reflexivity|].
  unfold Supabase.read_db, Supabase.write_db, Supabase.emit, ret. simpl.
  rewrite (filter_none _ _ Hf), (map_none _ _ _ Hf), set_messages_same.
  simpl. now rewrite app_nil_r.
Qed.

Lemma delete_message_foreign (messageId userId : string) (w : Supabase.World) :
  (forall r, In r (Supabase.messages (Supabase.db w)) ->
             Supabase.msg_id r = messageId ->
             Supabase.msg_sender_id r <> userId) ->
  Supabase.delete_message messageId userId w =
  (match hd None (Supabase.net w) with
   | Some e => Supabase.failed e
   | None => Supabase.done None
   end,
   snd (Supabase.request (Supabase.DeleteMessage messageId userId) w)).
Proof.
  intros H. pose proof (foreign_rows _ _ _ H) as Hf.
  unfold Supabase.delete_message, bind, Supabase.request.
  destruct (hd None (Supabase.net w)); [reflexivity|].
  unfold Supabase.read_db, Supabase.write_db, Supabase.emit, ret. simpl.
  rewrite (filter_none _ _ Hf), (filter_every _ _ Hf), set_messages_same.
  simpl. now rewrite app_nil_r.
Qed.

(** C4, as stated, fails.  [bob] deletes a message written by [alice]: no
    row is touched, and the user is told "Message deleted". *)
Lemma foreign_delete_reports_success :
  (forall r, In r (Supabase.messages (Supabase.db (Scenario.world 1 []))) ->
             Supabase.msg_id r = "m1" -> Supabase.msg_sender_id r <> "bob") /\
  Supabase.db (snd (ChatWindow.deleteMessage "bob" "m1" ChatWindow.initial
                      (Scenario.world 1 []))) =
    Supabase.db (Scenario.world 1 []) /\
  Supabase.toasts (snd (ChatWindow.deleteMessage "bob" "m1" ChatWindow.initial
                          (Scenario.world 1 []))) =
    [(Supabase.Success, "Message deleted")].
Proof.
  split; [|split; reflexivity].
  intros r [<-|[]] _. discriminate.
Qed.

(** C4, amended.  An edit or a delete issued by a user who is not the
    author of the message is sent with the condition on the message id and
    on [sender_id] equal to the acting user, matches no row, leaves the
    database as it was, emits no change record and does not change the
    canonical list.  The edit shows no success notification; the delete
    shows "Message deleted" when the store answers without error, and a
    failure notification otherwise. *)
Theorem foreign_write_changes_nothing
    (userId messageId : string) (st : ChatWindow.State) (w : Supabase.World) :
  (forall r, In r (Supabase.messages (Supabase.db w)) ->
             Supabase.msg_id r = messageId ->
             Supabase.msg_sender_id r <> userId) ->
  let saved := ChatWindow.saveEditMessage userId messageId st w in
  let deleted := ChatWindow.deleteMessage userId messageId st w in
  filter (Supabase.own_message messageId userId)
         (Supabase.messages (Supabase.db w)) = [] /\
  (Supabase.calls (snd saved) = Supabase.calls w \/
   Supabase.calls (snd saved) =
     Supabase.calls w ++
       [Supabase.UpdateMessage messageId userId (ChatWindow.editMessage st)]) /\
  Supabase.calls (snd deleted) =
    Supabase.calls w ++ [Supabase.DeleteMessage messageId userId] /\
  Supabase.db (snd saved) = Supabase.db w /\
  Supabase.db (snd deleted) = Supabase.db w /\
  Supabase.feed (snd saved) = Supabase.feed w /\
  Supabase.feed (snd deleted) = Supabase.feed w /\
  ChatWindow.messages (fst saved) = ChatWindow.messages st /\
  ChatWindow.messages (fst deleted) = ChatWindow.messages st /\
  (forall text, In (Supabase.Success, text) (Supabase.toasts (snd saved)) ->
                In (Supabase.Success, text) (Supabase.toasts w)) /\
  Supabase.toasts (snd deleted) =
    Supabase.toasts w ++
      [ match hd None (Supabase.net w) with
        | Some e => (Supabase.Failure,
                     Js.or_else (Supabase.message e) "Failed to delete message")
        | None => (Supabase.Success, "Message deleted")
        end ].
Proof.
  intros H saved deleted.
  assert (Es : saved =
    if negb (Js.truthy (Js.trim (ChatWindow.editMessage st))) then (st, w)
    else
      let sent := snd (Supabase.request
                         (Supabase.UpdateMessage messageId userId
                            (ChatWindow.editMessage st)) w) in
      match hd None (Supabase.net w) with
      | Some e =>
          (st, snd (Supabase.toast Supabase.Failure
                      (Js.or_else (Supabase.message e) "Failed to edit message")
                      sent))
      | None => (ChatWindow.setEditMessage "" st, sent)
      end).
  { unfold saved, ChatWindow.saveEditMessage.
    destruct (negb (Js.truthy (Js.trim (ChatWindow.editMessage st))));
      [reflexivity|].
    unfold try_catch, bindT, lift.
    rewrite (update_message_foreign _ _ _ _ H).
    destruct (hd None (Supabase.net w)); reflexivity. }
  assert (Ed : deleted =
    let sent := snd (Supabase.request
                       (Supabase.DeleteMessage messageId userId) w) in
    match hd None (Supabase.net w) with
    | Some e =>
        (st, snd (Supabase.toast Supabase.Failure
                    (Js.or_else (Supabase.message e) "Failed to delete message")
                    sent))
    | None => (st, snd (Supabase.toast Supabase.Success "Message deleted" sent))
    end).
  { unfold deleted, ChatWindow.deleteMessage, try_catch, bindT, lift.
    rewrite (delete_message_foreign _ _ _ H).
    destruct (hd None (Supabase.net w)); reflexivity. }
  split; [apply filter_none, foreign_rows, H|].
  rewrite Es, Ed. cbv zeta.
  destruct (negb (Js.truthy (Js.trim (ChatWindow.editMessage st))));
    destruct (hd None (Supabase.net w)); simpl;
    repeat split; auto.
  all: intros text Hin; apply in_app_or in Hin as [Hin|[Hin|[]]];
    [exact Hin | discriminate Hin].
Qed.

Lemma foreign_write_changes_nothing_witness :
  (forall r, In r (Supabase.messages (Supabase.db (Scenario.world 1 []))) ->
             Supabase.msg_id r = "m1" -> Supabase.msg_sender_id r <> "bob") /\
  Supabase.db (snd (ChatWindow.saveEditMessage "bob" "m1"
                      (ChatWindow.setEditMessage "mine now" ChatWindow.initial)
                      (Scenario.world 1 []))) =
    Supabase.db (Scenario.world 1 []).
Proof.
  assert (H : forall r,
             In r (Supabase.messages (Supabase.db (Scenario.world 1 []))) ->
             Supabase.msg_id r = "m1" -> Supabase.msg_sender_id r <> "bob")
    by (intros r [<-|[]] _; discriminate).
  split; [exact H|].
  exact (proj1 (proj2 (proj2 (proj2
           (foreign_write_changes_nothing "bob" "m1"
              (ChatWindow.setEditMessage "mine now" ChatWindow.initial)
              (Scenario.world 1 []) H))))).
Defined.

(** ** Accepting a friend request *)

Lemma update_request_status_eq (id status : string) (w : Supabase.World) :
  let sent := snd (Supabase.request (Supabase.UpdateRequestStatus id status) w) in
  let hit r := (Supabase.fr_id r =? id)%string in
  let d := Supabase.db w in
  Supabase.update_request_status id status w =
  match hd None (Supabase.net w) with
  | Some e => (Supabase.failed e, sent)
  | None =>
      match filter hit (Supabase.friend_requests d) with
      | [r] =>
          (Supabase.done
             (Some {| Supabase.sender_id := Supabase.fr_sender_id r;
                      Supabase.receiver_id := Supabase.fr_receiver_id r |}),
           Supabase.with_db
             (Supabase.set_friend_requests
                (map (fun r => if hit r then Supabase.with_status status r else r)
                     (Supabase.friend_requests d)) d) sent)
      | _ => (Supabase.failed Supabase.not_single, sent)
      end
  end.
Proof.
  cbv zeta. unfold Supabase.update_request_status, bind, Supabase.request.
  destruct (hd None (Supabase.net w)); [reflexivity|].
  unfold Supabase.read_db. simpl.
  destruct (filter _ (Supabase.friend_requests (Supabase.db w))) as [|r [|r' l]];
    reflexivity.
Qed.

(** C3, as stated, fails.  The request is set to accepted, then the
    creation of the conversation fails: the failure is reported, and the
    request stays accepted with no conversation.  When the insertion of the
    participants fails, the request stays accepted with a conversation that
    has no participant. *)
Lemma accept_leaves_partial_state :
  let out := FriendsList.handleAcceptRequest "r1"
               (Scenario.world 0 [None; Some Scenario.offline]) in
  let out' := FriendsList.handleAcceptRequest "r1"
                (Scenario.world 0 [None; None; Some Scenario.offline]) in
  (fst out = None /\
   Supabase.toasts (snd out) = [(Supabase.Failure, "Failed to fetch")] /\
   map Supabase.fr_status (Supabase.friend_requests (Supabase.db (snd out)))
     = ["accepted"] /\
   Supabase.conversations (Supabase.db (snd out)) = [] /\
   Supabase.db (snd out) <> Scenario.database 0) /\
  (fst out' = None /\
   Supabase.toasts (snd out') = [(Supabase.Failure, "Failed to fetch")] /\
   map Supabase.fr_status (Supabase.friend_requests (Supabase.db (snd out')))
     = ["accepted"] /\
   map Supabase.conv_id (Supabase.conversations (Supabase.db (snd out')))
     = ["conv-1"] /\
   Supabase.participants (Supabase.db (snd out')) = []).
Proof.
  cbv zeta. repeat split; try reflexivity.
  vm_compute. discriminate.
Qed.

(** C3, amended.  Accepting a request sends the status update, the
    creation of the conversation and the insertion of the two participants
    one after the other, with no rollback.  When the three requests succeed
    (and one request row carries the id), the request is accepted, exactly
    one conversation is created, both parties are inserted as its
    participants, success is reported and the conversation is selected.
    Otherwise a failure is reported, never success, no conversation is
    selected, the requests after the failing one are not sent, and what the
    requests before it did remains: nothing if the update failed, an
    accepted request without conversation if the creation failed, an accepted
    request and a conversation without participants if the insertion
    failed. *)
Theorem accept_is_sequential (requestId : string) (w : Supabase.World) :
  let out := FriendsList.handleAcceptRequest requestId w in
  let d := Supabase.db w in
  let d' := Supabase.db (snd out) in
  let hit r := (Supabase.fr_id r =? requestId)%string in
  let accepted :=
    map (fun r => if hit r then Supabase.with_status "accepted" r else r)
        (Supabase.friend_requests d) in
  let conversation :=
    {| Supabase.conv_id := Supabase.gen_id "conv-" (Supabase.next_id d);
       Supabase.conv_created_at := Supabase.clock d |} in
  match fst out with
  | Some c =>
      c = Supabase.conv_id conversation /\
      Supabase.ok_at 0 w /\ Supabase.ok_at 1 w /\ Supabase.ok_at 2 w /\
      Supabase.toasts (snd out) =
        Supabase.toasts w ++ [(Supabase.Success, "Friend request accepted")] /\
      Supabase.friend_requests d' = accepted /\
      Supabase.conversations d' = Supabase.conversations d ++ [conversation] /\
      exists r,
        filter hit (Supabase.friend_requests d) = [r] /\
        Supabase.participants d' =
          Supabase.participants d ++
            [ {| Supabase.part_conversation_id := c;
                 Supabase.part_user_id := Supabase.fr_sender_id r |};
              {| Supabase.part_conversation_id := c;
                 Supabase.part_user_id := Supabase.fr_receiver_id r |} ]
  | None =>
      (exists text,
         Supabase.toasts (snd out) =
           Supabase.toasts w ++ [(Supabase.Failure, text)]) /\
      Supabase.participants d' = Supabase.participants d /\
      ((d' = d /\
        Supabase.calls (snd out) =
          Supabase.calls w ++ [Supabase.UpdateRequestStatus requestId "accepted"] /\
        ~ (Supabase.ok_at 0 w /\
           exists r, filter hit (Supabase.friend_requests d) = [r])) \/
       (Supabase.friend_requests d' = accepted /\
        Supabase.conversations d' = Supabase.conversations d /\
        Supabase.calls (snd out) =
          Supabase.calls w ++ [Supabase.UpdateRequestStatus requestId "accepted";
                               Supabase.InsertConversation] /\
        Supabase.ok_at 0 w /\ ~ Supabase.ok_at 1 w) \/
       (Supabase.friend_requests d' = accepted /\
        Supabase.conversations d' = Supabase.conversations d ++ [conversation] /\
        Supabase.ok_at 0 w /\ Supabase.ok_at 1 w /\ ~ Supabase.ok_at 2 w))
  end.
Proof.
  cbv zeta.
  unfold FriendsList.handleAcceptRequest, try_catch, bindT, lift.
  rewrite update_request_status_eq. cbv zeta.
  unfold Supabase.insert_conversation, Supabase.insert_participants,
    Supabase.request, Supabase.read_db, Supabase.write_db, Supabase.toast,
    Supabase.throw_on_error, Supabase.ok_at, bind, ret, throw, pure.
  destruct w as [d fates calls feed toasts scrolls]. simpl.
  destruct (filter (fun r => (Supabase.fr_id r =? requestId)%string)
                   (Supabase.friend_requests d)) as [|r [|r' l]] eqn:F;
    destruct fates as [|[e0|] [|[e1|] [|[e2|] rest]]]; simpl.
  all: try (repeat split; try reflexivity; eexists; split; reflexivity).
  all: split; [eexists; reflexivity|]; split; [now destruct d|].
  all: try (left; split; [now destruct d|]; split; [reflexivity|];
            intros [H0 [x Hx]]; discriminate).
  all: try (right; left; repeat split;
            first [ reflexivity
                  | rewrite <- app_assoc; reflexivity
                  | intros H; discriminate H ]).
  all: right; right; repeat split;
       first [ reflexivity | intros H; discriminate H ].
Qed.

Lemma accept_is_sequential_witness :
  fst (FriendsList.handleAcceptRequest "r1" (Scenario.world 0 [])) =
    Some "conv-1" /\
  Supabase.participants
    (Supabase.db (snd (FriendsList.handleAcceptRequest "r1"
                         (Scenario.world 0 [])))) =
    [ {| Supabase.part_conversation_id := "conv-1";
         Supabase.part_user_id := "alice" |};
      {| Supabase.part_conversation_id := "conv-1";
         Supabase.part_user_id := "bob" |} ].
Proof.
  pose proof (accept_is_sequential "r1" (Scenario.world 0 [])) as H.
  vm_compute in H.
  destruct H as (_ & _ & _ & _ & _ & _ & _ & r & Hr & Hp).
  injection Hr as <-.
  split; vm_compute; [reflexivity | exact Hp].
Defined.

(** * Further properties *)

(** ** Sending a message *)

Lemma dropWhile_nil {A : Type} (p : A -> bool) (l : list A) :
  Js.dropWhile p l = [] -> Forall (fun x => p x = true) l.
Proof.
  induction l as [|x l IH]; simpl; intros H; [constructor|].
  destruct (p x) eqn:E; [|discriminate H].
  constructor; [exact E | now apply IH].
Qed.

Lemma dropWhile_head {A : Type} (p : A -> bool) (l : list A) (x : A)
    (rest : list A) :
  Js.dropWhile p l = x :: rest -> p x = false.
Proof.
  induction l as [|y l IH]; simpl; intros H; [discriminate H|].
  destruct (p y) eqn:E; [now apply IH|].
  now injection H as <- _.
Qed.

Lemma trim_empty (s : string) : Js.trim s = "" -> Js.blank s.
Proof.
  unfold Js.trim, Js.trimEnd, Js.trimStart, Js.blank.
  rewrite list_ascii_of_string_of_list_ascii.
  intros H.
  destruct (rev (Js.dropWhile Js.isWhiteSpace
                   (rev (Js.dropWhile Js.isWhiteSpace (list_ascii_of_string s)))))
    as [|c cs] eqn:R; [|discriminate H].
  apply (f_equal (@rev ascii)) in R. rewrite rev_involutive in R. simpl in R.
  apply dropWhile_nil in R. apply Forall_rev in R. rewrite rev_involutive in R.
  destruct (Js.dropWhile Js.isWhiteSpace (list_ascii_of_string s))
    as [|x rest] eqn:D.
  - now apply dropWhile_nil.
  - apply dropWhile_head in D. inversion R as [|y ys Hy _]; subst.
    rewrite D in Hy. discriminate Hy.
Qed.

Lemma not_blank_truthy (s : string) :
  ~ Js.blank s -> Js.truthy (Js.trim s) = true.
Proof.
  intros H. unfold Js.truthy.
  destruct (String.eqb_spec (Js.trim s) "") as [E|E]; [|reflexivity].
  destruct (H (trim_empty s E)).
Qed.

(** What [sendMessage] does with a body that is not blank. *)
Lemma sendMessage_sent (conversationId userId : string)
    (st : ChatWindow.State) (w : Supabase.World) :
  ~ Js.blank (ChatWindow.newMessage st) ->
  ChatWindow.sendMessage conversationId userId st w =
  match hd None (Supabase.net w) with
  | Some e =>
      (st,
       snd (Supabase.toast Supabase.Failure
              (Js.or_else (Supabase.message e) "Failed to send message")
              (snd (Supabase.request
                      (Supabase.InsertMessage conversationId userId
                         (ChatWindow.newMessage st)) w))))
  | None =>
      (ChatWindow.setNewMessage "" st,
       snd (Supabase.insert_message conversationId userId
              (ChatWindow.newMessage st) w))
  end.
Proof.
  intros H. unfold ChatWindow.sendMessage.
  rewrite (not_blank_truthy _ H). cbn [negb].
  unfold try_catch, bindT, lift, Supabase.insert_message, bind,
    Supabase.request.
  destruct (hd None (Supabase.net w)); reflexivity.
Qed.

(** X1. A body that is not blank and a request that does not fail: the
    store gains exactly one row, with the body as typed, the conversation
    and the sender of the view; its insert is announced on the feed; the
    message box is emptied; the list of the view and the notifications stay
    as they are. *)
Theorem send_stores_the_body_as_typed
    (conversationId userId : string) (st : ChatWindow.State)
    (w : Supabase.World) :
  ~ Js.blank (ChatWindow.newMessage st) ->
  Supabase.ok_at 0 w ->
  let out := ChatWindow.sendMessage conversationId userId st w in
  let row :=
    {| Supabase.msg_id := Supabase.gen_id "msg-" (Supabase.next_id (Supabase.db w));
       Supabase.msg_content := ChatWindow.newMessage st;
       Supabase.msg_created_at := Supabase.clock (Supabase.db w);
       Supabase.msg_sender_id := userId;
       Supabase.msg_conversation_id := conversationId |} in
  Supabase.messages (Supabase.db (snd out)) =
    Supabase.messages (Supabase.db w) ++ [row] /\
  Supabase.feed (snd out) = Supabase.feed w ++ [Supabase.INSERT row] /\
  Supabase.calls (snd out) =
    Supabase.calls w ++
      [Supabase.InsertMessage conversationId userId (ChatWindow.newMessage st)] /\
  Supabase.toasts (snd out) = Supabase.toasts w /\
  ChatWindow.newMessage (fst out) = "" /\
  ChatWindow.messages (fst out) = ChatWindow.messages st /\
  ChatWindow.editMessage (fst out) = ChatWindow.editMessage st.
Proof.
  intros Hb Hok. cbv zeta.
  rewrite (sendMessage_sent _ _ _ _ Hb), (ok_at_next w Hok).
  unfold Supabase.insert_message, bind, Supabase.request.
  rewrite (ok_at_next w Hok). repeat split.
Qed.

Lemma send_stores_the_body_as_typed_witness :
  ~ Js.blank " hi " /\
  ChatWindow.newMessage
    (fst (ChatWindow.sendMessage "c1" "bob" (Casebook.view " hi " "")
            (Casebook.world []))) = "" /\
  map Supabase.msg_content
    (Supabase.messages
       (Supabase.db (snd (ChatWindow.sendMessage "c1" "bob"
                            (Casebook.view " hi " "") (Casebook.world [])))))
    = ["hello"; "hello"; "hello"; " hi "].
Proof.
  assert (Hb : ~ Js.blank (ChatWindow.newMessage (Casebook.view " hi " ""))).
  { intros H. inversion H as [|c cs _ H1]; subst.
    inversion H1 as [|c' cs' H2 _]; subst. discriminate H2. }
  destruct (send_stores_the_body_as_typed "c1" "bob" (Casebook.view " hi " "")
              (Casebook.world []) Hb eq_refl)
    as (Hrows & _ & _ & _ & Hbox & _).
  split; [exact Hb|]. split; [exact Hbox|].
  rewrite Hrows. reflexivity.
Defined.

(** X2. A body that is not blank and a request that fails: the database
    and the feed stay as they are, the whole state of the view stays as it is
    (the body remains in the message box), and the failure is shown with the
    message of the error, or with "Failed to send message" when the error
    has none. *)
Theorem failed_send_keeps_the_body
    (conversationId userId : string) (st : ChatWindow.State)
    (w : Supabase.World) (e : Supabase.PgError) :
  ~ Js.blank (ChatWindow.newMessage st) ->
  hd None (Supabase.net w) = Some e ->
  let out := ChatWindow.sendMessage conversationId userId st w in
  fst out = st /\
  Supabase.db (snd out) = Supabase.db w /\
  Supabase.feed (snd out) = Supabase.feed w /\
  Supabase.toasts (snd out) =
    Supabase.toasts w ++
      [(Supabase.Failure,
        if (Supabase.message e =? "")%string then "Failed to send message"
        else Supabase.message e)].
Proof.
  intros Hb He. cbv zeta.
  rewrite (sendMessage_sent _ _ _ _ Hb), He. simpl.
  repeat split. unfold Js.or_else, Js.truthy.
  now destruct (Supabase.message e =? "")%string.
Qed.

Lemma failed_send_keeps_the_body_witness :
  ~ Js.blank " hi " /\
  fst (ChatWindow.sendMessage "c1" "bob" (Casebook.view " hi " "")
         (Casebook.world [Some Scenario.offline])) =
    Casebook.view " hi " "" /\
  Supabase.toasts
    (snd (ChatWindow.sendMessage "c1" "bob" (Casebook.view " hi " "")
            (Casebook.world [Some Scenario.offline]))) =
    [(Supabase.Failure, "Failed to fetch")].
Proof.
  assert (Hb : ~ Js.blank (ChatWindow.newMessage (Casebook.view " hi " ""))).
  { intros H. inversion H as [|c cs _ H1]; subst.
    inversion H1 as [|c' cs' H2 _]; subst. discriminate H2. }
  destruct (failed_send_keeps_the_body "c1" "bob" (Casebook.view " hi " "")
              (Casebook.world [Some Scenario.offline]) Scenario.offline
              Hb eq_refl)
    as (Hst & _ & _ & Htoast).
  split; [exact Hb|]. split; [exact Hst | exact Htoast].
Defined.

(** ** Live inserts and the lookup of the sender *)

Lemma select_user_email_eq (id : string) (w : Supabase.World) :
  Supabase.select_user_email id w =
  (match hd None (Supabase.net w) with
   | Some e => Supabase.failed e
   | None =>
       Supabase.single
         (map (fun u => {| Supabase.email := Supabase.user_email u |})
              (filter (fun u => (Supabase.user_id u =? id)%string)
                      (Supabase.users (Supabase.db w))))
   end,
   snd (Supabase.request (Supabase.SelectUserEmail id) w)).
Proof.
  unfold Supabase.select_user_email, bind, Supabase.request.
  destruct (hd None (Supabase.net w)); reflexivity.
Qed.

(** A live insert whose lookup finds the sender. *)
Lemma on_INSERT_found (newMsg : Supabase.MessageRow) (st : ChatWindow.State)
    (w : Supabase.World) (u : Supabase.UserRow) :
  hd None (Supabase.net w) = None ->
  filter (fun v => (Supabase.user_id v =? Supabase.msg_sender_id newMsg)%string)
         (Supabase.users (Supabase.db w)) = [u] ->
  ChatWindow.on_INSERT newMsg st w =
  (ChatWindow.setMessages
     (fun prev =>
        prev ++
          [ {| ChatWindow.id := Supabase.msg_id newMsg;
               ChatWindow.content := Supabase.msg_content newMsg;
               ChatWindow.created_at := Supabase.msg_created_at newMsg;
               ChatWindow.sender_id := Supabase.msg_sender_id newMsg;
               ChatWindow.conversation_id := Supabase.msg_conversation_id newMsg;
               ChatWindow.sender :=
                 Some {| Supabase.email := Supabase.user_email u |};
               ChatWindow.isEditing := None |} ]) st,
   snd (Supabase.schedule_scroll
          (snd (Supabase.request
                  (Supabase.SelectUserEmail (Supabase.msg_sender_id newMsg)) w)))).
Proof.
  intros N Hu. unfold ChatWindow.on_INSERT, bind.
  rewrite select_user_email_eq, N, Hu. reflexivity.
Qed.

(** X3. A live insert asks the store once for the sender and changes
    neither the database nor the notifications.  When the request does not
    fail and exactly one user carries the sender's id, the message is put at
    the end of the list with that user's email and one jump to the latest
    message is scheduled.  In every other case (the request fails, no user or
    several users carry the id) the state of the view stays as it is and no
    jump is scheduled: the event is dropped without a notice. *)
Theorem live_insert_is_shown_or_dropped_silently
    (newMsg : Supabase.MessageRow) (st : ChatWindow.State)
    (w : Supabase.World) :
  let out := ChatWindow.on_INSERT newMsg st w in
  Supabase.calls (snd out) =
    Supabase.calls w ++ [Supabase.SelectUserEmail (Supabase.msg_sender_id newMsg)] /\
  Supabase.db (snd out) = Supabase.db w /\
  Supabase.toasts (snd out) = Supabase.toasts w /\
  match hd None (Supabase.net w),
        filter (fun u => (Supabase.user_id u =? Supabase.msg_sender_id newMsg)%string)
               (Supabase.users (Supabase.db w)) with
  | None, [u] =>
      ChatWindow.messages (fst out) =
        ChatWindow.messages st ++
          [ {| ChatWindow.id := Supabase.msg_id newMsg;
               ChatWindow.content := Supabase.msg_content newMsg;
               ChatWindow.created_at := Supabase.msg_created_at newMsg;
               ChatWindow.sender_id := Supabase.msg_sender_id newMsg;
               ChatWindow.conversation_id := Supabase.msg_conversation_id newMsg;
               ChatWindow.sender :=
                 Some {| Supabase.email := Supabase.user_email u |};
               ChatWindow.isEditing := None |} ] /\
      Supabase.scrolls (snd out) = S (Supabase.scrolls w)
  | _, _ =>
      fst out = st /\ Supabase.scrolls (snd out) = Supabase.scrolls w
  end.
Proof.
  cbv zeta. unfold ChatWindow.on_INSERT, bind.
  rewrite select_user_email_eq.
  destruct (hd None (Supabase.net w)) as [e|].
  - repeat split.
  - destruct (filter _ (Supabase.users (Supabase.db w))) as [|u [|u' us]];
      repeat split.
Qed.

Lemma news_after_one (w w' : Supabase.World) (ev : Supabase.Change) :
  Supabase.feed w' = Supabase.feed w ++ [ev] ->
  Conversation.news w w' = [ev].
Proof.
  intros H. unfold Conversation.news. rewrite H, skipn_app, skipn_all.
  now rewrite Nat.sub_diag.
Qed.

(** X4. From typing to seeing: when a body that is not blank is sent, the
    insert and the lookup of the sender do not fail and exactly one user
    carries the id of the viewer, then delivering what the feed has gained
    puts exactly one message at the end of the list, with the body as typed,
    the viewer as sender and the viewer's email; the message box is empty
    and one jump to the latest message is scheduled. *)
Theorem sent_message_comes_back
    (conversationId userId : string) (st : ChatWindow.State)
    (w : Supabase.World) (u : Supabase.UserRow) :
  ~ Js.blank (ChatWindow.newMessage st) ->
  Supabase.ok_at 0 w -> Supabase.ok_at 1 w ->
  filter (fun v => (Supabase.user_id v =? userId)%string)
         (Supabase.users (Supabase.db w)) = [u] ->
  let sent := ChatWindow.sendMessage conversationId userId st w in
  let got := ChatWindow.deliver_all conversationId
               (Conversation.news w (snd sent)) (fst sent) (snd sent) in
  ChatWindow.messages (fst got) =
    ChatWindow.messages st ++
      [ {| ChatWindow.id :=
             Supabase.gen_id "msg-" (Supabase.next_id (Supabase.db w));
           ChatWindow.content := ChatWindow.newMessage st;
           ChatWindow.created_at := Supabase.clock (Supabase.db w);
           ChatWindow.sender_id := userId;
           ChatWindow.conversation_id := conversationId;
           ChatWindow.sender :=
             Some {| Supabase.email := Supabase.user_email u |};
           ChatWindow.isEditing := None |} ] /\
  ChatWindow.newMessage (fst got) = "" /\
  Supabase.scrolls (snd got) = S (Supabase.scrolls w).
Proof.
  intros Hb Hok0 Hok1 Hu. cbv zeta.
  rewrite (sendMessage_sent _ _ _ _ Hb), (ok_at_next w Hok0).
  set (row := {| Supabase.msg_id :=
                   Supabase.gen_id "msg-" (Supabase.next_id (Supabase.db w));
                 Supabase.msg_content := ChatWindow.newMessage st;
                 Supabase.msg_created_at := Supabase.clock (Supabase.db w);
                 Supabase.msg_sender_id := userId;
                 Supabase.msg_conversation_id := conversationId |}).
  set (w1 := snd (Supabase.insert_message conversationId userId
                    (ChatWindow.newMessage st) w)).
  assert (F : Supabase.feed w1 = Supabase.feed w ++ [Supabase.INSERT row]).
  { unfold w1, Supabase.insert_message, bind, Supabase.request.
    now rewrite (ok_at_next w Hok0). }
  assert (N : hd None (Supabase.net w1) = None).
  { unfold w1, Supabase.insert_message, bind, Supabase.request.
    rewrite (ok_at_next w Hok0). simpl.
    unfold Supabase.ok_at in Hok1.
    destruct (Supabase.net w) as [|f [|g rest]]; simpl in *; auto. }
  assert (U : Supabase.users (Supabase.db w1) = Supabase.users (Supabase.db w)).
  { unfold w1, Supabase.insert_message, bind, Supabase.request.
    now rewrite (ok_at_next w Hok0). }
  assert (S1 : Supabase.scrolls w1 = Supabase.scrolls w).
  { unfold w1, Supabase.insert_message, bind, Supabase.request.
    now rewrite (ok_at_next w Hok0). }
  simpl fst. simpl snd. rewrite (news_after_one w w1 _ F).
  unfold ChatWindow.deliver_all, ChatWindow.deliver, ChatWindow.subscribed, bind.
  simpl Supabase.msg_conversation_id. rewrite String.eqb_refl.
  rewrite (on_INSERT_found row (ChatWindow.setNewMessage "" st) w1 u N);
    [|now rewrite U].
  simpl. now rewrite S1.
Qed.

Lemma sent_message_comes_back_witness :
  ~ Js.blank " hi " /\
  map ChatWindow.content
    (ChatWindow.messages
       (fst (ChatWindow.deliver_all "c1"
               (Conversation.news (Casebook.world [])
                  (snd (ChatWindow.sendMessage "c1" "bob"
                          (Casebook.view " hi " "") (Casebook.world []))))
               (fst (ChatWindow.sendMessage "c1" "bob"
                       (Casebook.view " hi " "") (Casebook.world [])))
               (snd (ChatWindow.sendMessage "c1" "bob"
                       (Casebook.view " hi " "") (Casebook.world []))))))
    = ["hello"; "hello"; "hello"; " hi "].
Proof.
  assert (Hb : ~ Js.blank (ChatWindow.newMessage (Casebook.view " hi " ""))).
  { intros H. inversion H as [|c cs _ H1]; subst.
    inversion H1 as [|c' cs' H2 _]; subst. discriminate H2. }
  split; [exact Hb|].
  destruct (sent_message_comes_back "c1" "bob" (Casebook.view " hi " "")
              (Casebook.world [])
              {| Supabase.user_id := "bob";
                 Supabase.user_email := "bob@example.org" |}
              Hb eq_refl eq_refl eq_refl)
    as (Hm & _).
  rewrite Hm. reflexivity.
Defined.

(** ** Edits and deletes by the author *)

Lemma news_after (w w' : Supabase.World) (evs : list Supabase.Change) :
  Supabase.feed w' = Supabase.feed w ++ evs ->
  Conversation.news w w' = evs.
Proof.
  intros H. unfold Conversation.news. rewrite H, skipn_app, skipn_all.
  now rewrite Nat.sub_diag.
Qed.

(** Records that all ask for the same idempotent change of the state are
    worth one of them, if one of them is delivered at all. *)
Lemma fold_same {R S : Type} (sub : R -> bool) (h : R -> S -> S) (g : S -> S)
    (rows : list R) :
  (forall r, In r rows -> forall s, h r s = g s) ->
  (forall s, g (g s) = g s) ->
  forall s,
    fold_left (fun s r => if sub r then h r s else s) rows s =
    if existsb sub rows then g s else s.
Proof.
  intros Hh Hg. induction rows as [|r rows IH]; intros s; simpl; [reflexivity|].
  rewrite IH by (intros r' Hr'; apply Hh; now right).
  destruct (sub r); simpl; [|reflexivity].
  rewrite (Hh r (or_introl eq_refl)).
  destruct (existsb sub rows); [apply Hg | reflexivity].
Qed.


Lemma deliver_all_DELETE (conversationId : string)
    (rows : list Supabase.MessageRow) (st : ChatWindow.State)
    (w : Supabase.World) :
  ChatWindow.deliver_all conversationId (map Supabase.DELETE rows) st w =
  (fold_left (fun s r => if ChatWindow.subscribed conversationId r
                         then ChatWindow.on_DELETE r s else s) rows st, w).
Proof.
  revert st. induction rows as [|r rows IH]; intros st; [reflexivity|].
  simpl. unfold bind, ret. apply IH.
Qed.


Lemma on_DELETE_twice (u : Supabase.MessageRow) (st : ChatWindow.State) :
  ChatWindow.on_DELETE u (ChatWindow.on_DELETE u st) = ChatWindow.on_DELETE u st.
Proof.
  destruct st as [ms nm em ld pg hm].
  unfold ChatWindow.on_DELETE, ChatWindow.setMessages. simpl. f_equal.
  induction ms as [|m ms IH]; simpl; [reflexivity|].
  destruct (negb (ChatWindow.id m =? Supabase.msg_id u)%string) eqn:E; simpl;
    [now rewrite E, IH | exact IH].
Qed.

Lemma own_row_found (conversationId userId messageId : string)
    (rows : list Supabase.MessageRow) :
  (exists r, In r rows /\ Supabase.msg_id r = messageId /\
             Supabase.msg_sender_id r = userId /\
             Supabase.msg_conversation_id r = conversationId) ->
  existsb (ChatWindow.subscribed conversationId)
          (filter (Supabase.own_message messageId userId) rows) = true.
Proof.
  intros (r & Hr & Hi & Hs & Hc). apply existsb_exists. exists r. split.
  - apply filter_In. split; [exact Hr|].
    unfold Supabase.own_message. now rewrite Hi, Hs, !String.eqb_refl.
  - unfold ChatWindow.subscribed. now rewrite Hc, String.eqb_refl.
Qed.





Lemma deleteMessage_eq (userId messageId : string)
    (st : ChatWindow.State) (w : Supabase.World) :
  ChatWindow.deleteMessage userId messageId st w =
  match hd None (Supabase.net w) with
  | Some e =>
      (st,
       snd (Supabase.toast Supabase.Failure
              (Js.or_else (Supabase.message e) "Failed to delete message")
              (snd (Supabase.request
                      (Supabase.DeleteMessage messageId userId) w))))
  | None =>
      (st,
       snd (Supabase.toast Supabase.Success "Message deleted"
              (snd (Supabase.delete_message messageId userId w))))
  end.
Proof.
  unfold ChatWindow.deleteMessage, try_catch, bindT, lift,
    Supabase.delete_message, bind, Supabase.request.
  destruct (hd None (Supabase.net w)); reflexivity.
Qed.

Lemma on_DELETE_absent (row : Supabase.MessageRow) (st : ChatWindow.State) :
  ~ In (Supabase.msg_id row)
       (Engine.ids (ChatWindow.messages (ChatWindow.on_DELETE row st))).
Proof.
  simpl. intros H. apply in_map_iff in H as [m [Hm Hin]].
  apply filter_In in Hin as [_ Hne].
  rewrite Hm, String.eqb_refl in Hne. discriminate Hne.
Qed.

(** X6. From deleting to seeing: when the request does not fail and the
    store holds a message of this conversation with the given id written by
    the viewer, then the rows with that id and author, and no other row,
    leave the store, "Message deleted" is shown, and delivering what the feed
    has gained removes every entry with that id from the list and keeps the
    other entries in their order. *)
Theorem deleted_message_disappears
    (conversationId userId messageId : string) (st : ChatWindow.State)
    (w : Supabase.World) :
  Supabase.ok_at 0 w ->
  (exists r, In r (Supabase.messages (Supabase.db w)) /\
             Supabase.msg_id r = messageId /\
             Supabase.msg_sender_id r = userId /\
             Supabase.msg_conversation_id r = conversationId) ->
  let deleted := ChatWindow.deleteMessage userId messageId st w in
  let got := ChatWindow.deliver_all conversationId
               (Conversation.news w (snd deleted)) (fst deleted) (snd deleted) in
  Supabase.messages (Supabase.db (snd got)) =
    filter (fun r => negb (Supabase.own_message messageId userId r))
           (Supabase.messages (Supabase.db w)) /\
  ChatWindow.messages (fst got) =
    filter (fun m => negb (ChatWindow.id m =? messageId)%string)
           (ChatWindow.messages st) /\
  ~ In messageId (Engine.ids (ChatWindow.messages (fst got))) /\
  Supabase.toasts (snd got) =
    Supabase.toasts w ++ [(Supabase.Success, "Message deleted")].
Proof.
  intros Hok Hown. cbv zeta.
  rewrite deleteMessage_eq, (ok_at_next w Hok).
  set (w1 := snd (Supabase.toast Supabase.Success "Message deleted"
                    (snd (Supabase.delete_message messageId userId w)))).
  set (affected := filter (Supabase.own_message messageId userId)
                          (Supabase.messages (Supabase.db w))).
  set (gone := {| Supabase.msg_id := messageId;
                  Supabase.msg_content := "";
                  Supabase.msg_created_at := 0;
                  Supabase.msg_sender_id := userId;
                  Supabase.msg_conversation_id := conversationId |}).
  assert (F : Supabase.feed w1 =
              Supabase.feed w ++ map Supabase.DELETE affected).
  { unfold w1, Supabase.delete_message, bind, Supabase.request.
    rewrite (ok_at_next w Hok). reflexivity. }
  simpl fst. simpl snd. rewrite (news_after w w1 _ F), deliver_all_DELETE.
  rewrite (fold_same (ChatWindow.subscribed conversationId) ChatWindow.on_DELETE
             (ChatWindow.on_DELETE gone)).
  - unfold affected. rewrite (own_row_found _ _ _ _ Hown). simpl.
    split; [|split; [reflexivity|split]].
    + unfold w1, Supabase.delete_message, bind, Supabase.request.
      rewrite (ok_at_next w Hok). reflexivity.
    + apply (on_DELETE_absent gone st).
    + unfold w1, Supabase.delete_message, bind, Supabase.request.
      rewrite (ok_at_next w Hok). reflexivity.
  - intros r Hr s. apply filter_In in Hr as [_ Hr].
    apply andb_prop in Hr as [Hi _]. apply String.eqb_eq in Hi.
    unfold ChatWindow.on_DELETE. simpl. now rewrite Hi.
  - intros s. apply on_DELETE_twice.
Qed.

Lemma deleted_message_disappears_witness :
  Engine.ids
    (ChatWindow.messages
       (fst (ChatWindow.deliver_all "c1"
               (Conversation.news (Casebook.world [])
                  (snd (ChatWindow.deleteMessage "alice" "m2"
                          (Casebook.view "" "") (Casebook.world []))))
               (fst (ChatWindow.deleteMessage "alice" "m2"
                       (Casebook.view "" "") (Casebook.world [])))
               (snd (ChatWindow.deleteMessage "alice" "m2"
                       (Casebook.view "" "") (Casebook.world []))))))
    = ["m1"; "m3"].
Proof.
  destruct (deleted_message_disappears "c1" "alice" "m2" (Casebook.view "" "")
              (Casebook.world []) eq_refl)
    as (_ & Hm & _).
  - exists (Scenario.row 2). repeat split. simpl. auto.
  - rewrite Hm. reflexivity.
Defined.

(** X7. A draft that is empty or holds only white space is not saved:
    [saveEditMessage] returns at once, no request is issued, and state and
    world stay as they are (the message stays in editing state). *)
Theorem blank_edit_is_not_saved
    (userId messageId : string) (st : ChatWindow.State) (w : Supabase.World) :
  Js.blank (ChatWindow.editMessage st) ->
  ChatWindow.saveEditMessage userId messageId st w = (st, w).
Proof.
  intros H. unfold ChatWindow.saveEditMessage.
  rewrite (trim_blank _ H). reflexivity.
Qed.

Lemma blank_edit_is_not_saved_witness :
  Js.blank " " /\
  ChatWindow.saveEditMessage "alice" "m2" (Casebook.view "" " ")
    (Casebook.world []) = (Casebook.view "" " ", Casebook.world []).
Proof.
  assert (H : Js.blank (ChatWindow.editMessage (Casebook.view "" " ")))
    by (repeat constructor).
  split; [exact H|].
  exact (blank_edit_is_not_saved "alice" "m2" (Casebook.view "" " ")
           (Casebook.world []) H).
Defined.

(** ** Scrolling back *)

(** A page load whose request fails. *)
Lemma loadMessages_failed (conversationId : string) (p : nat) (append : bool)
    (st : ChatWindow.State) (w : Supabase.World) (e : Supabase.PgError) :
  hd None (Supabase.net w) = Some e ->
  ChatWindow.loadMessages conversationId p append st w =
  (ChatWindow.setLoading false st,
   snd (Supabase.toast Supabase.Failure
          (Js.or_else (Supabase.message e) "Failed to load messages")
          (snd (Supabase.request
                  (Supabase.SelectMessages conversationId (p * 20) (p * 20 + 19))
                  w)))).
Proof.
  intros He.
  unfold ChatWindow.loadMessages, Supabase.select_messages, bind,
    Supabase.request.
  replace (p * ChatWindow.MESSAGES_PER_PAGE + ChatWindow.MESSAGES_PER_PAGE - 1)
    with (p * 20 + 19) by (unfold ChatWindow.MESSAGES_PER_PAGE; lia).
  replace (p * ChatWindow.MESSAGES_PER_PAGE) with (p * 20) by reflexivity.
  rewrite He. reflexivity.
Qed.

Lemma handleScroll_fires (conversationId : string) (st : ChatWindow.State)
    (w : Supabase.World) :
  ChatWindow.hasMore st = true -> ChatWindow.loading st = false ->
  ChatWindow.handleScroll conversationId (Some 0) st w =
  ChatWindow.loadMessages conversationId (ChatWindow.page st + 1) true
    (ChatWindow.setPage (ChatWindow.page st + 1)
       (ChatWindow.setLoading true st)) w.
Proof.
  intros Hm Hl. unfold ChatWindow.handleScroll. now rewrite Hm, Hl.
Qed.

(** X8. A page load whose request fails shows the message of the error,
    or "Failed to load messages" when the error has none, clears the
    loading flag and leaves everything else as it was: the list, [hasMore],
    the page cursor, both text boxes, the database; no jump to the latest
    message is scheduled. *)
Theorem failed_load_changes_nothing
    (conversationId : string) (p : nat) (append : bool)
    (st : ChatWindow.State) (w : Supabase.World) (e : Supabase.PgError) :
  hd None (Supabase.net w) = Some e ->
  let out := ChatWindow.loadMessages conversationId p append st w in
  fst out = ChatWindow.setLoading false st /\
  ChatWindow.messages (fst out) = ChatWindow.messages st /\
  ChatWindow.hasMore (fst out) = ChatWindow.hasMore st /\
  ChatWindow.page (fst out) = ChatWindow.page st /\
  ChatWindow.loading (fst out) = false /\
  Supabase.db (snd out) = Supabase.db w /\
  Supabase.scrolls (snd out) = Supabase.scrolls w /\
  Supabase.toasts (snd out) =
    Supabase.toasts w ++
      [(Supabase.Failure,
        if (Supabase.message e =? "")%string then "Failed to load messages"
        else Supabase.message e)].
Proof.
  intros He. cbv zeta. rewrite (loadMessages_failed _ _ _ _ _ e He). simpl.
  repeat split. unfold Js.or_else, Js.truthy.
  now destruct (Supabase.message e =? "")%string.
Qed.

Lemma failed_load_changes_nothing_witness :
  ChatWindow.messages
    (fst (ChatWindow.loadMessages "c1" 1 true (Casebook.view "" "")
            (Casebook.world [Some {| Supabase.message := "" |}]))) =
    ChatWindow.messages (Casebook.view "" "") /\
  Supabase.toasts
    (snd (ChatWindow.loadMessages "c1" 1 true (Casebook.view "" "")
            (Casebook.world [Some {| Supabase.message := "" |}]))) =
    [(Supabase.Failure, "Failed to load messages")].
Proof.
  destruct (failed_load_changes_nothing "c1" 1 true (Casebook.view "" "")
              (Casebook.world [Some {| Supabase.message := "" |}])
              {| Supabase.message := "" |} eq_refl)
    as (_ & Hm & _ & _ & _ & _ & _ & Ht).
  split; [exact Hm | exact Ht].
Defined.

(** X9. [handleScroll] starts nothing unless the container is mounted
    and scrolled to its very top, [hasMore] is set and no load is in flight:
    in every other case no request is issued and state and world stay as
    they are. *)
Theorem scroll_starts_no_load_unless_due
    (conversationId : string) (scrollTop : option nat)
    (st : ChatWindow.State) (w : Supabase.World) :
  scrollTop <> Some 0 \/ ChatWindow.hasMore st = false \/
  ChatWindow.loading st = true ->
  ChatWindow.handleScroll conversationId scrollTop st w = (st, w).
Proof.
  unfold ChatWindow.handleScroll.
  destruct scrollTop as [[|n]|]; try reflexivity.
  intros [H|[H|H]]; [now destruct H | |]; rewrite H; try reflexivity.
  now destruct (ChatWindow.hasMore st).
Qed.

Lemma scroll_starts_no_load_unless_due_witness :
  ChatWindow.handleScroll "c1" (Some 0) ChatWindow.initial (Casebook.world []) =
  (ChatWindow.initial, Casebook.world []).
Proof.
  apply (scroll_starts_no_load_unless_due "c1" (Some 0) ChatWindow.initial
           (Casebook.world [])).
  right. right. reflexivity.
Defined.



(** ** Scrolling back through a quiet conversation *)

Lemma firstn_plus {A : Type} (a b : nat) (l : list A) :
  firstn (a + b) l = firstn a l ++ firstn b (skipn a l).
Proof.
  revert l. induction a as [|a IH]; intros l; [reflexivity|].
  destruct l as [|x l]; simpl.
  - now destruct b.
  - now rewrite IH.
Qed.

Lemma shown_app (d : Supabase.Db) (l1 l2 : list Supabase.MessageRow) :
  Conversation.shown d (l1 ++ l2) =
  Conversation.shown d l2 ++ Conversation.shown d l1.
Proof.
  unfold Conversation.shown. now rewrite map_app, rev_app_distr, map_app.
Qed.


Lemma handleScroll_idle (conversationId : string) (st : ChatWindow.State)
    (w : Supabase.World) :
  ChatWindow.hasMore st = false ->
  ChatWindow.handleScroll conversationId (Some 0) st w = (st, w).
Proof.
  intros H. unfold ChatWindow.handleScroll. now rewrite H.
Qed.

(** Projections of states and worlds built by setters, without touching
    the lists inside. *)
Ltac project :=
  cbn [fst snd
       ChatWindow.messages ChatWindow.newMessage ChatWindow.editMessage
       ChatWindow.loading ChatWindow.page ChatWindow.hasMore
       ChatWindow.setMessages ChatWindow.setNewMessage
       ChatWindow.setEditMessage ChatWindow.setLoading ChatWindow.setPage
       ChatWindow.setHasMore ChatWindow.initial
       Supabase.db Supabase.net Supabase.calls Supabase.feed Supabase.toasts
       Supabase.scrolls Supabase.request Supabase.schedule_scroll
       Supabase.toast tl].

Lemma scrolled_S (conversationId : string) (n : nat) (st : ChatWindow.State)
    (w : Supabase.World) :
  Conversation.scrolled conversationId (S n) st w =
  Conversation.scrolled conversationId n
    (fst (ChatWindow.handleScroll conversationId (Some 0) st w))
    (snd (ChatWindow.handleScroll conversationId (Some 0) st w)).
Proof.
  cbn [Conversation.scrolled]. unfold bind.
  now destruct (ChatWindow.handleScroll conversationId (Some 0) st w).
Qed.

(** One more scroll to the top of a quiet conversation of which the
    [(k + 1) * 20] most recent messages are shown. *)
Lemma scrolled_quiet (conversationId : string) (d : Supabase.Db) (n : nat) :
  forall (k : nat) (st : ChatWindow.State) (w : Supabase.World),
    let rows := Supabase.timeline d conversationId in
    Supabase.db w = d -> Supabase.net w = [] ->
    ChatWindow.messages st = Conversation.shown d (firstn ((k + 1) * 20) rows) ->
    ChatWindow.hasMore st = ((k + 1) * 20 <? length rows) ->
    ChatWindow.loading st = false ->
    (ChatWindow.hasMore st = true -> ChatWindow.page st = k) ->
    let out := Conversation.scrolled conversationId n st w in
    Supabase.db (snd out) = d /\
    Supabase.net (snd out) = [] /\
    ChatWindow.messages (fst out) =
      Conversation.shown d (firstn ((k + n + 1) * 20) rows) /\
    ChatWindow.hasMore (fst out) = ((k + n + 1) * 20 <? length rows) /\
    ChatWindow.loading (fst out) = false.
Proof.
  cbv zeta. induction n as [|n IH]; intros k st w Hd Hn Hm Hh Hl Hp.
  - simpl. rewrite Nat.add_0_r. auto.
  - rewrite scrolled_S.
    replace (k + S n + 1) with (k + 1 + n + 1) by lia.
    destruct (ChatWindow.hasMore st) eqn:More.
    + (* the scroll starts the load of page [k + 1] *)
      rewrite (handleScroll_fires _ _ _ More Hl), (Hp eq_refl).
      assert (Hok : Supabase.ok_at 0 w)
        by (unfold Supabase.ok_at; now rewrite Hn).
      rewrite (loadMessages_ok _ _ _ _ _ Hok). cbv zeta. rewrite Hd.
      symmetry in Hh. apply Nat.ltb_lt in Hh.
      apply IH.
      * destruct w; exact Hd.
      * project. now rewrite Hn.
      * project. rewrite Hm.
        replace ((k + 1 + 1) * 20) with ((k + 1) * 20 + 20) by lia.
        rewrite firstn_plus, shown_app. reflexivity.
      * project. rewrite shown_length, length_firstn, length_skipn.
        destruct (Nat.ltb_spec ((k + 1) * 20 +
                                Nat.min 20 (length (Supabase.timeline d conversationId)
                                            - (k + 1) * 20))
                               (length (Supabase.timeline d conversationId)));
          destruct (Nat.ltb_spec ((k + 1 + 1) * 20)
                                 (length (Supabase.timeline d conversationId)));
          try reflexivity; lia.
      * reflexivity.
      * intros _. reflexivity.
    + (* nothing is left to load *)
      rewrite (handleScroll_idle _ _ _ More).
      symmetry in Hh. apply Nat.ltb_ge in Hh.
      apply IH; project; auto.
      * rewrite Hm. rewrite !firstn_all2 by lia. reflexivity.
      * rewrite More. symmetry. apply Nat.ltb_ge. lia.
      * rewrite More. discriminate.
Qed.

(** Opening a quiet conversation and scrolling to the top [n] times. *)
Lemma opened_quiet (conversationId : string) (n : nat) (w : Supabase.World) :
  Supabase.net w = [] ->
  let rows := Supabase.timeline (Supabase.db w) conversationId in
  let out := Conversation.opened conversationId n w in
  Supabase.db (snd out) = Supabase.db w /\
  Supabase.net (snd out) = [] /\
  ChatWindow.messages (fst out) =
    Conversation.shown (Supabase.db w) (firstn ((n + 1) * 20) rows) /\
  ChatWindow.hasMore (fst out) = ((n + 1) * 20 <? length rows) /\
  ChatWindow.loading (fst out) = false.
Proof.
  intros Hn. cbv zeta. unfold Conversation.opened, ChatWindow.useEffect, bind.
  assert (Hok : Supabase.ok_at 0 w) by (unfold Supabase.ok_at; now rewrite Hn).
  rewrite (loadMessages_ok _ _ _ _ _ Hok). cbv zeta.
  change (0 * 20) with 0. rewrite skipn_O.
  apply (scrolled_quiet conversationId (Supabase.db w) n 0).
  - reflexivity.
  - project. now rewrite Hn.
  - reflexivity.
  - project. rewrite shown_length, length_firstn.
    destruct (Nat.ltb_spec
                (0 + Nat.min 20 (length (Supabase.timeline (Supabase.db w)
                                           conversationId)))
                (length (Supabase.timeline (Supabase.db w) conversationId)));
      destruct (Nat.ltb_spec ((0 + 1) * 20)
                  (length (Supabase.timeline (Supabase.db w) conversationId)));
      try reflexivity; lia.
  - reflexivity.
  - intros _. reflexivity.
Qed.



From Stdlib Require Import Permutation.

Lemma insert_desc_perm (x : Supabase.MessageRow) (l : list Supabase.MessageRow) :
  Permutation (Supabase.insert_desc x l) (x :: l).
Proof.
  induction l as [|y l IH]; simpl; [apply Permutation_refl|].
  destruct (Supabase.msg_created_at y <=? Supabase.msg_created_at x)%Z.
  - apply Permutation_refl.
  - eapply perm_trans; [apply perm_skip, IH | apply perm_swap].
Qed.

Lemma order_desc_perm (l : list Supabase.MessageRow) :
  Permutation (Supabase.order_desc l) l.
Proof.
  induction l as [|x l IH]; simpl; [apply perm_nil|].
  eapply perm_trans; [apply insert_desc_perm | now apply perm_skip].
Qed.

Lemma kept_rows_ids_NoDup (keep : Supabase.MessageRow -> bool)
    (rows : list Supabase.MessageRow) :
  NoDup (map Supabase.msg_id rows) ->
  NoDup (map Supabase.msg_id (filter keep rows)).
Proof.
  intros Hrows. induction rows as [|row rows IH]; [constructor|].
  apply NoDup_cons_iff in Hrows as [Hrow Hrest]. simpl.
  destruct (keep row); [|now apply IH].
  simpl. apply NoDup_cons; [|now apply IH].
  intros Hin. apply Hrow.
  apply in_map_iff in Hin as [other [Eid Hother]].
  apply filter_In in Hother as [Hother _].
  apply in_map_iff. now exists other.
Qed.

Lemma first_rows_NoDup {A : Type} (keys : list A) (n : nat) :
  NoDup keys -> NoDup (firstn n keys).
Proof.
  intros Hkeys. rewrite <- (firstn_skipn n keys) in Hkeys.
  exact (NoDup_app_remove_r _ _ Hkeys).
Qed.

Lemma timeline_ids_NoDup (d : Supabase.Db) (conversationId : string) :
  NoDup (map Supabase.msg_id (Supabase.messages d)) ->
  NoDup (map Supabase.msg_id (Supabase.timeline d conversationId)).
Proof.
  intros H. unfold Supabase.timeline.
  eapply Permutation_NoDup.
  - apply Permutation_sym, Permutation_map, order_desc_perm.
  - now apply kept_rows_ids_NoDup.
Qed.

Lemma shown_ids (d : Supabase.Db) (l : list Supabase.MessageRow) :
  Engine.ids (Conversation.shown d l) = rev (map Supabase.msg_id l).
Proof.
  unfold Engine.ids, Conversation.shown.
  rewrite <- map_rev, !map_map, <- map_rev. reflexivity.
Qed.

(** X12. If no two messages of the store share an id, a quiet
    conversation never shows an id twice, however far it is scrolled back;
    and once [(n + 1) * 20] reaches the number of its messages, every message
    of the conversation is in the list exactly once and [hasMore] is
    cleared. *)
Theorem quiet_backfill_shows_each_message_once
    (conversationId : string) (n : nat) (w : Supabase.World) :
  Supabase.net w = [] ->
  NoDup (map Supabase.msg_id (Supabase.messages (Supabase.db w))) ->
  let rows := Supabase.timeline (Supabase.db w) conversationId in
  let out := Conversation.opened conversationId n w in
  NoDup (Engine.ids (ChatWindow.messages (fst out))) /\
  (length rows <= (n + 1) * 20 ->
   ChatWindow.hasMore (fst out) = false /\
   forall r, In r (Supabase.messages (Supabase.db w)) ->
             Supabase.msg_conversation_id r = conversationId ->
             count_occ string_dec
               (Engine.ids (ChatWindow.messages (fst out)))
               (Supabase.msg_id r) = 1).
Proof.
  intros Hn Hnd. cbv zeta.
  destruct (opened_quiet conversationId n w Hn) as (_ & _ & Hm & Hh & _).
  rewrite Hm, Hh, shown_ids.
  assert (Hids : NoDup (rev (map Supabase.msg_id
                   (firstn ((n + 1) * 20)
                      (Supabase.timeline (Supabase.db w) conversationId))))).
  { apply NoDup_rev. rewrite <- firstn_map. apply first_rows_NoDup.
    now apply timeline_ids_NoDup. }
  split; [exact Hids|].
  intros Hall. split; [apply Nat.ltb_ge; lia|].
  intros r Hr Hc.
  apply (proj1 (NoDup_count_occ' string_dec _) Hids).
  rewrite <- in_rev, firstn_all2 by exact Hall.
  apply in_map. unfold Supabase.timeline.
  apply order_desc_In, filter_In. split; [exact Hr|].
  unfold Supabase.in_conversation. now rewrite Hc, String.eqb_refl.
Qed.

Lemma quiet_backfill_shows_each_message_once_witness :
  NoDup (Engine.ids
           (ChatWindow.messages
              (fst (Conversation.opened "c1" 1 (Scenario.world 25 []))))) /\
  ChatWindow.hasMore (fst (Conversation.opened "c1" 1 (Scenario.world 25 [])))
    = false.
Proof.
  assert (Hnd : NoDup (map Supabase.msg_id
                         (Supabase.messages (Supabase.db (Scenario.world 25 [])))))
    by (vm_compute; literal_lists).
  destruct (quiet_backfill_shows_each_message_once "c1" 1 (Scenario.world 25 [])
              eq_refl Hnd)
    as (Hno & Hall).
  split; [exact Hno|].
  apply Hall. vm_compute. repeat constructor.
Defined.

(** ** Local edit actions *)

(** X13. The local edit actions compose by "the last one wins":
    cancelling after starting an edit is cancelling, starting an edit on [B]
    after starting one on [A] is starting one on [B], cancelling twice is
    cancelling once.  Neither action changes the ids or the contents of the
    list, and starting an edit copies the content of the message into the
    edit box. *)
Theorem last_edit_action_wins
    (A B : ChatWindow.Message) (st : ChatWindow.State) :
  ChatWindow.cancelEditMessage (ChatWindow.startEditMessage B st) =
    ChatWindow.cancelEditMessage st /\
  ChatWindow.startEditMessage B (ChatWindow.startEditMessage A st) =
    ChatWindow.startEditMessage B st /\
  ChatWindow.cancelEditMessage (ChatWindow.cancelEditMessage st) =
    ChatWindow.cancelEditMessage st /\
  map ChatWindow.content (ChatWindow.messages (ChatWindow.startEditMessage B st)) =
    map ChatWindow.content (ChatWindow.messages st) /\
  map ChatWindow.content (ChatWindow.messages (ChatWindow.cancelEditMessage st)) =
    map ChatWindow.content (ChatWindow.messages st) /\
  ChatWindow.editMessage (ChatWindow.startEditMessage B st) = ChatWindow.content B /\
  ChatWindow.editMessage (ChatWindow.cancelEditMessage st) = "".
Proof.
  destruct st as [ms nm em ld pg hm].
  unfold ChatWindow.cancelEditMessage, ChatWindow.startEditMessage,
    ChatWindow.setEditMessage, ChatWindow.setMessages. simpl.
  repeat split.
  - f_equal. rewrite map_map. apply map_ext. intros m.
    now destruct (ChatWindow.id m =? ChatWindow.id B)%string.
  - f_equal. rewrite map_map. apply map_ext. intros m.
    destruct (ChatWindow.id m =? ChatWindow.id A)%string; simpl;
      now destruct (ChatWindow.id m =? ChatWindow.id B)%string.
  - f_equal. rewrite map_map. now apply map_ext.
  - rewrite map_map. apply map_ext. intros m.
    now destruct (ChatWindow.id m =? ChatWindow.id B)%string.
  - rewrite map_map. now apply map_ext.
Qed.

(** ** Rejecting and accepting requests *)

(** X14. Rejecting a request always shows "Friend request rejected" and
    never a failure, also when the request to the store fails, in which case
    no status has changed.  When the request does not fail, the requests
    with the given id, and no others, are set to rejected, whatever their
    status was.  No conversation, participant, message or user is touched. *)
Theorem reject_always_reports_success (requestId : string) (w : Supabase.World) :
  let out := Requests.handleRejectRequest requestId w in
  let d := Supabase.db w in
  let d' := Supabase.db (snd out) in
  Supabase.toasts (snd out) =
    Supabase.toasts w ++ [(Supabase.Success, "Friend request rejected")] /\
  Supabase.calls (snd out) =
    Supabase.calls w ++ [Supabase.UpdateRequestStatus requestId "rejected"] /\
  Supabase.friend_requests d' =
    match hd None (Supabase.net w) with
    | Some _ => Supabase.friend_requests d
    | None =>
        map (fun r => if (Supabase.fr_id r =? requestId)%string
                      then Supabase.with_status "rejected" r else r)
            (Supabase.friend_requests d)
    end /\
  Supabase.conversations d' = Supabase.conversations d /\
  Supabase.participants d' = Supabase.participants d /\
  Supabase.messages d' = Supabase.messages d /\
  Supabase.users d' = Supabase.users d.
Proof.
  cbv zeta.
  unfold Requests.handleRejectRequest, Requests.update_status, try_catch,
    bindT, lift, bind, Supabase.request.
  destruct (hd None (Supabase.net w)); simpl; repeat split.
Qed.

(** An acceptance whose three requests do not fail. *)
Lemma handleAcceptRequest_ok (requestId : string) (w : Supabase.World)
    (r : Supabase.FriendRequestRow) :
  Supabase.ok_at 0 w -> Supabase.ok_at 1 w -> Supabase.ok_at 2 w ->
  filter (fun x => (Supabase.fr_id x =? requestId)%string)
         (Supabase.friend_requests (Supabase.db w)) = [r] ->
  let d := Supabase.db w in
  let c := Supabase.gen_id "conv-" (Supabase.next_id d) in
  FriendsList.handleAcceptRequest requestId w =
  (Some c,
   {| Supabase.db :=
        {| Supabase.users := Supabase.users d;
           Supabase.messages := Supabase.messages d;
           Supabase.friend_requests :=
             map (fun x => if (Supabase.fr_id x =? requestId)%string
                           then Supabase.with_status "accepted" x else x)
                 (Supabase.friend_requests d);
           Supabase.conversations :=
             Supabase.conversations d ++
               [ {| Supabase.conv_id := c;
                    Supabase.conv_created_at := Supabase.clock d |} ];
           Supabase.participants :=
             Supabase.participants d ++
               [ {| Supabase.part_conversation_id := c;
                    Supabase.part_user_id := Supabase.fr_sender_id r |};
                 {| Supabase.part_conversation_id := c;
                    Supabase.part_user_id := Supabase.fr_receiver_id r |} ];
           Supabase.clock := (Supabase.clock d + 1)%Z;
           Supabase.next_id := S (Supabase.next_id d) |};
      Supabase.net := tl (tl (tl (Supabase.net w)));
      Supabase.calls :=
        ((Supabase.calls w ++ [Supabase.UpdateRequestStatus requestId "accepted"])
           ++ [Supabase.InsertConversation])
          ++ [Supabase.InsertParticipants
                [ {| Supabase.part_conversation_id := c;
                     Supabase.part_user_id := Supabase.fr_sender_id r |};
                  {| Supabase.part_conversation_id := c;
                     Supabase.part_user_id := Supabase.fr_receiver_id r |} ]];
      Supabase.feed := Supabase.feed w;
      Supabase.toasts :=
        Supabase.toasts w ++ [(Supabase.Success, "Friend request accepted")];
      Supabase.scrolls := Supabase.scrolls w |}).
Proof.
  intros H0 H1 H2 Hr. cbv zeta.
  unfold FriendsList.handleAcceptRequest, try_catch, bindT, lift.
  rewrite update_request_status_eq. cbv zeta.
  unfold Supabase.insert_conversation, Supabase.insert_participants,
    Supabase.request, Supabase.read_db, Supabase.write_db, Supabase.toast,
    Supabase.throw_on_error, Supabase.ok_at, bind, ret, throw, pure in *.
  destruct w as [d fates calls feed toasts scrolls]. simpl in *.
  rewrite Hr.
  destruct fates as [|[e0|] [|[e1|] [|[e2|] rest]]]; simpl in *;
    try discriminate; reflexivity.
Qed.

Lemma accepted_still_found (requestId status : string)
    (rs : list Supabase.FriendRequestRow) :
  filter (fun x => (Supabase.fr_id x =? requestId)%string)
         (map (fun x => if (Supabase.fr_id x =? requestId)%string
                        then Supabase.with_status status x else x) rs) =
  map (Supabase.with_status status)
      (filter (fun x => (Supabase.fr_id x =? requestId)%string) rs).
Proof.
  induction rs as [|x rs IH]; simpl; [reflexivity|].
  destruct (Supabase.fr_id x =? requestId)%string eqn:E; simpl; rewrite E;
    simpl; now rewrite IH.
Qed.

(** X15. Accepting does not look at the status of the request.  Whatever
    the status of the one request that carries the id, an acceptance whose
    three requests do not fail creates a conversation with both parties; and
    accepting the same request again creates a second conversation with the
    same two parties. *)
Theorem accepting_again_creates_another_conversation
    (requestId : string) (w : Supabase.World) (r : Supabase.FriendRequestRow) :
  (forall i, i < 6 -> Supabase.ok_at i w) ->
  filter (fun x => (Supabase.fr_id x =? requestId)%string)
         (Supabase.friend_requests (Supabase.db w)) = [r] ->
  let first := FriendsList.handleAcceptRequest requestId w in
  let second := FriendsList.handleAcceptRequest requestId (snd first) in
  let d := Supabase.db w in
  let c1 := Supabase.gen_id "conv-" (Supabase.next_id d) in
  let c2 := Supabase.gen_id "conv-" (S (Supabase.next_id d)) in
  fst first = Some c1 /\
  fst second = Some c2 /\
  Supabase.conversations (Supabase.db (snd second)) =
    Supabase.conversations d ++
      [ {| Supabase.conv_id := c1; Supabase.conv_created_at := Supabase.clock d |};
        {| Supabase.conv_id := c2;
           Supabase.conv_created_at := (Supabase.clock d + 1)%Z |} ] /\
  Supabase.participants (Supabase.db (snd second)) =
    Supabase.participants d ++
      [ {| Supabase.part_conversation_id := c1;
           Supabase.part_user_id := Supabase.fr_sender_id r |};
        {| Supabase.part_conversation_id := c1;
           Supabase.part_user_id := Supabase.fr_receiver_id r |};
        {| Supabase.part_conversation_id := c2;
           Supabase.part_user_id := Supabase.fr_sender_id r |};
        {| Supabase.part_conversation_id := c2;
           Supabase.part_user_id := Supabase.fr_receiver_id r |} ] /\
  Supabase.toasts (snd second) =
    Supabase.toasts w ++
      [ (Supabase.Success, "Friend request accepted");
        (Supabase.Success, "Friend request accepted") ].
Proof.
  intros Hok Hr. cbv zeta.
  rewrite (handleAcceptRequest_ok requestId w r
             (Hok 0 ltac:(lia)) (Hok 1 ltac:(lia)) (Hok 2 ltac:(lia)) Hr).
  cbv zeta. cbn [fst snd].
  set (w1 := {| Supabase.db := _ |}).
  assert (Hnet : forall i, i < 3 -> Supabase.ok_at i w1).
  { intros i Hi. unfold Supabase.ok_at, w1. simpl.
    assert (H3 := Hok 3 ltac:(lia)). assert (H4 := Hok 4 ltac:(lia)).
    assert (H5 := Hok 5 ltac:(lia)). unfold Supabase.ok_at in *.
    destruct (Supabase.net w) as [|f0 [|f1 [|f2 [|f3 [|f4 [|f5 rest]]]]]];
      destruct i as [|[|[|i]]]; simpl in *; auto; lia. }
  assert (Hr1 : filter (fun x => (Supabase.fr_id x =? requestId)%string)
                       (Supabase.friend_requests (Supabase.db w1)) =
                [Supabase.with_status "accepted" r]).
  { unfold w1. simpl. now rewrite accepted_still_found, Hr. }
  rewrite (handleAcceptRequest_ok requestId w1 _
             (Hnet 0 ltac:(lia)) (Hnet 1 ltac:(lia)) (Hnet 2 ltac:(lia)) Hr1).
  unfold w1. simpl. repeat split; now rewrite <- app_assoc.
Qed.

Lemma accepting_again_creates_another_conversation_witness :
  map Supabase.conv_id
    (Supabase.conversations
       (Supabase.db
          (snd (FriendsList.handleAcceptRequest "r1"
                  (snd (FriendsList.handleAcceptRequest "r1"
                          (Casebook.world [])))))))
    = ["conv-4"; "conv-5"].
Proof.
  destruct (accepting_again_creates_another_conversation "r1" (Casebook.world [])
              {| Supabase.fr_id := "r1"; Supabase.fr_sender_id := "alice";
                 Supabase.fr_receiver_id := "bob"; Supabase.fr_status := "pending";
                 Supabase.fr_created_at := 0 |})
    as (_ & _ & Hc & _).
  - intros [|[|[|[|[|[|i]]]]]] Hi; reflexivity || lia.
  - reflexivity.
  - rewrite Hc. reflexivity.
Defined.

(** ** Sending a friend request *)

Lemma between_involves (a b : string) (r : Supabase.FriendRequestRow) :
  AddFriend.between a b r = true ->
  AddFriend.involves a r && AddFriend.involves b r = true.
Proof.
  unfold AddFriend.between, AddFriend.involves.
  destruct (Supabase.fr_sender_id r =? a)%string,
           (Supabase.fr_receiver_id r =? b)%string,
           (Supabase.fr_sender_id r =? b)%string,
           (Supabase.fr_receiver_id r =? a)%string; simpl; congruence.
Qed.

(** The test on the answer of the store finds a request between the two
    users exactly when the table holds one. *)
Lemma existing_request_found (a b : string) (rs : list Supabase.FriendRequestRow) :
  existsb (AddFriend.between a b)
          (filter (fun r => AddFriend.involves a r && AddFriend.involves b r) rs) =
  existsb (AddFriend.between a b) rs.
Proof.
  induction rs as [|r rs IH]; simpl; [reflexivity|].
  destruct (AddFriend.between a b r) eqn:B.
  - rewrite (between_involves a b r B). simpl. now rewrite B.
  - destruct (AddFriend.involves a r && AddFriend.involves b r); simpl;
      [rewrite B|]; exact IH.
Qed.

(** Every way [handleSendRequest] can end. *)
Lemma handleSendRequest_effect (userId : string) (st : AddFriend.State)
    (k : AddFriend.Desk) :
  let out := AddFriend.handleSendRequest userId st k in
  let d := Supabase.db (AddFriend.world k) in
  let d' := Supabase.db (AddFriend.world (snd out)) in
  let before := Supabase.toasts (AddFriend.world k) in
  let after := Supabase.toasts (AddFriend.world (snd out)) in
  AddFriend.loading (fst out) = false /\
  ((d' = d /\ AddFriend.email (fst out) = AddFriend.email st /\
    exists text, after = before ++ [(Supabase.Failure, text)]) \/
   (exists u,
      In u (Supabase.users d) /\
      Supabase.user_email u = AddFriend.email st /\
      Supabase.user_id u <> userId /\
      existsb (AddFriend.between userId (Supabase.user_id u))
              (Supabase.friend_requests d) = false /\
      d' = Supabase.tick
             (Supabase.set_friend_requests
                (Supabase.friend_requests d ++
                   [ {| Supabase.fr_id :=
                          Supabase.gen_id "req-" (Supabase.next_id d);
                        Supabase.fr_sender_id := userId;
                        Supabase.fr_receiver_id := Supabase.user_id u;
                        Supabase.fr_status := "pending";
                        Supabase.fr_created_at := Supabase.clock d |} ]) d) /\
      AddFriend.email (fst out) = "" /\
      after = before ++ [(Supabase.Success, "Friend request sent!")])).
Proof.
  cbv zeta.
  unfold AddFriend.handleSendRequest, AddFriend.find_user_by_email,
    AddFriend.find_requests_of, AddFriend.insert_request,
    AddFriend.throw_on_error, AddFriend.ask, AddFriend.on_world,
    Supabase.read_db, Supabase.write_db, Supabase.toast,
    try_catch, bindT, lift, bind, ret, throw, pure.
  destruct k as [[d fates calls feed toasts scrolls] qs]. simpl.
  destruct fates as [|[e0|] [|[e1|] [|[e2|] rest]]]; simpl.
  all: try (split; [reflexivity|]; left; repeat split; eexists; reflexivity).
  all: destruct (filter (fun u => (Supabase.user_email u =? AddFriend.email st)%string)
                        (Supabase.users d)) as [|u [|u' us]] eqn:F; simpl.
  all: try (split; [reflexivity|]; left; repeat split; eexists; reflexivity).
  all: destruct (String.eqb_spec (Supabase.user_id u) userId) as [E|E]; simpl.
  all: try (split; [reflexivity|]; left; repeat split; eexists; reflexivity).
  all: assert (Hu : In u (Supabase.users d) /\
                    Supabase.user_email u = AddFriend.email st)
         by (assert (Hin : In u [u]) by (now left);
             rewrite <- F in Hin; apply filter_In in Hin as [Hin He];
             split; [exact Hin | now apply String.eqb_eq]).
  all: try rewrite existing_request_found.
  all: destruct (existsb (AddFriend.between userId (Supabase.user_id u))
                         (Supabase.friend_requests d)) eqn:X; simpl.
  all: try (split; [reflexivity|]; left; repeat split; eexists; reflexivity).
  all: split; [reflexivity|]; right; exists u; destruct Hu as [Hin He];
       repeat split; auto.
Qed.



(** X17. All or nothing: however its requests fare, [handleSendRequest]
    ends with the loading flag cleared and exactly one notification, and
    either it has stored one pending request from the user to another user
    who owns the email in the form, reported success and emptied the form, or
    it has left the database as it was, kept the email in the form and
    reported a failure. *)
Theorem friend_request_all_or_nothing (userId : string) (st : AddFriend.State)
    (k : AddFriend.Desk) :
  let out := AddFriend.handleSendRequest userId st k in
  let d := Supabase.db (AddFriend.world k) in
  let d' := Supabase.db (AddFriend.world (snd out)) in
  let before := Supabase.toasts (AddFriend.world k) in
  let after := Supabase.toasts (AddFriend.world (snd out)) in
  AddFriend.loading (fst out) = false /\
  ((d' = d /\ AddFriend.email (fst out) = AddFriend.email st /\
    exists text, after = before ++ [(Supabase.Failure, text)]) \/
   (exists row,
      Supabase.friend_requests d' = Supabase.friend_requests d ++ [row] /\
      Supabase.fr_sender_id row = userId /\
      Supabase.fr_receiver_id row <> userId /\
      Supabase.fr_status row = "pending" /\
      (exists u, In u (Supabase.users d) /\
                 Supabase.user_id u = Supabase.fr_receiver_id row /\
                 Supabase.user_email u = AddFriend.email st) /\
      Supabase.users d' = Supabase.users d /\
      Supabase.conversations d' = Supabase.conversations d /\
      Supabase.participants d' = Supabase.participants d /\
      Supabase.messages d' = Supabase.messages d /\
      AddFriend.email (fst out) = "" /\
      after = before ++ [(Supabase.Success, "Friend request sent!")])).
Proof.
  cbv zeta.
  destruct (handleSendRequest_effect userId st k)
    as (Hl & [H | (u & Hin & He & Hne & _ & Hd & Hem & Ht)]).
  - split; [exact Hl|]. now left.
  - split; [exact Hl|]. right. eexists. rewrite Hd. simpl.
    repeat split; eauto.
Qed.





(** ** The route guard *)

(** X19. A redirect of the guard is never answered by another redirect:
    the path it sends the visitor to is served when the same visitor asks for
    it. *)
Theorem redirects_settle {S : Type} (session : option S)
    (pathname target : string) :
  Middleware.middleware session pathname = Middleware.Redirect target ->
  Middleware.middleware session target = Middleware.Next.
Proof.
  unfold Middleware.middleware.
  destruct session as [s|];
    destruct (Middleware.startsWith pathname "/auth/login");
    destruct (Middleware.startsWith pathname "/auth/signup"); simpl;
    intros H; inversion H; reflexivity.
Qed.

Lemma redirects_settle_witness :
  Middleware.middleware (@None unit) "/chat" = Middleware.Redirect "/auth/login" /\
  Middleware.middleware (@None unit) "/auth/login" = Middleware.Next.
Proof.
  assert (H : Middleware.middleware (@None unit) "/chat" =
              Middleware.Redirect "/auth/login") by reflexivity.
  split; [exact H|].
  exact (redirects_settle None "/chat" "/auth/login" H).
Defined.

(** X20. The guard serves a page only to the visitors it is meant for:
    a path is served to a visitor without session exactly when it starts
    with /auth/login or /auth/signup, and to a visitor with a session exactly
    when it starts with neither.  Every other request is redirected, a
    visitor without session to /auth/login and a visitor with a session to
    /chat. *)
Theorem guard_serves_the_right_audience {S : Type} (session : option S)
    (pathname : string) :
  let auth_page := Middleware.startsWith pathname "/auth/login" ||
                   Middleware.startsWith pathname "/auth/signup" in
  match session with
  | None =>
      (auth_page = true /\
       Middleware.middleware session pathname = Middleware.Next) \/
      (auth_page = false /\
       Middleware.middleware session pathname = Middleware.Redirect "/auth/login")
  | Some _ =>
      (auth_page = false /\
       Middleware.middleware session pathname = Middleware.Next) \/
      (auth_page = true /\
       Middleware.middleware session pathname = Middleware.Redirect "/chat")
  end.
Proof.
  unfold Middleware.middleware.
  destruct session as [s|];
    destruct (Middleware.startsWith pathname "/auth/login");
    destruct (Middleware.startsWith pathname "/auth/signup"); simpl; auto.
Qed.

(** ** Selecting another conversation *)


(** ** Refreshing the requests panel *)

(** How a refresh of the panel ends, by the fates of its two requests. *)
Lemma fetchFriendsAndRequests_eq (userId : string)
    (conversations_of : Supabase.Db -> string -> list Panel.ConversationJson)
    (st : Panel.State) (k : Panel.Desk) :
  let w := Panel.world k in
  let d := Supabase.db w in
  let pending :=
    map Panel.with_parties
        (map (Panel.embed_parties d)
             (filter (Panel.pending_for userId) (Supabase.friend_requests d))) in
  let spent n :=
    {| Supabase.db := d; Supabase.net := Nat.iter n (@tl _) (Supabase.net w);
       Supabase.calls := Supabase.calls w; Supabase.feed := Supabase.feed w;
       Supabase.toasts := Supabase.toasts w;
       Supabase.scrolls := Supabase.scrolls w |} in
  let told n (e : Supabase.PgError) :=
    {| Supabase.db := d; Supabase.net := Nat.iter n (@tl _) (Supabase.net w);
       Supabase.calls := Supabase.calls w; Supabase.feed := Supabase.feed w;
       Supabase.toasts :=
         Supabase.toasts w ++
           [(Supabase.Failure,
             Js.or_else (Supabase.message e) "Failed to load friends")];
       Supabase.scrolls := Supabase.scrolls w |} in
  Panel.fetchFriendsAndRequests userId conversations_of st k =
  match hd None (Supabase.net w), hd None (tl (Supabase.net w)) with
  | Some e, _ =>
      (Panel.setLoading false (Panel.setLoading true st),
       {| Panel.world := told 1 e;
          Panel.queries :=
            Panel.queries k ++ [Panel.SelectPendingRequests userId] |})
  | None, Some e =>
      (Panel.setLoading false
         (Panel.setPendingRequests pending (Panel.setLoading true st)),
       {| Panel.world := told 2 e;
          Panel.queries :=
            (Panel.queries k ++ [Panel.SelectPendingRequests userId])
              ++ [Panel.SelectConversations userId] |})
  | None, None =>
      (Panel.setLoading false
         (Panel.setConversations
            (map Panel.with_participants (conversations_of d userId))
            (Panel.setPendingRequests pending (Panel.setLoading true st))),
       {| Panel.world := spent 2;
          Panel.queries :=
            (Panel.queries k ++ [Panel.SelectPendingRequests userId])
              ++ [Panel.SelectConversations userId] |})
  end.
Proof.
  cbv zeta.
  unfold Panel.fetchFriendsAndRequests, Panel.select_pending,
    Panel.select_conversations, Panel.ask, Panel.on_world,
    Supabase.read_db, Supabase.toast, try_catch, bindT, lift, bind, ret,
    throw, pure.
  destruct k as [[d fates calls feed toasts scrolls] qs]. simpl.
  destruct fates as [|[e0|] [|[e1|] rest]]; reflexivity.
Qed.

(** X22. A refresh of the panel asks for the pending requests first and
    for the conversations second, and a failure stops it where it is.  If
    the first request fails, both lists stay as they were and the second
    request is not sent.  If only the second fails, the pending requests are
    already replaced while the conversations stay as they were.  A failure is
    shown once; the loading flag ends cleared and the database is not
    touched in any case. *)
Theorem refresh_stops_at_the_first_failure (userId : string)
    (conversations_of : Supabase.Db -> string -> list Panel.ConversationJson)
    (st : Panel.State) (k : Panel.Desk) :
  let out := Panel.fetchFriendsAndRequests userId conversations_of st k in
  let w := Panel.world k in
  let w' := Panel.world (snd out) in
  let d := Supabase.db w in
  let pending :=
    map Panel.with_parties
        (map (Panel.embed_parties d)
             (filter (Panel.pending_for userId) (Supabase.friend_requests d))) in
  let failure (e : Supabase.PgError) :=
    (Supabase.Failure,
     if (Supabase.message e =? "")%string then "Failed to load friends"
     else Supabase.message e) in
  Panel.loading (fst out) = false /\
  Supabase.db w' = d /\
  match hd None (Supabase.net w), hd None (tl (Supabase.net w)) with
  | Some e, _ =>
      Panel.pendingRequests (fst out) = Panel.pendingRequests st /\
      Panel.conversations (fst out) = Panel.conversations st /\
      Panel.queries (snd out) =
        Panel.queries k ++ [Panel.SelectPendingRequests userId] /\
      Supabase.toasts w' = Supabase.toasts w ++ [failure e]
  | None, Some e =>
      Panel.pendingRequests (fst out) = pending /\
      Panel.conversations (fst out) = Panel.conversations st /\
      Panel.queries (snd out) =
        Panel.queries k ++ [Panel.SelectPendingRequests userId;
                            Panel.SelectConversations userId] /\
      Supabase.toasts w' = Supabase.toasts w ++ [failure e]
  | None, None =>
      Panel.pendingRequests (fst out) = pending /\
      Panel.conversations (fst out) =
        map Panel.with_participants (conversations_of d userId) /\
      Panel.queries (snd out) =
        Panel.queries k ++ [Panel.SelectPendingRequests userId;
                            Panel.SelectConversations userId] /\
      Supabase.toasts w' = Supabase.toasts w
  end.
Proof.
  cbv zeta. rewrite fetchFriendsAndRequests_eq. cbv zeta.
  unfold Js.or_else, Js.truthy.
  destruct (hd None (Supabase.net (Panel.world k))) as [e0|];
    [|destruct (hd None (tl (Supabase.net (Panel.world k)))) as [e1|]];
    simpl; repeat split; rewrite <- ?app_assoc; try reflexivity.
  - now destruct (Supabase.message e0 =? "")%string.
  - now destruct (Supabase.message e1 =? "")%string.
Qed.

Lemma pending_after_handling (userId requestId verdict : string)
    (d : Supabase.Db) (rs : list Supabase.FriendRequestRow) :
  verdict <> "pending" ->
  let rs' := map (fun r => if (Supabase.fr_id r =? requestId)%string
                           then Supabase.with_status verdict r else r) rs in
  (forall p,
     In p (map Panel.with_parties
             (map (Panel.embed_parties d) (filter (Panel.pending_for userId) rs'))) ->
     Panel.id p <> requestId /\ Panel.receiver_id p = userId /\
     Panel.status p = "pending") /\
  (forall r, In r rs -> Supabase.fr_id r <> requestId ->
             Supabase.fr_receiver_id r = userId ->
             Supabase.fr_status r = "pending" ->
             exists p,
               In p (map Panel.with_parties
                       (map (Panel.embed_parties d)
                            (filter (Panel.pending_for userId) rs'))) /\
               Panel.id p = Supabase.fr_id r).
Proof.
  intros Hv. cbv zeta. split.
  - intros p Hp. apply in_map_iff in Hp as [j [<- Hj]].
    apply in_map_iff in Hj as [r [<- Hr]].
    apply filter_In in Hr as [Hr Hp]. apply in_map_iff in Hr as [r0 [<- Hr0]].
    unfold Panel.pending_for in Hp. apply andb_prop in Hp as [H1 H2].
    apply String.eqb_eq in H1. apply String.eqb_eq in H2. simpl.
    destruct (String.eqb_spec (Supabase.fr_id r0) requestId) as [E|E].
    + simpl in H2. congruence.
    + auto.
  - intros r Hr Hid Hrec Hst.
    exists (Panel.with_parties (Panel.embed_parties d r)). split; [|reflexivity].
    apply in_map, in_map, filter_In. split.
    + apply in_map_iff. exists r. split; [|exact Hr].
      destruct (String.eqb_spec (Supabase.fr_id r) requestId); [contradiction|].
      reflexivity.
    + unfold Panel.pending_for. now rewrite Hrec, Hst, !String.eqb_refl.
Qed.

(** X23. A request that has been handled leaves the list of pending
    requests at the next refresh: after a rejection whose request did not
    fail, or an acceptance whose requests did not fail, a refresh whose first
    request does not fail lists only pending requests addressed to the user,
    none of them with the id of the handled request, and still lists every
    other pending request addressed to the user. *)
Theorem handled_request_leaves_the_pending_list (userId requestId : string)
    (conversations_of : Supabase.Db -> string -> list Panel.ConversationJson)
    (st : Panel.State) (w : Supabase.World) (asked : list Panel.Query)
    (r : Supabase.FriendRequestRow) :
  (forall i, i < 4 -> Supabase.ok_at i w) ->
  filter (fun x => (Supabase.fr_id x =? requestId)%string)
         (Supabase.friend_requests (Supabase.db w)) = [r] ->
  let refreshed (w1 : Supabase.World) :=
    Panel.pendingRequests
      (fst (Panel.fetchFriendsAndRequests userId conversations_of st
              {| Panel.world := w1; Panel.queries := asked |})) in
  let handled (l : list Panel.FriendRequest) :=
    (forall p, In p l ->
               Panel.id p <> requestId /\ Panel.receiver_id p = userId /\
               Panel.status p = "pending") /\
    (forall x, In x (Supabase.friend_requests (Supabase.db w)) ->
               Supabase.fr_id x <> requestId ->
               Supabase.fr_receiver_id x = userId ->
               Supabase.fr_status x = "pending" ->
               exists p, In p l /\ Panel.id p = Supabase.fr_id x) in
  handled (refreshed (snd (Requests.handleRejectRequest requestId w))) /\
  handled (refreshed (snd (FriendsList.handleAcceptRequest requestId w))).
Proof.
  intros Hok Hr. cbv zeta.
  assert (N : forall i, i < 4 -> nth i (Supabase.net w) None = None)
    by exact Hok.
  split.
  - rewrite fetchFriendsAndRequests_eq. cbv zeta.
    unfold Requests.handleRejectRequest, Requests.update_status, try_catch,
      bindT, lift, bind, Supabase.request.
    rewrite (ok_at_next w (Hok 0 ltac:(lia))). simpl.
    replace (hd None (tl (Supabase.net w))) with (@None Supabase.PgError).
    2: { specialize (N 1 ltac:(lia)).
         destruct (Supabase.net w) as [|f0 [|f1 rest]]; simpl in *; auto. }
    destruct (hd None (tl (tl (Supabase.net w)))); simpl;
      apply (pending_after_handling userId requestId "rejected");
      discriminate.
  - rewrite (handleAcceptRequest_ok requestId w r
               (Hok 0 ltac:(lia)) (Hok 1 ltac:(lia)) (Hok 2 ltac:(lia)) Hr).
    rewrite fetchFriendsAndRequests_eq. cbv zeta. simpl.
    replace (hd None (tl (tl (tl (Supabase.net w)))))
      with (@None Supabase.PgError).
    2: { specialize (N 3 ltac:(lia)).
         destruct (Supabase.net w) as [|f0 [|f1 [|f2 [|f3 rest]]]];
           simpl in *; auto. }
    destruct (hd None (tl (tl (tl (tl (Supabase.net w)))))); simpl;
      apply (pending_after_handling userId requestId "accepted");
      discriminate.
Qed.

Lemma handled_request_leaves_the_pending_list_witness :
  Panel.pendingRequests
    (fst (Panel.fetchFriendsAndRequests "bob" (fun _ _ => []) 
            {| Panel.pendingRequests := []; Panel.conversations := [];
               Panel.loading := true |}
            {| Panel.world := Casebook.world []; Panel.queries := [] |}))
    <> [] /\
  Panel.pendingRequests
    (fst (Panel.fetchFriendsAndRequests "bob" (fun _ _ => [])
            {| Panel.pendingRequests := []; Panel.conversations := [];
               Panel.loading := true |}
            {| Panel.world :=
                 snd (Requests.handleRejectRequest "r1" (Casebook.world []));
               Panel.queries := [] |})) = [].
Proof.
  split; [vm_compute; discriminate|].
  destruct (handled_request_leaves_the_pending_list "bob" "r1" (fun _ _ => [])
              {| Panel.pendingRequests := []; Panel.conversations := [];
                 Panel.loading := true |}
              (Casebook.world []) []
              {| Supabase.fr_id := "r1"; Supabase.fr_sender_id := "alice";
                 Supabase.fr_receiver_id := "bob"; Supabase.fr_status := "pending";
                 Supabase.fr_created_at := 0 |})
    as ((Hnone & _) & _).
  - intros [|[|[|[|i]]]] Hi; reflexivity || lia.
  - reflexivity.
  - destruct (Panel.pendingRequests _) as [|p l] eqn:E; [reflexivity|].
    destruct (Hnone p (or_introl eq_refl)) as (Hid & _).
    exfalso. apply Hid. vm_compute in E. discriminate E.
Defined.
